(** * Connected Car Telemetry Dashboard: the simulation and broadcast core

    A shallow embedding of [Server.py]: the per-vehicle telemetry simulator,
    the threshold alert evaluator, the websocket connection manager and the
    loop that the websocket handler runs, and the vehicle and telemetry
    routes.

    Conventions of the embedding.
    - Python floats are idealised as exact rationals ([Q]); equalities
      between computed numbers are therefore stated with [==]. The one
      rounding that is modelled is the float addition inside [%], on which
      the range of the heading depends.
    - [datetime] values are seconds on a time line ([Q]); the difference of
      two of them is their [total_seconds()].
    - What the process reads from its surroundings (the clock, the random
      generator, uuid4, the outcome of a database or socket call) is an
      explicit input of the function that reads it.
    - Library functions whose result is a float or a text ([math.cos],
      [json.dumps], ...) are the fields of a [Runtime] record. *)

From Stdlib Require Import QArith Qround Qminmax Lqa ZArith List String Ascii.
From stdpp Require Import gmap strings pretty sorting.

Local Open Scope Q_scope.

(** ** Python built-ins on numbers *)

Module Py.

Definition ltb (x y : Q) : bool := negb (Qle_bool y x).

(** [max(a, b)] keeps its first argument unless the second is greater. *)
Definition max (a b : Q) : Q := if ltb a b then b else a.

(** [min(a, b)] keeps its first argument unless the second is smaller. *)
Definition min (a b : Q) : Q := if ltb b a then b else a.

(** [random.uniform(a, b)] is [a + (b - a) * random()]; [u] is the value
    of that call to [random()]. *)
Definition uniform (a b u : Q) : Q := a + (b - a) * u.

(** Rounding of a number to the nearest integer, ties to the even one. *)
Definition round_half_even (x : Q) : Z :=
  let f := Qfloor x in
  let r := x - inject_Z f in
  if ltb r (1 # 2) then f
  else if ltb (1 # 2) r then (f + 1)%Z
  else if Z.even f then f else (f + 1)%Z.

(** [2 ** e]. *)
Definition pow2 (e : Z) : Q :=
  if (0 <=? e)%Z then inject_Z (2 ^ e) else / inject_Z (2 ^ (- e)).

(** The binary exponent of a positive number: the [e] with
    [2 ** e <= x < 2 ** (e + 1)]. *)
Definition exponent (x : Q) : Z :=
  if Qle_bool 1 x then Z.log2 (Qfloor x) else (- Z.log2_up (Qceiling (/ x)))%Z.

(** The double nearest to a positive number, ties to the even significand:
    what a float addition returns for its exact sum. A significand has 53
    bits; the exponent range of doubles is not modelled. *)
Definition nearest_double (x : Q) : Q :=
  let ulp := pow2 (exponent x - 52) in
  inject_Z (round_half_even (x / ulp)) * ulp.

(** The integer part of a number, towards zero. *)
Definition trunc (x : Q) : Z := if Qle_bool 0 x then Qfloor x else Qceiling x.

(** [math.fmod(x, m)]: the remainder with the sign of [x]; it is exact. *)
Definition fmod (x m : Q) : Q := x - m * inject_Z (trunc (x / m)).

(** [x % m] on floats for a positive [m], as CPython computes it: the
    remainder [fmod(x, m)], and when that is negative the float sum
    [fmod(x, m) + m]. The sum is rounded, so that the result is [m] itself
    for a remainder just below zero. *)
Definition mod_ (x m : Q) : Q :=
  let r := fmod x m in
  if ltb r 0 then nearest_double (r + m) else r.

(** [round(x, ndigits)]. *)
Definition round (x : Q) (ndigits : nat) : Q :=
  let scale := inject_Z (10 ^ Z.of_nat ndigits) in
  inject_Z (round_half_even (x * scale)) / scale.

End Py.


(** ** Data model *)

Abbreviation datetime := Q (only parsing).

(** [class Vehicle(BaseModel)]. *)
Module Vehicle.
Record t := mk {
  id : string;
  name : string;
  model : string;
  year : Z;
  license_plate : string;
  is_active : bool;
  created_at : datetime
}.
End Vehicle.

(** [class VehicleCreate(BaseModel)]. *)
Module VehicleCreate.
Record t := mk {
  name : string;
  model : string;
  year : Z;
  license_plate : string
}.
End VehicleCreate.

(** [class TelemetryData(BaseModel)]. *)
Module TelemetryData.
Record t := mk {
  id : string;
  vehicle_id : string;
  speed : Q;
  engine_rpm : Q;
  fuel_level : Q;
  engine_temperature : Q;
  latitude : Q;
  longitude : Q;
  timestamp : datetime
}.
End TelemetryData.

(** [class TelemetryAlert(BaseModel)]. *)
Module TelemetryAlert.
Record t := mk {
  vehicle_id : string;
  metric : string;
  value : Q;
  threshold : Q;
  severity : string;
  message : string
}.
End TelemetryAlert.

(** An entry of [vehicle_states]: the dictionary built by
    [initialize_vehicle_state], one field per key. *)
Module State.
Record t := mk {
  speed : Q;
  engine_rpm : Q;
  fuel_level : Q;
  engine_temperature : Q;
  latitude : Q;
  longitude : Q;
  direction : Q;
  last_update : datetime
}.
End State.

(** The dictionary that the loop hands to [manager.broadcast]. *)
Module Message.
Record t := mk {
  type : string;
  timestamp : string;
  data : list TelemetryData.t;
  alerts : list TelemetryAlert.t
}.
End Message.

(** A websocket is an opaque handle. *)
Abbreviation WebSocket := nat (only parsing).

(** Library functions the server calls and whose result the embedding does
    not compute. *)
Record Runtime := {
  radians : Q -> Q;                         (* math.radians *)
  cos : Q -> Q;                             (* math.cos *)
  sin : Q -> Q;                             (* math.sin *)
  str_float : Q -> string;                  (* the text of a float in an f-string *)
  isoformat : datetime -> string;           (* datetime.isoformat *)
  json_dumps : Message.t -> option string   (* json.dumps; None when it raises *)
}.

(** The values [random.random()] returns during one call of
    [initialize_vehicle_state], in call order. *)
Record InitDraws := {
  i_speed : Q;
  i_rpm : Q;
  i_fuel : Q;
  i_temp : Q;
  i_lat : Q;
  i_lng : Q;
  i_dir : Q
}.

(** The values [random.random()] returns during one call of
    [simulate_realistic_telemetry], in call order; [u_dir] is read only when
    the direction changes. *)
Record SimDraws := {
  u_speed : Q;
  u_rpm : Q;
  u_turn : Q;
  u_dir : Q
}.

(** A value of [random.random()] lies in [0, 1). *)
Definition unit_draw (u : Q) : Prop := 0 <= u /\ u < 1.

(** ** Telemetry simulator *)

Definition initialize_vehicle_state (vehicle_id : string) (now : datetime)
    (rnd : InitDraws) : State.t :=
  let base_lat := 37.7749 in
  let base_lng := -122.4194 in
  {| State.speed := Py.uniform 60 80 (i_speed rnd);
     State.engine_rpm := Py.uniform 1500 2500 (i_rpm rnd);
     State.fuel_level := Py.uniform 50 100 (i_fuel rnd);
     State.engine_temperature := Py.uniform 85 95 (i_temp rnd);
     State.latitude := base_lat + Py.uniform (-0.1) 0.1 (i_lat rnd);
     State.longitude := base_lng + Py.uniform (-0.1) 0.1 (i_lng rnd);
     State.direction := Py.uniform 0 360 (i_dir rnd);
     State.last_update := now |}.

(** The state after [simulate_realistic_telemetry] has updated it in place. *)
Definition simulate_state (L : Runtime) (state : State.t)
    (current_time : datetime) (rnd : SimDraws) : State.t :=
  let time_diff := current_time - State.last_update state in
  let speed_change := Py.uniform (-5) 5 (u_speed rnd) * time_diff in
  let speed := Py.max 0 (Py.min 140 (State.speed state + speed_change)) in
  let target_rpm := speed * 35 + Py.uniform (-200) 200 (u_rpm rnd) in
  let engine_rpm := Py.max 800 (Py.min 6500 target_rpm) in
  let fuel_consumption_rate := (speed * 0.001 + engine_rpm * 0.0001) * time_diff in
  let fuel_level := Py.max 0 (State.fuel_level state - fuel_consumption_rate) in
  let temp_target := 90 + (engine_rpm - 2000) * 0.005 in
  let temp_change := (temp_target - State.engine_temperature state) * 0.1 * time_diff in
  let engine_temperature :=
    Py.max 70 (Py.min 120 (State.engine_temperature state + temp_change)) in
  let movement_distance := speed * time_diff / 3600 / 111 in
  let angle_rad := radians L (State.direction state) in
  let latitude := State.latitude state + movement_distance * cos L angle_rad in
  let longitude := State.longitude state + movement_distance * sin L angle_rad in
  let direction :=
    if Py.ltb (u_turn rnd) 0.1
    then Py.mod_ (State.direction state + Py.uniform (-30) 30 (u_dir rnd)) 360
    else State.direction state in
  {| State.speed := speed;
     State.engine_rpm := engine_rpm;
     State.fuel_level := fuel_level;
     State.engine_temperature := engine_temperature;
     State.latitude := latitude;
     State.longitude := longitude;
     State.direction := direction;
     State.last_update := current_time |}.

(** The [TelemetryData] that [simulate_realistic_telemetry] builds from the
    updated state; [uuid] is the value of [uuid.uuid4()] for its [id]. *)
Definition telemetry_of_state (vehicle_id : string) (state : State.t)
    (current_time : datetime) (uuid : string) : TelemetryData.t :=
  {| TelemetryData.id := uuid;
     TelemetryData.vehicle_id := vehicle_id;
     TelemetryData.speed := Py.round (State.speed state) 1;
     TelemetryData.engine_rpm := Py.round (State.engine_rpm state) 0;
     TelemetryData.fuel_level := Py.round (State.fuel_level state) 1;
     TelemetryData.engine_temperature := Py.round (State.engine_temperature state) 1;
     TelemetryData.latitude := Py.round (State.latitude state) 6;
     TelemetryData.longitude := Py.round (State.longitude state) 6;
     TelemetryData.timestamp := current_time |}.

(** [simulate_realistic_telemetry(vehicle_id, state)]: the updated state and
    the returned sample. *)
Definition simulate_realistic_telemetry (L : Runtime) (vehicle_id : string)
    (state : State.t) (current_time : datetime) (rnd : SimDraws)
    (uuid : string) : State.t * TelemetryData.t :=
  let state' := simulate_state L state current_time rnd in
  (state', telemetry_of_state vehicle_id state' current_time uuid).

(** ** Exceptions *)

Inductive exn :=
| AttributeError
| ValueError
| WebSocketDisconnect
| HTTPException (status_code : nat)
| TypeError               (* json.dumps on a value it has no encoding for *)
| OverflowError           (* a Timedelta or a datetime out of its range;
                             OutOfBoundsTimedelta in later versions of pandas *)
| DatabaseError.          (* what a failed call to the database driver raises *)

(** The outcome of a call that either returns or raises. *)
Inductive outcome (A : Type) :=
| Ok (a : A)
| Raise (e : exn).

Arguments Ok {A} a.
Arguments Raise {A} e.

#[global] Instance exn_eq_dec : EqDecision exn.
Proof. solve_decision. Defined.

#[global] Instance outcome_eq_dec {A} `{EqDecision A} : EqDecision (outcome A).
Proof. solve_decision. Defined.

(** ** Python built-ins on strings *)

Module PyStr.

Definition is_lower (c : ascii) : bool :=
  ((97 <=? nat_of_ascii c) && (nat_of_ascii c <=? 122))%nat.

Definition is_upper (c : ascii) : bool :=
  ((65 <=? nat_of_ascii c) && (nat_of_ascii c <=? 90))%nat.

Definition upper (c : ascii) : ascii :=
  if is_lower c then ascii_of_nat (nat_of_ascii c - 32) else c.

Definition lower (c : ascii) : ascii :=
  if is_upper c then ascii_of_nat (nat_of_ascii c + 32) else c.

(** [s.replace(old, new)] for one-character [old] and [new]. *)
Fixpoint replace (old new : ascii) (s : string) : string :=
  match s with
  | EmptyString => EmptyString
  | String c s' => String (if Ascii.eqb c old then new else c) (replace old new s')
  end.

Fixpoint title_from (prev_cased : bool) (s : string) : string :=
  match s with
  | EmptyString => EmptyString
  | String c s' =>
      String (if prev_cased then lower c else upper c)
             (title_from (is_lower c || is_upper c) s')
  end.

(** [s.title()] on ASCII text: a letter is upper-cased after a character
    that is not a letter and lower-cased after a letter. *)
Definition title (s : string) : string := title_from false s.

End PyStr.

(** ** Alert evaluator *)

Module Thresholds.
Record t := mk { max : Q; min : Q }.
End Thresholds.

(** The dictionary [TELEMETRY_THRESHOLDS], in insertion order (the order in
    which [.items()] yields it). *)
Definition TELEMETRY_THRESHOLDS : list (string * Thresholds.t) :=
  [ ("speed"%string, Thresholds.mk 120 0);
    ("engine_rpm"%string, Thresholds.mk 6000 800);
    ("fuel_level"%string, Thresholds.mk 100 10);
    ("engine_temperature"%string, Thresholds.mk 100 80) ].

(** [getattr(telemetry, metric)] for the attributes that hold a float; no
    other attribute can be compared with a threshold. *)
Definition getattr (telemetry : TelemetryData.t) (metric : string) : option Q :=
  if String.eqb metric "speed" then Some (TelemetryData.speed telemetry)
  else if String.eqb metric "engine_rpm" then Some (TelemetryData.engine_rpm telemetry)
  else if String.eqb metric "fuel_level" then Some (TelemetryData.fuel_level telemetry)
  else if String.eqb metric "engine_temperature"
       then Some (TelemetryData.engine_temperature telemetry)
  else if String.eqb metric "latitude" then Some (TelemetryData.latitude telemetry)
  else if String.eqb metric "longitude" then Some (TelemetryData.longitude telemetry)
  else None.

(** The text before the value in an alert's message. *)
Definition alert_message (L : Runtime) (metric : string) (level : string)
    (value : Q) : string :=
  PyStr.title (PyStr.replace "_" " " metric) +:+ " is critically " +:+ level
    +:+ ": " +:+ str_float L value.

(** The body of the [for] loop of [check_telemetry_alerts]. *)
Definition check_metric (L : Runtime) (telemetry : TelemetryData.t)
    (metric : string) (thresholds : Thresholds.t)
    (alerts : list TelemetryAlert.t) : outcome (list TelemetryAlert.t) :=
  match getattr telemetry metric with
  | None => Raise AttributeError
  | Some value =>
      if Py.ltb (Thresholds.max thresholds) value then
        let severity :=
          if Py.ltb (Thresholds.max thresholds * 1.2) value
          then "high"%string else "medium"%string in
        Ok (alerts ++
            [ {| TelemetryAlert.vehicle_id := TelemetryData.vehicle_id telemetry;
                 TelemetryAlert.metric := metric;
                 TelemetryAlert.value := value;
                 TelemetryAlert.threshold := Thresholds.max thresholds;
                 TelemetryAlert.severity := severity;
                 TelemetryAlert.message := alert_message L metric "high" value |} ])
      else if Py.ltb value (Thresholds.min thresholds) then
        let severity :=
          if Py.ltb value (Thresholds.min thresholds * 0.8)
          then "high"%string else "medium"%string in
        Ok (alerts ++
            [ {| TelemetryAlert.vehicle_id := TelemetryData.vehicle_id telemetry;
                 TelemetryAlert.metric := metric;
                 TelemetryAlert.value := value;
                 TelemetryAlert.threshold := Thresholds.min thresholds;
                 TelemetryAlert.severity := severity;
                 TelemetryAlert.message := alert_message L metric "low" value |} ])
      else Ok alerts
  end.

Fixpoint check_loop (L : Runtime) (telemetry : TelemetryData.t)
    (items : list (string * Thresholds.t)) (alerts : list TelemetryAlert.t)
    : outcome (list TelemetryAlert.t) :=
  match items with
  | [] => Ok alerts
  | (metric, thresholds) :: rest =>
      match check_metric L telemetry metric thresholds alerts with
      | Ok alerts' => check_loop L telemetry rest alerts'
      | Raise e => Raise e
      end
  end.

(** [check_telemetry_alerts(telemetry)]. *)
Definition check_telemetry_alerts (L : Runtime) (telemetry : TelemetryData.t)
    : outcome (list TelemetryAlert.t) :=
  check_loop L telemetry TELEMETRY_THRESHOLDS [].

(** ** The process state *)

(** What an observer of the process sees, oldest event first. *)
Inductive event :=
| Broadcast (message : Message.t)      (* manager.broadcast was called *)
| Attempt (websocket : WebSocket)      (* its loop reached this connection *)
| SentText (websocket : WebSocket) (text : string).   (* a send_text returned *)

(** The module-level objects of the server and the two collections of the
    database; [trace] records the observable events and is read by no
    function of the server. *)
Record World := {
  active_connections : list WebSocket;      (* manager.active_connections *)
  vehicles : list Vehicle.t;                (* db.vehicles, in natural order *)
  telemetry : list TelemetryData.t;         (* db.telemetry, in insertion order *)
  vehicle_states : gmap string State.t;     (* vehicle_states *)
  trace : list event
}.

Definition set_active_connections (l : list WebSocket) (w : World) : World :=
  {| active_connections := l; vehicles := vehicles w; telemetry := telemetry w;
     vehicle_states := vehicle_states w; trace := trace w |}.

Definition set_vehicles (l : list Vehicle.t) (w : World) : World :=
  {| active_connections := active_connections w; vehicles := l;
     telemetry := telemetry w; vehicle_states := vehicle_states w;
     trace := trace w |}.

Definition set_telemetry (l : list TelemetryData.t) (w : World) : World :=
  {| active_connections := active_connections w; vehicles := vehicles w;
     telemetry := l; vehicle_states := vehicle_states w; trace := trace w |}.

Definition set_vehicle_states (m : gmap string State.t) (w : World) : World :=
  {| active_connections := active_connections w; vehicles := vehicles w;
     telemetry := telemetry w; vehicle_states := m; trace := trace w |}.

Definition emit (evs : list event) (w : World) : World :=
  {| active_connections := active_connections w; vehicles := vehicles w;
     telemetry := telemetry w; vehicle_states := vehicle_states w;
     trace := trace w ++ evs |}.

(** Code that reads and writes the process state and may raise. *)
Definition M (A : Type) : Type := World -> World * outcome A.

Definition ret {A} (a : A) : M A := fun w => (w, Ok a).

Definition raise {A} (e : exn) : M A := fun w => (w, Raise e).

Definition bind {A B} (m : M A) (k : A -> M B) : M B :=
  fun w =>
    match m w with
    | (w', Ok a) => k a w'
    | (w', Raise e) => (w', Raise e)
    end.

Definition get : M World := fun w => (w, Ok w).

Definition modify (f : World -> World) : M unit := fun w => (f w, Ok tt).

Definition lift {A} (o : outcome A) : M A := fun w => (w, o).

(** [try: body] followed by a bare [except: pass]. *)
Definition try_pass (body : M unit) : M unit :=
  fun w =>
    match body w with
    | (w', Ok _) => (w', Ok tt)
    | (w', Raise _) => (w', Ok tt)
    end.

Notation "x <- m ;; k" := (bind m (fun x => k))
  (at level 100, m at next level, right associativity).
Notation "m ;;; k" := (bind m (fun _ => k))
  (at level 100, right associativity).

(** ** ConnectionManager *)

(** [list.remove(x)]: drops the first occurrence; [None] stands for the
    ValueError raised when there is none. *)
Fixpoint list_remove (x : WebSocket) (l : list WebSocket) : option (list WebSocket) :=
  match l with
  | [] => None
  | y :: l' =>
      if Nat.eqb y x then Some l'
      else match list_remove x l' with
           | Some r => Some (y :: r)
           | None => None
           end
  end.

Module ConnectionManager.

(** [connect(websocket)]: after [accept], the websocket is appended. *)
Definition connect (websocket : WebSocket) : M unit :=
  modify (fun w => set_active_connections (active_connections w ++ [websocket]) w).

(** [disconnect(websocket)]. *)
Definition disconnect (websocket : WebSocket) : M unit :=
  w <- get ;;
  match list_remove websocket (active_connections w) with
  | Some l => modify (set_active_connections l)
  | None => raise ValueError
  end.

(** [json.dumps(message)]. *)
Definition dumps (L : Runtime) (message : Message.t) : M string :=
  match json_dumps L message with
  | Some text => ret text
  | None => raise TypeError
  end.

(** [await connection.send_text(text)]; [send_text] tells how each socket
    answers. *)
Definition send (send_text : WebSocket -> string -> outcome unit)
    (connection : WebSocket) (text : string) : M unit :=
  match send_text connection text with
  | Ok _ => modify (emit [SentText connection text])
  | Raise e => raise e
  end.

(** The [for] loop of [broadcast] over the connections still to visit. *)
Fixpoint broadcast_loop (L : Runtime)
    (send_text : WebSocket -> string -> outcome unit) (message : Message.t)
    (connections : list WebSocket) : M unit :=
  match connections with
  | [] => ret tt
  | connection :: rest =>
      modify (emit [Attempt connection]) ;;;
      try_pass (text <- dumps L message ;; send send_text connection text) ;;;
      broadcast_loop L send_text message rest
  end.

(** [broadcast(message)]. *)
Definition broadcast (L : Runtime) (send_text : WebSocket -> string -> outcome unit)
    (message : Message.t) : M unit :=
  modify (emit [Broadcast message]) ;;;
  w <- get ;;
  broadcast_loop L send_text message (active_connections w).

End ConnectionManager.

(** ** The two database collections *)

Module Db.

(** A call to the driver either goes through ([ok = true]) or raises. *)
Definition reply (ok : bool) : M unit :=
  if ok then ret tt else raise DatabaseError.

(** [db.vehicles.find({"is_active": True}).to_list(n)]. *)
Definition find_active (n : nat) (ok : bool) : M (list Vehicle.t) :=
  reply ok ;;;
  w <- get ;;
  ret (take n (filter (fun v => Vehicle.is_active v = true) (vehicles w))).

(** [db.vehicles.find_one({"id": vehicle_id})]. *)
Definition find_one (vehicle_id : string) (ok : bool) : M (option Vehicle.t) :=
  reply ok ;;;
  w <- get ;;
  ret (List.find (fun v => String.eqb (Vehicle.id v) vehicle_id) (vehicles w)).

(** The documents after [update_one({"id": vehicle_id}, {"$set": ...})]
    and its [matched_count]: only the first match is updated. *)
Fixpoint update_first (vehicle_id : string) (f : Vehicle.t -> Vehicle.t)
    (docs : list Vehicle.t) : list Vehicle.t * nat :=
  match docs with
  | [] => ([], 0%nat)
  | v :: rest =>
      if String.eqb (Vehicle.id v) vehicle_id then (f v :: rest, 1%nat)
      else let '(rest', n) := update_first vehicle_id f rest in (v :: rest', n)
  end.

(** [db.vehicles.update_one(...)], returning [matched_count]. *)
Definition update_one (vehicle_id : string) (f : Vehicle.t -> Vehicle.t)
    (ok : bool) : M nat :=
  reply ok ;;;
  w <- get ;;
  let '(docs, n) := update_first vehicle_id f (vehicles w) in
  modify (set_vehicles docs) ;;;
  ret n.

(** [db.vehicles.insert_one(vehicle.dict())]. *)
Definition insert_vehicle (v : Vehicle.t) (ok : bool) : M unit :=
  reply ok ;;;
  modify (fun w => set_vehicles (vehicles w ++ [v]) w).

(** [db.telemetry.insert_one(telemetry.dict())]. *)
Definition insert_telemetry (t : TelemetryData.t) (ok : bool) : M unit :=
  reply ok ;;;
  modify (fun w => set_telemetry (telemetry w ++ [t]) w).

End Db.

(** ** Vehicle routes *)

(** [POST /vehicles]. *)
Definition create_vehicle (vehicle_data : VehicleCreate.t) (uuid : string)
    (now : datetime) (ok : bool) (state_now : datetime)
    (rnd : InitDraws) : M Vehicle.t :=
  let vehicle :=
    {| Vehicle.id := uuid;
       Vehicle.name := VehicleCreate.name vehicle_data;
       Vehicle.model := VehicleCreate.model vehicle_data;
       Vehicle.year := VehicleCreate.year vehicle_data;
       Vehicle.license_plate := VehicleCreate.license_plate vehicle_data;
       Vehicle.is_active := true;
       Vehicle.created_at := now |} in
  Db.insert_vehicle vehicle ok ;;;
  modify (fun w =>
    set_vehicle_states
      (<[Vehicle.id vehicle := initialize_vehicle_state (Vehicle.id vehicle) state_now rnd]>
         (vehicle_states w)) w) ;;;
  ret vehicle.

(** [GET /vehicles]. *)
Definition get_vehicles (ok : bool) : M (list Vehicle.t) :=
  Db.find_active 100 ok.

(** The update [{"$set": vehicle_dict}] of [update_vehicle]: the four fields
    of [VehicleCreate] and ["id"]. *)
Definition set_vehicle_dict (vehicle_id : string) (vehicle_data : VehicleCreate.t)
    (v : Vehicle.t) : Vehicle.t :=
  {| Vehicle.id := vehicle_id;
     Vehicle.name := VehicleCreate.name vehicle_data;
     Vehicle.model := VehicleCreate.model vehicle_data;
     Vehicle.year := VehicleCreate.year vehicle_data;
     Vehicle.license_plate := VehicleCreate.license_plate vehicle_data;
     Vehicle.is_active := Vehicle.is_active v;
     Vehicle.created_at := Vehicle.created_at v |}.

(** The update [{"$set": {"is_active": False}}] of [delete_vehicle]. *)
Definition set_inactive (v : Vehicle.t) : Vehicle.t :=
  {| Vehicle.id := Vehicle.id v;
     Vehicle.name := Vehicle.name v;
     Vehicle.model := Vehicle.model v;
     Vehicle.year := Vehicle.year v;
     Vehicle.license_plate := Vehicle.license_plate v;
     Vehicle.is_active := false;
     Vehicle.created_at := Vehicle.created_at v |}.

(** [PUT /vehicles/{vehicle_id}]; [ok] and [ok_find] tell whether its two
    database calls go through. *)
Definition update_vehicle (vehicle_id : string) (vehicle_data : VehicleCreate.t)
    (ok ok_find : bool) : M Vehicle.t :=
  matched_count <-
    Db.update_one vehicle_id (set_vehicle_dict vehicle_id vehicle_data) ok ;;
  if Nat.eqb matched_count 0 then raise (HTTPException 404)
  else
    updated_vehicle <- Db.find_one vehicle_id ok_find ;;
    match updated_vehicle with
    | Some v => ret v
    | None => raise (HTTPException 500)   (* no document to build a Vehicle from *)
    end.

(** [DELETE /vehicles/{vehicle_id}]. *)
Definition delete_vehicle (vehicle_id : string) (ok : bool) : M unit :=
  matched_count <- Db.update_one vehicle_id set_inactive ok ;;
  if Nat.eqb matched_count 0 then raise (HTTPException 404)
  else
    w <- get ;;
    match vehicle_states w !! vehicle_id with
    | Some _ => modify (set_vehicle_states (delete vehicle_id (vehicle_states w)))
    | None => ret tt
    end.

(** ** The loop of the websocket handler *)

(** What the process reads while the loop handles one vehicle. *)
Record VehicleInput := {
  init_now : datetime;          (* the clock, if the state is initialised *)
  init_rnd : InitDraws;         (* the random draws of that initialisation *)
  sim_now : datetime;           (* the clock in simulate_realistic_telemetry *)
  sim_rnd : SimDraws;
  sim_uuid : string;            (* the id of the new sample *)
  insert_ok : bool              (* whether db.telemetry.insert_one goes through *)
}.

(** What the process reads during one turn of the loop. *)
Record TickInput := {
  find_ok : bool;                         (* whether db.vehicles.find goes through *)
  per_vehicle : nat -> VehicleInput;      (* for the k-th fetched vehicle *)
  message_now : datetime;                 (* the clock when the batch is built *)
  send_text : WebSocket -> string -> outcome unit
}.

(** The body of [for vehicle_data in vehicles]. *)
Definition process_vehicle (L : Runtime) (vi : VehicleInput)
    (vehicle_data : Vehicle.t)
    (acc : list TelemetryData.t * list TelemetryAlert.t)
    : M (list TelemetryData.t * list TelemetryAlert.t) :=
  let '(all_telemetry, all_alerts) := acc in
  let vehicle_id := Vehicle.id vehicle_data in
  w <- get ;;
  let state :=
    match vehicle_states w !! vehicle_id with
    | Some state => state
    | None => initialize_vehicle_state vehicle_id (init_now vi) (init_rnd vi)
    end in
  let '(state', telemetry) :=
    simulate_realistic_telemetry L vehicle_id state (sim_now vi) (sim_rnd vi)
      (sim_uuid vi) in
  modify (fun w => set_vehicle_states (<[vehicle_id := state']> (vehicle_states w)) w) ;;;
  Db.insert_telemetry telemetry (insert_ok vi) ;;;
  alerts <- lift (check_telemetry_alerts L telemetry) ;;
  ret (all_telemetry ++ [telemetry], all_alerts ++ alerts).

Fixpoint process_vehicles (L : Runtime) (inputs : nat -> VehicleInput) (k : nat)
    (vehicles : list Vehicle.t)
    (acc : list TelemetryData.t * list TelemetryAlert.t)
    : M (list TelemetryData.t * list TelemetryAlert.t) :=
  match vehicles with
  | [] => ret acc
  | vehicle_data :: rest =>
      acc' <- process_vehicle L (inputs k) vehicle_data acc ;;
      process_vehicles L inputs (S k) rest acc'
  end.

(** One turn of [while True] in [websocket_telemetry], up to the sleep. *)
Definition tick (L : Runtime) (inp : TickInput) : M Message.t :=
  vehicles <- Db.find_active 100 (find_ok inp) ;;
  batch <- process_vehicles L (per_vehicle inp) 0 vehicles ([], []) ;;
  let message :=
    {| Message.type := "telemetry_update";
       Message.timestamp := isoformat L (message_now inp);
       Message.data := fst batch;
       Message.alerts := snd batch |} in
  ConnectionManager.broadcast L (send_text inp) message ;;;
  ret message.

(** Where a handler stands after some turns of its loop. *)
Inductive handler_status :=
| Looping                   (* about to sleep and take the next turn *)
| Returned                  (* left through except WebSocketDisconnect *)
| Failed (e : exn).         (* an exception left the handler *)

(** One turn of the loop together with the [try] around the loop. *)
Definition websocket_telemetry_turn (L : Runtime) (websocket : WebSocket)
    (inp : TickInput) (w : World) : World * handler_status :=
  match tick L inp w with
  | (w', Ok _) => (w', Looping)
  | (w', Raise WebSocketDisconnect) =>
      match ConnectionManager.disconnect websocket w' with
      | (w'', Ok _) => (w'', Returned)
      | (w'', Raise e) => (w'', Failed e)
      end
  | (w', Raise e) => (w', Failed e)
  end.

(** The loop of the handler for the given turns; it stops at the first turn
    that does not end in [Looping]. *)
Fixpoint websocket_telemetry_loop (L : Runtime) (websocket : WebSocket)
    (turns : list TickInput) (w : World) : World * handler_status :=
  match turns with
  | [] => (w, Looping)
  | inp :: rest =>
      match websocket_telemetry_turn L websocket inp w with
      | (w', Looping) => websocket_telemetry_loop L websocket rest w'
      | (w', st) => (w', st)
      end
  end.

(** [websocket_telemetry(websocket)], for the given turns of its loop. *)
Definition websocket_telemetry (L : Runtime) (websocket : WebSocket)
    (turns : list TickInput) (w : World) : World * handler_status :=
  match ConnectionManager.connect websocket w with
  | (w', Ok _) => websocket_telemetry_loop L websocket turns w'
  | (w', Raise e) => (w', Failed e)
  end.

(** ** The server: one handler per viewer

    [@app.websocket("/ws/telemetry")] makes [websocket_telemetry] the
    coroutine that runs for every websocket a viewer opens, so the process
    holds one loop per open handler and none before the first viewer. *)
Record Server := {
  world : World;
  handlers : list WebSocket     (* the websockets whose handler is in its loop *)
}.

(** A viewer opens a websocket: its handler starts and registers it. *)
Definition open_websocket (websocket : WebSocket) (s : Server) : Server :=
  {| world := fst (ConnectionManager.connect websocket (world s));
     handlers := handlers s ++ [websocket] |}.

(** One second of the server: every handler that is in its loop takes one
    turn; [inputs k] is what the [k]-th of them reads. A handler that leaves
    its loop is no longer counted. *)
Fixpoint run_turns (L : Runtime) (inputs : nat -> TickInput) (k : nat)
    (hs : list WebSocket) (w : World) : World * list WebSocket :=
  match hs with
  | [] => (w, [])
  | websocket :: rest =>
      let '(w', st) := websocket_telemetry_turn L websocket (inputs k) w in
      let '(w'', alive) := run_turns L inputs (S k) rest w' in
      (w'', match st with Looping => websocket :: alive | _ => alive end)
  end.

Definition server_period (L : Runtime) (inputs : nat -> TickInput) (s : Server)
    : Server :=
  let '(w, alive) := run_turns L inputs 0 (handlers s) (world s) in
  {| world := w; handlers := alive |}.

Definition is_broadcast (ev : event) : bool :=
  match ev with Broadcast _ => true | _ => false end.

(** The number of calls to [manager.broadcast] in a trace. *)
Definition broadcast_calls (tr : list event) : nat :=
  length (List.filter is_broadcast tr).

(** ** Properties the claims are stated with *)

(** The clamp ranges of the simulator; the heading may be 360 itself, which
    the float [%] can return. *)
Definition in_clamp_ranges (s : State.t) : Prop :=
  (0 <= State.speed s /\ State.speed s <= 140) /\
  (800 <= State.engine_rpm s /\ State.engine_rpm s <= 6500) /\
  0 <= State.fuel_level s /\
  (70 <= State.engine_temperature s /\ State.engine_temperature s <= 120) /\
  (0 <= State.direction s /\ State.direction s <= 360).


(** The draws of an initialisation are values of [random.random()]. *)
Definition unit_init (rnd : InitDraws) : Prop :=
  unit_draw (i_speed rnd) /\ unit_draw (i_rpm rnd) /\ unit_draw (i_fuel rnd) /\
  unit_draw (i_temp rnd) /\ unit_draw (i_lat rnd) /\ unit_draw (i_lng rnd) /\
  unit_draw (i_dir rnd).

(** The alert rule as the specification words it, for one metric: above
    [max] an alert that is high beyond [max * 1.2] and medium otherwise,
    below [min] an alert that is high beyond [min * 0.8] and medium
    otherwise, and no alert in between. *)
Definition rule_alert (L : Runtime) (vehicle_id metric : string)
    (value max min : Q) : option TelemetryAlert.t :=
  if Py.ltb max value then
    Some {| TelemetryAlert.vehicle_id := vehicle_id;
            TelemetryAlert.metric := metric;
            TelemetryAlert.value := value;
            TelemetryAlert.threshold := max;
            TelemetryAlert.severity :=
              if Py.ltb (max * 1.2) value then "high" else "medium";
            TelemetryAlert.message := alert_message L metric "high" value |}
  else if Py.ltb value min then
    Some {| TelemetryAlert.vehicle_id := vehicle_id;
            TelemetryAlert.metric := metric;
            TelemetryAlert.value := value;
            TelemetryAlert.threshold := min;
            TelemetryAlert.severity :=
              if Py.ltb value (min * 0.8) then "high" else "medium";
            TelemetryAlert.message := alert_message L metric "low" value |}
  else None.

(** The alerts of a sample as the specification words them: the rule for
    speed, engine RPM, fuel level and engine temperature, in this order. *)
Definition rule_alerts (L : Runtime) (t : TelemetryData.t) : list TelemetryAlert.t :=
  let vid := TelemetryData.vehicle_id t in
  option_list (rule_alert L vid "speed" (TelemetryData.speed t) 120 0) ++
  option_list (rule_alert L vid "engine_rpm" (TelemetryData.engine_rpm t) 6000 800) ++
  option_list (rule_alert L vid "fuel_level" (TelemetryData.fuel_level t) 100 10) ++
  option_list (rule_alert L vid "engine_temperature"
                 (TelemetryData.engine_temperature t) 100 80).

(** The metric names in the order of the threshold table. *)
Definition monitored_metrics : list string := map fst TELEMETRY_THRESHOLDS.

(** The events a step added to the trace. *)
Definition events_since (w w' : World) : list event :=
  drop (length (trace w)) (trace w').



(** The events of the loop of [broadcast] at one connection. *)
Definition delivery (L : Runtime) (send_text : WebSocket -> string -> outcome unit)
    (message : Message.t) (connection : WebSocket) : list event :=
  Attempt connection ::
  match json_dumps L message with
  | Some text =>
      match send_text connection text with
      | Ok _ => [SentText connection text]
      | Raise _ => []
      end
  | None => []
  end.

(** The events of the loop of [broadcast] over the connections. *)
Definition deliveries (L : Runtime) (send_text : WebSocket -> string -> outcome unit)
    (message : Message.t) (connections : list WebSocket) : list event :=
  concat (map (delivery L send_text message) connections).

(** The samples carried by the batches handed to [manager.broadcast]. *)
Fixpoint broadcast_samples (tr : list event) : list TelemetryData.t :=
  match tr with
  | [] => []
  | Broadcast message :: tr' => Message.data message ++ broadcast_samples tr'
  | _ :: tr' => broadcast_samples tr'
  end.

(** The samples of one vehicle. *)
Definition samples_of (vehicle_id : string) (l : list TelemetryData.t)
    : list TelemetryData.t :=
  filter (fun t => TelemetryData.vehicle_id t = vehicle_id) l.

(** The vehicles a turn of the loop fetches. *)
Definition fetched (w : World) : list Vehicle.t :=
  take 100 (filter (fun v => Vehicle.is_active v = true) (vehicles w)).

(** The RPM the simulator derives from a speed and the draw [u]. *)
Definition rpm_of_speed (speed u : Q) : Q :=
  Py.max 800 (Py.min 6500 (speed * 35 + Py.uniform (-200) 200 u)).

(** ** What the process does, one step after another *)

(** A step of the process: a turn of some handler's loop, a call of a
    vehicle route, or a call of a method of the connection manager. *)
Inductive action :=
| Tick (inp : TickInput)
| CreateVehicle (vehicle_data : VehicleCreate.t) (uuid : string) (now : datetime)
    (ok : bool) (state_now : datetime) (rnd : InitDraws)
| UpdateVehicle (vehicle_id : string) (vehicle_data : VehicleCreate.t)
    (ok ok_find : bool)
| DeleteVehicle (vehicle_id : string) (ok : bool)
| Connect (websocket : WebSocket)
| Disconnect (websocket : WebSocket).

(** The process state after a step, whether the step returned or raised. *)
Definition perform (L : Runtime) (a : action) (w : World) : World :=
  match a with
  | Tick inp => fst (tick L inp w)
  | CreateVehicle vehicle_data uuid now ok state_now rnd =>
      fst (create_vehicle vehicle_data uuid now ok state_now rnd w)
  | UpdateVehicle vehicle_id vehicle_data ok ok_find =>
      fst (update_vehicle vehicle_id vehicle_data ok ok_find w)
  | DeleteVehicle vehicle_id ok => fst (delete_vehicle vehicle_id ok w)
  | Connect websocket => fst (ConnectionManager.connect websocket w)
  | Disconnect websocket => fst (ConnectionManager.disconnect websocket w)
  end.

Fixpoint perform_all (L : Runtime) (acts : list action) (w : World) : World :=
  match acts with
  | [] => w
  | a :: rest => perform_all L rest (perform L a w)
  end.

(** A step that does not register a vehicle under the identifier [vid]
    (uuid4 does not repeat an identifier). *)
Definition creates_other (vid : string) (a : action) : Prop :=
  match a with
  | CreateVehicle _ uuid _ _ _ _ => uuid <> vid
  | _ => True
  end.

(** ** Turns that other coroutines run inside

    A handler gives up control at each [await] of its turn, and the calls
    of the routes and the parts of the turns of the other handlers run
    there; between two awaits it runs alone. A turn awaits the fetch of the
    vehicles, then for each vehicle the insert of its sample, then the
    broadcast and the sleep. Between the test
    [vehicle_id not in vehicle_states] and the insert it does not await. *)

(** What a handler holds across the awaits of a turn: what is left of
    [vehicles] for its [for] loop, and the two lists as built so far. *)
Module Flight.
Record t := mk {
  vehicles : list Vehicle.t;
  all_telemetry : list TelemetryData.t;
  all_alerts : list TelemetryAlert.t
}.
End Flight.

(** The turns that are under way, by the websocket of their handler. *)
Abbreviation Flights := (gmap nat Flight.t) (only parsing).

(** What runs from one await to the next. *)
Inductive part :=
| Call (a : action)
    (* a call of a route or of the manager, or a turn that runs as a whole *)
| Fetch (websocket : WebSocket) (ok : bool)
    (* a handler starts a turn and gets its vehicles *)
| Simulate (websocket : WebSocket) (vi : VehicleInput)
    (* it runs the body of its [for] loop for the next of them *)
| Send (websocket : WebSocket) (now : datetime)
    (send_text : WebSocket -> string -> outcome unit).
    (* out of the [for] loop, it builds the message and broadcasts it *)

(** A part changes the process state and the turns under way. A part of a
    turn that is not the next one of its handler does nothing; a turn that
    raises is over, and the handler with it. *)
Definition run_part (L : Runtime) (p : part) (s : World * Flights) : World * Flights :=
  let '(w, flights) := s in
  match p with
  | Call a => (perform L a w, flights)
  | Fetch websocket ok =>
      match flights !! websocket with
      | Some _ => s
      | None =>
          match Db.find_active 100 ok w with
          | (w', Ok vehicles) => (w', <[websocket := Flight.mk vehicles [] []]> flights)
          | (w', Raise _) => (w', flights)
          end
      end
  | Simulate websocket vi =>
      match flights !! websocket with
      | Some (Flight.mk (vehicle_data :: rest) all_telemetry all_alerts) =>
          match process_vehicle L vi vehicle_data (all_telemetry, all_alerts) w with
          | (w', Ok (all_telemetry', all_alerts')) =>
              (w', <[websocket := Flight.mk rest all_telemetry' all_alerts']> flights)
          | (w', Raise _) => (w', delete websocket flights)
          end
      | _ => s
      end
  | Send websocket now send_text =>
      match flights !! websocket with
      | Some (Flight.mk [] all_telemetry all_alerts) =>
          let message :=
            {| Message.type := "telemetry_update";
               Message.timestamp := isoformat L now;
               Message.data := all_telemetry;
               Message.alerts := all_alerts |} in
          (fst (ConnectionManager.broadcast L send_text message w),
           delete websocket flights)
      | _ => s
      end
  end.

Fixpoint run_parts (L : Runtime) (parts : list part) (s : World * Flights)
    : World * Flights :=
  match parts with
  | [] => s
  | p :: rest => run_parts L rest (run_part L p s)
  end.

(** The parts of one turn over [n] vehicles, in the order the handler runs
    them. *)
Definition turn_parts (websocket : WebSocket) (inp : TickInput) (n : nat) : list part :=
  Fetch websocket (find_ok inp)
  :: map (fun k => Simulate websocket (per_vehicle inp k)) (seq 0 n)
  ++ [Send websocket (message_now inp) (send_text inp)].



(** ** Notions the proofs about the loop are organised around *)

(** The state the loop simulates a vehicle from: the one it holds, or a
    fresh one. *)
Definition state_for (w : World) (vi : VehicleInput) (v : Vehicle.t) : State.t :=
  match vehicle_states w !! Vehicle.id v with
  | Some state => state
  | None => initialize_vehicle_state (Vehicle.id v) (init_now vi) (init_rnd vi)
  end.

(** The updated state and the sample of a vehicle in a turn. *)
Definition step_for (L : Runtime) (w : World) (vi : VehicleInput) (v : Vehicle.t)
    : State.t * TelemetryData.t :=
  simulate_realistic_telemetry L (Vehicle.id v) (state_for w vi v) (sim_now vi)
    (sim_rnd vi) (sim_uuid vi).

(** The process state once the vehicle's state has been advanced. *)
Definition stepped (L : Runtime) (w : World) (vi : VehicleInput) (v : Vehicle.t)
    : World :=
  set_vehicle_states (<[Vehicle.id v := fst (step_for L w vi v)]> (vehicle_states w)) w.

(** The process state once a sample has been inserted. *)
Definition stored (t : TelemetryData.t) (w : World) : World :=
  set_telemetry (telemetry w ++ [t]) w.

(** [w'] differs from [w] at most in the states and the stored samples of
    the listed vehicles. *)
Definition touches_only (ids : list string) (w w' : World) : Prop :=
  vehicles w' = vehicles w /\
  active_connections w' = active_connections w /\
  trace w' = trace w /\
  (forall vid, vid ∉ ids -> vehicle_states w' !! vid = vehicle_states w !! vid) /\
  exists new, telemetry w' = telemetry w ++ new /\
              Forall (fun t => TelemetryData.vehicle_id t ∈ ids) new.

(** Two process states that agree on everything a turn simulates from. *)
Definition same_but_viewers (w1 w2 : World) : Prop :=
  vehicles w1 = vehicles w2 /\ telemetry w1 = telemetry w2 /\
  vehicle_states w1 = vehicle_states w2.

(** Every database call of the turn goes through. *)
Definition all_go_through (inp : TickInput) : Prop :=
  find_ok inp = true /\ forall j, insert_ok (per_vehicle inp j) = true.

(** Every state the process holds lies in the clamp ranges. *)
Definition states_in_ranges (w : World) : Prop :=
  forall vid state, vehicle_states w !! vid = Some state -> in_clamp_ranges state.

(** A step that registers no vehicle under an identifier already in use. *)
Definition fresh_ids (a : action) (w : World) : Prop :=
  match a with
  | CreateVehicle _ uuid _ _ _ _ => uuid ∉ map Vehicle.id (vehicles w)
  | _ => True
  end.

(** No active document carries the identifier and no state is held for it. *)
Definition retired (vid : string) (w : World) : Prop :=
  (forall v, v ∈ vehicles w -> Vehicle.id v = vid -> Vehicle.is_active v = false) /\
  vehicle_states w !! vid = None.

(** From [w] to [w'] the identifier stayed retired and no sample of it was
    stored or put in a batch. *)
Definition kept_out (vid : string) (w w' : World) : Prop :=
  retired vid w' /\
  samples_of vid (telemetry w') = samples_of vid (telemetry w) /\
  exists evs, trace w' = trace w ++ evs /\ samples_of vid (broadcast_samples evs) = [].

(** ** Worked inputs *)

Module Sample.

(** A float as an f-string prints it, for numbers with one decimal. *)
Definition str_decimal (q : Q) : string :=
  let tenths := Py.round_half_even (q * 10) in
  let a := Z.abs tenths in
  (if (tenths <? 0)%Z then "-" else "") +:+ pretty (a / 10)%Z +:+ "."
    +:+ pretty (a mod 10)%Z.

(** A runtime to evaluate the server with: the trigonometric functions by
    the first terms of their series, times printed as seconds, a message
    serialised to its tag and time. *)
Definition runtime : Runtime :=
  {| radians := fun d => d * (355 # 113) / 180;
     cos := fun x => 1 - x * x / 2;
     sin := fun x => x - x * x * x / 6;
     str_float := str_decimal;
     isoformat := fun t => pretty (Qfloor t);
     json_dumps := fun m => Some (Message.type m +:+ "@" +:+ Message.timestamp m) |}.


Definition cruising : State.t :=
  {| State.speed := 70; State.engine_rpm := 2000; State.fuel_level := 80;
     State.engine_temperature := 90; State.latitude := 37.7749;
     State.longitude := -122.4194; State.direction := 45;
     State.last_update := 1000 |}.

(** The cruising state with the heading one double below 15 degrees. *)
Definition just_below_15 : State.t :=
  {| State.speed := 70; State.engine_rpm := 2000; State.fuel_level := 80;
     State.engine_temperature := 90; State.latitude := 37.7749;
     State.longitude := -122.4194;
     State.direction := 15 - (1 # 562949953421312);   (* 15 - 2 ** -49 *)
     State.last_update := 1000 |}.

Definition init_draws : InitDraws :=
  {| i_speed := 0.5; i_rpm := 0.5; i_fuel := 0.5; i_temp := 0.5;
     i_lat := 0.5; i_lng := 0.5; i_dir := 0.125 |}.

Definition sim_draws : SimDraws :=
  {| u_speed := 0.5; u_rpm := 0.75; u_turn := 0.05; u_dir := 0.25 |}.

Definition car (ident : string) (active : bool) : Vehicle.t :=
  {| Vehicle.id := ident; Vehicle.name := "car"; Vehicle.model := "sedan";
     Vehicle.year := 2020; Vehicle.license_plate := "7ABC123";
     Vehicle.is_active := active; Vehicle.created_at := 900 |}.

Definition vehicle_input (ok : bool) : VehicleInput :=
  {| init_now := 1000; init_rnd := init_draws; sim_now := 1001;
     sim_rnd := sim_draws; sim_uuid := "sample"; insert_ok := ok |}.

(** A turn in which every call goes through. *)
Definition quiet_turn : TickInput :=
  {| find_ok := true; per_vehicle := fun _ => vehicle_input true;
     message_now := 1001; send_text := fun _ _ => Ok tt |}.

(** A turn in which the first insert into [db.telemetry] fails. *)
Definition storage_down_turn : TickInput :=
  {| find_ok := true;
     per_vehicle := fun k => vehicle_input (negb (Nat.eqb k 0));
     message_now := 1001; send_text := fun _ _ => Ok tt |}.

(** A turn in which the fetch from [db.vehicles] fails. *)
Definition registry_down_turn : TickInput :=
  {| find_ok := false; per_vehicle := fun _ => vehicle_input true;
     message_now := 1001; send_text := fun _ _ => Ok tt |}.

(** Two active vehicles, no viewer, nothing simulated yet. *)
Definition fleet : World :=
  {| active_connections := [];
     vehicles := [car "car-1" true; car "car-2" true];
     telemetry := [];
     vehicle_states := ∅;
     trace := [] |}.

(** The same fleet with viewers 1, 2 and 3 registered. *)
Definition watched_fleet : World := set_active_connections [1; 2; 3]%nat fleet.

(** A sample whose speed is 145 and whose other metrics are in range. *)
Definition speeding : TelemetryData.t :=
  {| TelemetryData.id := "sample"; TelemetryData.vehicle_id := "car-1";
     TelemetryData.speed := 145; TelemetryData.engine_rpm := 3000;
     TelemetryData.fuel_level := 50; TelemetryData.engine_temperature := 90;
     TelemetryData.latitude := 37.7749; TelemetryData.longitude := -122.4194;
     TelemetryData.timestamp := 1001 |}.

(** An empty batch. *)
Definition empty_batch : Message.t :=
  {| Message.type := "telemetry_update"; Message.timestamp := "1001";
     Message.data := []; Message.alerts := [] |}.


(** The server before any viewer, and with two viewers. *)
Definition no_viewer : Server := {| world := fleet; handlers := [] |}.

Definition two_viewers : Server := open_websocket 2 (open_websocket 1 no_viewer).




(** A second in which every turn is quiet. *)
Definition quiet_second (k : nat) : TickInput := quiet_turn.

(** The watched fleet after one quiet turn: both vehicles have a state. *)
Definition toured_fleet : World := fst (tick runtime quiet_turn watched_fleet).

(** The toured fleet once car-1 has been deleted. *)
Definition trimmed_fleet : World := fst (delete_vehicle "car-1" true toured_fleet).

(** The batch of a quiet turn on the watched fleet. *)
Definition quiet_batch : Message.t :=
  match snd (tick runtime quiet_turn watched_fleet) with
  | Ok message => message
  | Raise _ => empty_batch
  end.

(** A registry of 101 active vehicles. *)
Definition big_fleet : World :=
  set_vehicles (map (fun n : nat => car (pretty n) true) (seq 0 101)) fleet.

(** The alert that [speeding] raises. *)
Definition speed_alert : TelemetryAlert.t :=
  {| TelemetryAlert.vehicle_id := "car-1"; TelemetryAlert.metric := "speed";
     TelemetryAlert.value := 145; TelemetryAlert.threshold := 120;
     TelemetryAlert.severity := "high";
     TelemetryAlert.message := "Speed is critically high: 145.0" |}.

End Sample.

(** ** Read routes *)

(** [GET /vehicles/{vehicle_id}]. *)
Definition get_vehicle (vehicle_id : string) (ok : bool) : M Vehicle.t :=
  vehicle <- Db.find_one vehicle_id ok ;;
  match vehicle with
  | Some v => ret v
  | None => raise (HTTPException 404)
  end.

(** The order of [sort("timestamp", -1)]. *)
Definition newer_first (a b : TelemetryData.t) : Prop :=
  Qle_bool (TelemetryData.timestamp b) (TelemetryData.timestamp a) = true.

(** The order of [sort("timestamp", 1)]. *)
Definition older_first (a b : TelemetryData.t) : Prop :=
  Qle_bool (TelemetryData.timestamp a) (TelemetryData.timestamp b) = true.

#[global] Instance newer_first_dec : RelDecision newer_first.
Proof. unfold newer_first. solve_decision. Defined.

#[global] Instance older_first_dec : RelDecision older_first.
Proof. unfold older_first. solve_decision. Defined.

(** [GET /vehicles/{vehicle_id}/telemetry] for a limit that is not negative:
    [find({"vehicle_id": ...}).sort("timestamp", -1).limit(limit).to_list(limit)].
    Samples of equal timestamp come in the order of the merge sort. *)
Definition get_vehicle_telemetry (vehicle_id : string) (limit : nat) (ok : bool)
    : M (list TelemetryData.t) :=
  Db.reply ok ;;;
  w <- get ;;
  ret (take limit
         (take limit (merge_sort newer_first (samples_of vehicle_id (telemetry w))))).

(** A row of the data frame of [export_vehicle_telemetry]. *)
Module ExportRow.
Record t := mk {
  timestamp : datetime;
  vehicle_id : string;
  speed_kmh : Q;
  engine_rpm : Q;
  fuel_level_percent : Q;
  engine_temperature_celsius : Q;
  latitude : Q;
  longitude : Q
}.
End ExportRow.

Definition export_row (data : TelemetryData.t) : ExportRow.t :=
  {| ExportRow.timestamp := TelemetryData.timestamp data;
     ExportRow.vehicle_id := TelemetryData.vehicle_id data;
     ExportRow.speed_kmh := TelemetryData.speed data;
     ExportRow.engine_rpm := TelemetryData.engine_rpm data;
     ExportRow.fuel_level_percent := TelemetryData.fuel_level data;
     ExportRow.engine_temperature_celsius := TelemetryData.engine_temperature data;
     ExportRow.latitude := TelemetryData.latitude data;
     ExportRow.longitude := TelemetryData.longitude data |}.

(** The [StreamingResponse] of the export. *)
Module Response.
Record t := mk {
  body : string;
  media_type : string;
  content_disposition : string
}.
End Response.

(** [now.replace(hour=0, minute=0, second=0, microsecond=0)] for a time in
    seconds of UTC. *)
Definition midnight (now : datetime) : datetime :=
  inject_Z (Qfloor (now / 86400)) * 86400.

(** [pd.Timedelta(days=days)], in seconds: a Timedelta counts nanoseconds in
    64 bits, which holds 106751 whole days either way; beyond that the
    constructor raises (OutOfBoundsTimedelta or OverflowError, by version of
    pandas). *)
Definition timedelta_days (days : Z) : outcome Q :=
  if (Z.abs days <=? 106751)%Z then Ok (inject_Z days * 86400)
  else Raise OverflowError.

(** [datetime.min] and [datetime.max], the first instant of year 1 and the
    last microsecond of year 9999, in seconds of UTC. *)
Definition datetime_min : datetime := -62135596800.

Definition datetime_max : datetime := 253402300799.999999.

(** [t - delta] on a datetime; it raises when the result leaves the years 1
    to 9999. *)
Definition datetime_sub (t : datetime) (delta : Q) : outcome datetime :=
  let r := t - delta in
  if Qle_bool datetime_min r && Qle_bool r datetime_max then Ok r
  else Raise OverflowError.

(** The start of the window of an export, computed before the database is
    called. *)
Definition from_date (now : datetime) (days : Z) : outcome datetime :=
  match timedelta_days days with
  | Ok delta => datetime_sub (midnight now) delta
  | Raise e => Raise e
  end.

(** The documents the export fetches:
    [find({"vehicle_id": ..., "timestamp": {"$gte": from_date}})
     .sort("timestamp", 1).to_list(10000)]. *)
Definition export_data (vehicle_id : string) (start : datetime)
    (docs : list TelemetryData.t) : list TelemetryData.t :=
  take (100 * 100)   (* 10000 *)
    (merge_sort older_first
       (filter (fun data => Qle_bool start (TelemetryData.timestamp data) = true)
          (samples_of vehicle_id docs))).

(** [GET /vehicles/{vehicle_id}/telemetry/export]; [to_csv] is
    [DataFrame.to_csv(index=False)] on the rows. *)
Definition export_vehicle_telemetry (to_csv : list ExportRow.t -> string)
    (vehicle_id : string) (days : Z) (now : datetime) (ok : bool) : M Response.t :=
  start <- lift (from_date now days) ;;
  Db.reply ok ;;;
  w <- get ;;
  let telemetry_data := export_data vehicle_id start (telemetry w) in
  match telemetry_data with
  | [] => raise (HTTPException 404)
  | _ :: _ =>
      let csv_content := to_csv (map export_row telemetry_data) in
      ret {| Response.body := csv_content;
             Response.media_type := "text/csv";
             Response.content_disposition :=
               "attachment; filename=telemetry_" +:+ vehicle_id +:+ "_"
                 +:+ pretty days +:+ "days.csv" |}
  end.

(** ** Notions the further properties are stated with *)

(** The factor [10 ** ndigits] of [round]. *)
Definition scale (ndigits : nat) : Q := inject_Z (10 ^ Z.of_nat ndigits).

(** The random draws a step reads for fresh states are values of
    [random.random()]. *)
Definition well_drawn (a : action) : Prop :=
  match a with
  | Tick inp => forall j, unit_init (init_rnd (per_vehicle inp j))
  | CreateVehicle _ _ _ _ _ rnd => unit_init rnd
  | _ => True
  end.

(** Along the steps, no vehicle is registered under an identifier that is
    in use when it is registered. *)
Fixpoint fresh_run (L : Runtime) (acts : list action) (w : World) : Prop :=
  match acts with
  | [] => True
  | a :: rest => fresh_ids a w /\ fresh_run L rest (perform L a w)
  end.

(** The first document of the registry with the identifier. *)
Definition document (vehicle_id : string) (w : World) : option Vehicle.t :=
  List.find (fun v => String.eqb (Vehicle.id v) vehicle_id) (vehicles w).

(** ** Further worked inputs *)

Module Case.

(** The cruising state with five percent of fuel left. *)
Definition low_fuel : State.t :=
  {| State.speed := 70; State.engine_rpm := 2000; State.fuel_level := 5;
     State.engine_temperature := 90; State.latitude := 37.7749;
     State.longitude := -122.4194; State.direction := 45;
     State.last_update := 1000 |}.

(** The sample of one step from [low_fuel] and its alerts. *)
Definition low_fuel_sample : TelemetryData.t :=
  snd (simulate_realistic_telemetry Sample.runtime "car-1" low_fuel 1001
         Sample.sim_draws "sample").

Definition low_fuel_alerts : list TelemetryAlert.t :=
  match check_telemetry_alerts Sample.runtime low_fuel_sample with
  | Ok alerts => alerts
  | Raise _ => []
  end.

Definition fuel_alert : TelemetryAlert.t := hd Sample.speed_alert low_fuel_alerts.

(** A sample with every metric inside its thresholds. *)
Definition calm : TelemetryData.t :=
  {| TelemetryData.id := "sample-0"; TelemetryData.vehicle_id := "car-1";
     TelemetryData.speed := 70; TelemetryData.engine_rpm := 2000;
     TelemetryData.fuel_level := 80; TelemetryData.engine_temperature := 90;
     TelemetryData.latitude := 37.7749; TelemetryData.longitude := -122.4194;
     TelemetryData.timestamp := 1000 |}.

(** A sample of another vehicle. *)
Definition passing : TelemetryData.t :=
  {| TelemetryData.id := "sample-2"; TelemetryData.vehicle_id := "car-2";
     TelemetryData.speed := 60; TelemetryData.engine_rpm := 1900;
     TelemetryData.fuel_level := 60; TelemetryData.engine_temperature := 88;
     TelemetryData.latitude := 37.78; TelemetryData.longitude := -122.41;
     TelemetryData.timestamp := 1002 |}.

(** The fleet with three stored samples, two of them of car-1. *)
Definition logbook : World :=
  set_telemetry [calm; passing; Sample.speeding] Sample.fleet.

(** A registry whose only vehicle has been deleted. *)
Definition parked : World := set_vehicles [Sample.car "car-1" false] Sample.fleet.

Definition new_car : VehicleCreate.t :=
  {| VehicleCreate.name := "van"; VehicleCreate.model := "cargo";
     VehicleCreate.year := 2022; VehicleCreate.license_plate := "8XYZ456" |}.

(** A turn, a registration under a new identifier, a deletion, a turn. *)
Definition busy_day : list action :=
  [Tick Sample.quiet_turn;
   CreateVehicle new_car "car-3" 1002 true 1002 Sample.init_draws;
   DeleteVehicle "car-1" true;
   Tick Sample.quiet_turn].

(** A stand-in for [DataFrame.to_csv]: one line per row with the vehicle
    and the time in whole seconds. *)
Definition to_csv (rows : list ExportRow.t) : string :=
  String.concat ""
    (map (fun row => ExportRow.vehicle_id row +:+ ","
                       +:+ pretty (Qfloor (ExportRow.timestamp row)) +:+ ";") rows).

End Case.

(** * Properties *)

(** ** The built-ins *)

Example py_max_first : Py.max 0 (-3) = 0.
Proof. reflexivity. Qed.

Example py_mod_negative : Py.mod_ (-30) 360 == 330.
Proof. vm_compute. reflexivity. Qed.

Example py_round_tie : Py.round (25 # 100) 1 == 2 # 10.
Proof. vm_compute. reflexivity. Qed.

Example title_engine_rpm :
  PyStr.title (PyStr.replace "_" " " "engine_rpm") = "Engine Rpm"%string.
Proof. reflexivity. Qed.

Section Numbers.

Implicit Types a b x lo hi m : Q.

Lemma ltb_lt a b : Py.ltb a b = true <-> a < b.
Proof.
  unfold Py.ltb. rewrite negb_true_iff. split.
  - intros H. apply Qnot_le_lt. intros Hle. apply Qle_bool_iff in Hle. congruence.
  - intros H. destruct (Qle_bool b a) eqn:E; [|reflexivity].
    apply Qle_bool_iff in E. lra.
Qed.

Lemma ltb_ge a b : Py.ltb a b = false <-> b <= a.
Proof. unfold Py.ltb. rewrite negb_false_iff. apply Qle_bool_iff. Qed.

Lemma max_cases a b : (a < b /\ Py.max a b = b) \/ (b <= a /\ Py.max a b = a).
Proof.
  unfold Py.max. destruct (Py.ltb a b) eqn:E.
  - left. split; [by apply ltb_lt|done].
  - right. split; [by apply ltb_ge|done].
Qed.

Lemma min_cases a b : (b < a /\ Py.min a b = b) \/ (a <= b /\ Py.min a b = a).
Proof.
  unfold Py.min. destruct (Py.ltb b a) eqn:E.
  - left. split; [by apply ltb_lt|done].
  - right. split; [by apply ltb_ge|done].
Qed.

(** [max(lo, min(hi, x))] lands in [lo, hi]. *)
Lemma clamp_range lo hi x :
  lo <= hi -> lo <= Py.max lo (Py.min hi x) /\ Py.max lo (Py.min hi x) <= hi.
Proof.
  intros H.
  destruct (min_cases hi x) as [[? ->]|[? ->]];
    [destruct (max_cases lo x) as [[? E]|[? E]]
    |destruct (max_cases lo hi) as [[? E]|[? E]]];
    rewrite E; lra.
Qed.

(** [max(lo, min(hi, x))] leaves a number of [lo, hi] as it is. *)
Lemma clamp_id lo hi x : lo <= x -> x <= hi -> Py.max lo (Py.min hi x) == x.
Proof.
  intros H1 H2.
  destruct (min_cases hi x) as [[? ->]|[? ->]];
    [destruct (max_cases lo x) as [[? E]|[? E]]
    |destruct (max_cases lo hi) as [[? E]|[? E]]];
    rewrite E; lra.
Qed.

Lemma max_id lo x : lo <= x -> Py.max lo x == x.
Proof. intros H. destruct (max_cases lo x) as [[? E]|[? E]]; rewrite E; lra. Qed.

Lemma max_lower lo x : lo <= Py.max lo x.
Proof. destruct (max_cases lo x) as [[? E]|[? E]]; rewrite E; lra. Qed.

#[global] Instance ltb_proper : Proper (Qeq ==> Qeq ==> eq) Py.ltb.
Proof. intros x x' Hx y y' Hy. unfold Py.ltb. by rewrite Hx, Hy. Qed.

#[global] Instance max_proper : Proper (Qeq ==> Qeq ==> Qeq) Py.max.
Proof.
  intros x x' Hx y y' Hy. unfold Py.max. rewrite Hx, Hy. by destruct (Py.ltb x' y').
Qed.

#[global] Instance min_proper : Proper (Qeq ==> Qeq ==> Qeq) Py.min.
Proof.
  intros x x' Hx y y' Hy. unfold Py.min. rewrite Hx, Hy. by destruct (Py.ltb y' x').
Qed.

Lemma round_half_even_near y :
  inject_Z (Py.round_half_even y) - (1 # 2) <= y /\
  y <= inject_Z (Py.round_half_even y) + (1 # 2).
Proof.
  unfold Py.round_half_even.
  pose proof (Qfloor_le y) as Hlo. pose proof (Qlt_floor y) as Hhi.
  rewrite inject_Z_plus in Hhi. change (inject_Z 1) with 1 in Hhi.
  set (f := Qfloor y) in *.
  destruct (Py.ltb (y - inject_Z f) (1 # 2)) eqn:E1.
  - apply ltb_lt in E1. split; lra.
  - apply ltb_ge in E1.
    destruct (Py.ltb (1 # 2) (y - inject_Z f)) eqn:E2.
    + rewrite inject_Z_plus. change (inject_Z 1) with 1. split; lra.
    + apply ltb_ge in E2. destruct (Z.even f).
      * split; lra.
      * rewrite inject_Z_plus. change (inject_Z 1) with 1. split; lra.
Qed.

Lemma round_half_even_le y (k : Z) : y <= inject_Z k -> (Py.round_half_even y <= k)%Z.
Proof.
  intros H. destruct (round_half_even_near y) as [H1 _].
  assert (Hlt : inject_Z (Py.round_half_even y) < inject_Z (k + 1)).
  { rewrite inject_Z_plus. change (inject_Z 1) with 1. lra. }
  rewrite <- Zlt_Qlt in Hlt. lia.
Qed.

Lemma round_half_even_ge y (k : Z) : inject_Z k <= y -> (k <= Py.round_half_even y)%Z.
Proof.
  intros H. destruct (round_half_even_near y) as [_ H2].
  assert (Hlt : inject_Z k < inject_Z (Py.round_half_even y + 1)).
  { rewrite inject_Z_plus. change (inject_Z 1) with 1. lra. }
  rewrite <- Zlt_Qlt in Hlt. lia.
Qed.

(** ** Float remainder *)

Lemma trunc_near x :
  (0 <= x -> inject_Z (Py.trunc x) <= x /\ x < inject_Z (Py.trunc x) + 1) /\
  (x < 0 -> x <= inject_Z (Py.trunc x) /\ inject_Z (Py.trunc x) - 1 < x).
Proof.
  unfold Py.trunc. split; intros H.
  - assert (E : Qle_bool 0 x = true) by by apply Qle_bool_iff.
    rewrite E. pose proof (Qfloor_le x). pose proof (Qlt_floor x) as Hhi.
    rewrite inject_Z_plus in Hhi. change (inject_Z 1) with 1 in Hhi. split; lra.
  - assert (E : Qle_bool 0 x = false).
    { destruct (Qle_bool 0 x) eqn:E; [|done]. apply Qle_bool_iff in E. lra. }
    rewrite E. pose proof (Qle_ceiling x). pose proof (Qceiling_lt x) as Hlo.
    unfold Z.sub in Hlo. rewrite inject_Z_plus, inject_Z_opp in Hlo.
    change (inject_Z 1) with 1 in Hlo. split; lra.
Qed.

(** [fmod(x, m)] lies strictly between [-m] and [m], on the side of [x]. *)
Lemma fmod_range x m : 0 < m -> - m < Py.fmod x m /\ Py.fmod x m < m.
Proof.
  intros Hm. unfold Py.fmod.
  assert (Hx : x == m * (x / m)) by (field; lra).
  destruct (trunc_near (x / m)) as [Hpos Hneg].
  set (q := x / m) in *. set (t := inject_Z (Py.trunc q)) in *.
  destruct (Qlt_le_dec q 0) as [Hq|Hq].
  - destruct (Hneg Hq) as [H1 H2].
    assert (A : 0 <= m * (t - q)) by (apply Qmult_le_0_compat; lra).
    assert (B : m * (t - q) < m * 1) by (apply Qmult_lt_l; lra).
    split; lra.
  - destruct (Hpos Hq) as [H1 H2].
    assert (A : 0 <= m * (q - t)) by (apply Qmult_le_0_compat; lra).
    assert (B : m * (q - t) < m * 1) by (apply Qmult_lt_l; lra).
    split; lra.
Qed.

Lemma exponent_below_360 y : y < 360 -> (Py.exponent y <= 8)%Z.
Proof.
  intros Hy. unfold Py.exponent. destruct (Qle_bool 1 y).
  - pose proof (Qfloor_le y) as Hf.
    assert (Hlt : inject_Z (Qfloor y) < inject_Z 360) by (change (inject_Z 360) with 360; lra).
    rewrite <- Zlt_Qlt in Hlt.
    change 8%Z with (Z.log2 359). apply Z.log2_le_mono. lia.
  - pose proof (Z.log2_up_nonneg (Qceiling (/ y))). lia.
Qed.

(** The double nearest to a number of (0, 360) lies in [0, 360]: 360 is a
    double. *)
Lemma nearest_double_below_360 y :
  0 < y -> y < 360 -> 0 <= Py.nearest_double y /\ Py.nearest_double y <= 360.
Proof.
  intros H0 H360. unfold Py.nearest_double.
  pose proof (exponent_below_360 y H360) as He.
  set (e := Py.exponent y) in *. unfold Py.pow2.
  assert (E : (0 <=? e - 52)%Z = false) by (apply Z.leb_gt; lia).
  rewrite E. set (n := (- (e - 52))%Z).
  assert (Hn : (0 <= n)%Z) by (unfold n; lia).
  assert (HP : 0 < inject_Z (2 ^ n)).
  { change 0 with (inject_Z 0). rewrite <- Zlt_Qlt. by apply Z.pow_pos_nonneg. }
  set (P := inject_Z (2 ^ n)) in *.
  assert (Hu : 0 < / P) by by apply Qinv_lt_0_compat.
  assert (Hdiv : y / / P == y * P) by (field; lra).
  assert (HyP : 0 <= y * P) by (apply Qmult_le_0_compat; lra).
  assert (HyP' : 0 <= (360 - y) * P) by (apply Qmult_le_0_compat; lra).
  assert (Hhi : (Py.round_half_even (y / / P) <= 360 * 2 ^ n)%Z).
  { apply round_half_even_le. rewrite inject_Z_mult. fold P.
    change (inject_Z 360) with 360. lra. }
  assert (Hlo : (0 <= Py.round_half_even (y / / P))%Z).
  { apply round_half_even_ge. change (inject_Z 0) with 0. lra. }
  rewrite Zle_Qle in Hhi, Hlo. rewrite inject_Z_mult in Hhi. fold P in Hhi.
  change (inject_Z 360) with 360 in Hhi. change (inject_Z 0) with 0 in Hlo.
  set (k := inject_Z (Py.round_half_even (y / / P))) in *.
  assert (A : 0 <= k * / P) by (apply Qmult_le_0_compat; lra).
  assert (B : 0 <= (360 * P - k) * / P) by (apply Qmult_le_0_compat; lra).
  assert (C : 360 * P * / P == 360) by (field; lra).
  split; lra.
Qed.

(** [x % 360] lies in [0, 360], both ends included. *)
Lemma mod_360_range x : 0 <= Py.mod_ x 360 /\ Py.mod_ x 360 <= 360.
Proof.
  unfold Py.mod_. destruct (fmod_range x 360) as [H1 H2]; [lra|].
  destruct (Py.ltb (Py.fmod x 360) 0) eqn:E.
  - apply ltb_lt in E. apply nearest_double_below_360; lra.
  - apply ltb_ge in E. split; lra.
Qed.

End Numbers.

(** ** The simulator *)

(** A fresh state lies in the clamp ranges. *)
Lemma initialize_in_clamp_ranges vehicle_id now rnd :
  unit_init rnd -> in_clamp_ranges (initialize_vehicle_state vehicle_id now rnd).
Proof.
  unfold unit_init, unit_draw, in_clamp_ranges, initialize_vehicle_state, Py.uniform.
  cbn. intros H. repeat split; lra.
Qed.

(** The clamps put speed, RPM, fuel and temperature in their ranges whatever
    the state, the clock and the draws; the heading is wrapped only when it
    turns, so it has to come from [0, 360]. *)
Lemma simulate_state_in_ranges L state current_time rnd :
  0 <= State.direction state -> State.direction state <= 360 ->
  in_clamp_ranges (simulate_state L state current_time rnd).
Proof.
  intros Hd1 Hd2. unfold in_clamp_ranges, simulate_state.
  cbn [State.speed State.engine_rpm State.fuel_level State.engine_temperature
       State.direction].
  repeat split; try (apply clamp_range; lra); try apply max_lower.
  all: destruct (Py.ltb (u_turn rnd) 0.1); try lra; apply mod_360_range.
Qed.

(** C5, as stated, fails for the heading: [%] on floats adds 360 to a
    negative remainder and rounds the sum, so a heading just below 15 that
    turns by -15 becomes 360 itself. The state lies in the ranges of the
    claim, heading below 360 included, and the elapsed time is positive. *)
Lemma heading_reaches_360 :
  let state' :=
    fst (simulate_realistic_telemetry Sample.runtime "car-1" Sample.just_below_15 1001
           Sample.sim_draws "sample") in
  (in_clamp_ranges Sample.just_below_15 /\ State.direction Sample.just_below_15 < 360) /\
  0 <= 1001 - State.last_update Sample.just_below_15 /\
  State.direction state' == 360 /\
  ~ State.direction state' < 360.
Proof.
  cbn zeta. split; [|split; [|split]].
  - unfold in_clamp_ranges, Sample.just_below_15. cbn. lra.
  - vm_compute. discriminate.
  - vm_compute. reflexivity.
  - vm_compute. intros H. discriminate H.
Qed.

(** C5, amended. A step from a state whose fields lie in the clamp ranges,
    after a non-negative elapsed time, ends in a state whose fields lie in
    them: speed in [0, 140], RPM in [800, 6500], fuel level at least 0,
    temperature in [70, 120] and heading in [0, 360], the upper end
    included. *)
Theorem step_keeps_clamp_ranges (L : Runtime) (vehicle_id : string)
    (state : State.t) (current_time : datetime) (rnd : SimDraws) (uuid : string) :
  in_clamp_ranges state ->
  0 <= current_time - State.last_update state ->
  in_clamp_ranges
    (fst (simulate_realistic_telemetry L vehicle_id state current_time rnd uuid)).
Proof.
  intros (_ & _ & _ & _ & Hd1 & Hd2) _.
  cbn [simulate_realistic_telemetry fst]. by apply simulate_state_in_ranges.
Qed.

Lemma cruising_in_ranges : in_clamp_ranges Sample.cruising.
Proof. unfold in_clamp_ranges, Sample.cruising. cbn. lra. Qed.

Lemma step_keeps_clamp_ranges_witness :
  in_clamp_ranges
    (fst (simulate_realistic_telemetry Sample.runtime "car-1" Sample.cruising 1001
            Sample.sim_draws "sample")).
Proof.
  apply step_keeps_clamp_ranges.
  - unfold in_clamp_ranges, Sample.cruising. cbn. lra.
  - vm_compute. discriminate.
Defined.

(** With no time elapsed the random change of the speed, which is scaled by
    the elapsed time, is zero: the speed only passes through its clamp. *)
Lemma zero_dt_speed_clamped (L : Runtime) (state : State.t) (rnd : SimDraws) :
  State.speed (simulate_state L state (State.last_update state) rnd)
  == Py.max 0 (Py.min 140 (State.speed state)).
Proof.
  unfold simulate_state. cbn [State.speed].
  apply max_proper; [reflexivity|]. apply min_proper; [reflexivity|]. ring.
Qed.

Lemma zero_dt_speed (L : Runtime) (state : State.t) (rnd : SimDraws) :
  0 <= State.speed state -> State.speed state <= 140 ->
  State.speed (simulate_state L state (State.last_update state) rnd)
  == State.speed state.
Proof. intros H1 H2. rewrite zero_dt_speed_clamped. by apply clamp_id. Qed.

(** C6, as stated, fails: the claim lets the random noise change the speed
    on a step with no elapsed time. No state in the clamp ranges has its
    speed changed by such a step, and for no state at all does the speed
    after such a step depend on the random draws. *)
Lemma zero_dt_speed_jitter_refuted :
  (~ exists (L : Runtime) (vehicle_id : string) (state : State.t) (rnd : SimDraws)
       (uuid : string),
       in_clamp_ranges state /\
       ~ State.speed (fst (simulate_realistic_telemetry L vehicle_id state
                             (State.last_update state) rnd uuid))
         == State.speed state) /\
  (~ exists (L : Runtime) (vehicle_id : string) (state : State.t)
       (rnd rnd' : SimDraws) (uuid : string),
       ~ State.speed (fst (simulate_realistic_telemetry L vehicle_id state
                             (State.last_update state) rnd uuid))
         == State.speed (fst (simulate_realistic_telemetry L vehicle_id state
                                (State.last_update state) rnd' uuid))).
Proof.
  split.
  - intros (L & vid & s & rnd & uuid & ((H1 & H2) & _) & Hne).
    apply Hne. cbn [simulate_realistic_telemetry fst]. by apply zero_dt_speed.
  - intros (L & vid & s & rnd & rnd' & uuid & Hne).
    apply Hne. cbn [simulate_realistic_telemetry fst].
    by rewrite !zero_dt_speed_clamped.
Qed.

(** C6, amended. On a step with no elapsed time the fuel consumption, the
    temperature change, the speed change and the displacement are all zero,
    so fuel level, engine temperature and speed only pass through their
    clamps and the position is kept: from a state in the clamp ranges all
    five are unchanged. The RPM and the heading are the two fields such a
    step can change: the RPM is derived anew from the speed and a fresh
    random draw, the heading turns whenever the turn draw is below 0.1, and
    neither is scaled by the elapsed time; there is a state in the clamp
    ranges whose RPM and heading both change. *)
Theorem zero_dt_step :
  (forall (L : Runtime) (vehicle_id : string) (state : State.t) (rnd : SimDraws)
      (uuid : string),
      let state' := fst (simulate_realistic_telemetry L vehicle_id state
                           (State.last_update state) rnd uuid) in
      State.fuel_level state' == Py.max 0 (State.fuel_level state) /\
      State.engine_temperature state'
      == Py.max 70 (Py.min 120 (State.engine_temperature state)) /\
      State.speed state' == Py.max 0 (Py.min 140 (State.speed state)) /\
      State.engine_rpm state' == rpm_of_speed (State.speed state') (u_rpm rnd) /\
      State.latitude state' == State.latitude state /\
      State.longitude state' == State.longitude state /\
      State.direction state'
      = (if Py.ltb (u_turn rnd) 0.1
         then Py.mod_ (State.direction state + Py.uniform (-30) 30 (u_dir rnd)) 360
         else State.direction state) /\
      State.last_update state' = State.last_update state) /\
  (forall (L : Runtime) (vehicle_id : string) (state : State.t) (rnd : SimDraws)
      (uuid : string),
      in_clamp_ranges state ->
      let state' := fst (simulate_realistic_telemetry L vehicle_id state
                           (State.last_update state) rnd uuid) in
      State.fuel_level state' == State.fuel_level state /\
      State.engine_temperature state' == State.engine_temperature state /\
      State.speed state' == State.speed state /\
      State.latitude state' == State.latitude state /\
      State.longitude state' == State.longitude state /\
      State.engine_rpm state' == rpm_of_speed (State.speed state) (u_rpm rnd) /\
      State.direction state'
      = (if Py.ltb (u_turn rnd) 0.1
         then Py.mod_ (State.direction state + Py.uniform (-30) 30 (u_dir rnd)) 360
         else State.direction state)) /\
  (exists (state : State.t) (rnd : SimDraws),
      in_clamp_ranges state /\
      forall (L : Runtime) (vehicle_id uuid : string),
        ~ State.engine_rpm (fst (simulate_realistic_telemetry L vehicle_id state
                                   (State.last_update state) rnd uuid))
          == State.engine_rpm state /\
        ~ State.direction (fst (simulate_realistic_telemetry L vehicle_id state
                                  (State.last_update state) rnd uuid))
          == State.direction state).
Proof.
  assert (Hall : forall (L : Runtime) (state : State.t) (rnd : SimDraws),
    let state' := simulate_state L state (State.last_update state) rnd in
    State.fuel_level state' == Py.max 0 (State.fuel_level state) /\
    State.engine_temperature state'
    == Py.max 70 (Py.min 120 (State.engine_temperature state)) /\
    State.latitude state' == State.latitude state /\
    State.longitude state' == State.longitude state).
  { intros L s rnd. cbn zeta. unfold simulate_state.
    cbn [State.fuel_level State.engine_temperature State.latitude State.longitude].
    repeat split.
    - apply max_proper; [reflexivity|]. ring.
    - apply max_proper; [reflexivity|]. apply min_proper; [reflexivity|]. ring.
    - field.
    - field. }
  repeat apply conj.
  - intros L vid s rnd uuid. cbn zeta. cbn [simulate_realistic_telemetry fst].
    destruct (Hall L s rnd) as (Hf & Ht & Hlat & Hlng).
    repeat split; try assumption; try reflexivity.
    apply zero_dt_speed_clamped.
  - intros L vid s rnd uuid ((Hs1 & Hs2) & _ & Hf & (Ht1 & Ht2) & _).
    cbn zeta. cbn [simulate_realistic_telemetry fst].
    destruct (Hall L s rnd) as (Hfuel & Htemp & Hlat & Hlng).
    pose proof (zero_dt_speed L s rnd Hs1 Hs2) as Hspeed.
    repeat split; try assumption; try reflexivity.
    + rewrite Hfuel. by apply max_id.
    + rewrite Htemp. by apply clamp_id.
    + unfold rpm_of_speed. rewrite <- Hspeed. reflexivity.
  - exists Sample.cruising, Sample.sim_draws. split; [apply cruising_in_ranges|].
    intros L vid uuid. split; vm_compute; discriminate.
Qed.

Lemma zero_dt_step_witness :
  let state' := fst (simulate_realistic_telemetry Sample.runtime "car-1"
                       Sample.cruising (State.last_update Sample.cruising)
                       Sample.sim_draws "sample") in
  State.fuel_level state' == State.fuel_level Sample.cruising /\
  State.engine_temperature state' == State.engine_temperature Sample.cruising /\
  State.speed state' == State.speed Sample.cruising /\
  State.latitude state' == State.latitude Sample.cruising /\
  State.longitude state' == State.longitude Sample.cruising /\
  State.engine_rpm state'
  == rpm_of_speed (State.speed Sample.cruising) (u_rpm Sample.sim_draws) /\
  State.direction state'
  = (if Py.ltb (u_turn Sample.sim_draws) 0.1
     then Py.mod_ (State.direction Sample.cruising
                   + Py.uniform (-30) 30 (u_dir Sample.sim_draws)) 360
     else State.direction Sample.cruising).
Proof.
  apply (proj1 (proj2 zero_dt_step)).
  unfold in_clamp_ranges, Sample.cruising. cbn. lra.
Defined.

(** ** The alert evaluator *)

Section Alerts.

Context (L : Runtime).

(** One turn of the loop of [check_telemetry_alerts] appends what the rule
    gives for the metric. *)
Lemma check_metric_rule (t : TelemetryData.t) (metric : string)
    (th : Thresholds.t) (alerts : list TelemetryAlert.t) (value : Q) :
  getattr t metric = Some value ->
  check_metric L t metric th alerts =
  Ok (alerts ++ option_list
        (rule_alert L (TelemetryData.vehicle_id t) metric value
           (Thresholds.max th) (Thresholds.min th))).
Proof.
  intros Hv. unfold check_metric, rule_alert. rewrite Hv.
  destruct (Py.ltb (Thresholds.max th) value); [reflexivity|].
  destruct (Py.ltb value (Thresholds.min th)); [reflexivity|].
  cbn. by rewrite app_nil_r.
Qed.

(** [check_telemetry_alerts] never raises and returns the alerts of the rule. *)
Lemma check_telemetry_alerts_rule (t : TelemetryData.t) :
  check_telemetry_alerts L t = Ok (rule_alerts L t).
Proof.
  unfold check_telemetry_alerts, TELEMETRY_THRESHOLDS, rule_alerts.
  cbn [check_loop].
  rewrite (check_metric_rule t "speed" _ _ (TelemetryData.speed t)) by reflexivity.
  rewrite (check_metric_rule t "engine_rpm" _ _ (TelemetryData.engine_rpm t))
    by reflexivity.
  rewrite (check_metric_rule t "fuel_level" _ _ (TelemetryData.fuel_level t))
    by reflexivity.
  rewrite (check_metric_rule t "engine_temperature" _ _
             (TelemetryData.engine_temperature t)) by reflexivity.
  cbn [Thresholds.max Thresholds.min app]. by rewrite <- !app_assoc.
Qed.

Lemma rule_alert_metric (vid metric : string) (value max min : Q)
    (a : TelemetryAlert.t) :
  rule_alert L vid metric value max min = Some a -> TelemetryAlert.metric a = metric.
Proof.
  unfold rule_alert. intros H.
  destruct (Py.ltb max value); [by inversion H|].
  destruct (Py.ltb value min); [by inversion H|]. discriminate.
Qed.

Lemma rule_alert_severity (vid metric : string) (value max min : Q)
    (a : TelemetryAlert.t) :
  rule_alert L vid metric value max min = Some a ->
  TelemetryAlert.severity a = "medium"%string \/
  TelemetryAlert.severity a = "high"%string.
Proof.
  unfold rule_alert. intros H.
  destruct (Py.ltb max value).
  - inversion H; subst; cbn. destruct (Py.ltb _ _); auto.
  - destruct (Py.ltb value min); [|discriminate].
    inversion H; subst; cbn. destruct (Py.ltb _ _); auto.
Qed.

Lemma rule_alert_metric_sublist (vid metric : string) (value max min : Q) :
  map TelemetryAlert.metric (option_list (rule_alert L vid metric value max min))
  `sublist_of` [metric].
Proof.
  destruct (rule_alert L vid metric value max min) as [a|] eqn:E; cbn.
  - apply rule_alert_metric in E. rewrite E. reflexivity.
  - apply sublist_nil_l.
Qed.

(** The metrics of the alerts follow the order of the table, each at most
    once. *)
Lemma rule_alerts_metrics (t : TelemetryData.t) :
  map TelemetryAlert.metric (rule_alerts L t) `sublist_of` monitored_metrics.
Proof.
  unfold rule_alerts, monitored_metrics, TELEMETRY_THRESHOLDS.
  rewrite !map_app.
  change (map fst _)
    with (["speed"%string] ++ ["engine_rpm"%string] ++ ["fuel_level"%string]
          ++ ["engine_temperature"%string]).
  repeat apply sublist_app; apply rule_alert_metric_sublist.
Qed.

End Alerts.

(** C7. [check_telemetry_alerts] returns exactly the alerts of the rule:
    for speed, engine RPM, fuel level and engine temperature in this order,
    an alert when the value is above max (high beyond max * 1.2, medium
    otherwise) or below min (high beyond min * 0.8, medium otherwise) and
    none in between; so the metrics of the alerts are a sub-sequence of the
    four, at most four alerts, and a sample of speed 145 has exactly one
    speed alert, of severity high. *)
Theorem check_follows_rule (L : Runtime) (t : TelemetryData.t) :
  check_telemetry_alerts L t = Ok (rule_alerts L t) /\
  map TelemetryAlert.metric (rule_alerts L t) `sublist_of` monitored_metrics /\
  (length (rule_alerts L t) <= 4)%nat /\
  (TelemetryData.speed t = 145 ->
   exists a,
     filter (fun x => TelemetryAlert.metric x = "speed"%string) (rule_alerts L t) = [a] /\
     TelemetryAlert.severity a = "high"%string /\
     TelemetryAlert.value a = 145 /\ TelemetryAlert.threshold a = 120).
Proof.
  split; [apply check_telemetry_alerts_rule|].
  pose proof (rule_alerts_metrics L t) as Hsub.
  split; [exact Hsub|]. split.
  - apply sublist_length in Hsub. by rewrite length_map in Hsub.
  - intros H145. unfold rule_alerts. rewrite H145.
    eexists. split.
    + rewrite filter_app.
      replace (rule_alert L (TelemetryData.vehicle_id t) "speed" 145 120 0)
        with (Some {| TelemetryAlert.vehicle_id := TelemetryData.vehicle_id t;
                      TelemetryAlert.metric := "speed";
                      TelemetryAlert.value := 145;
                      TelemetryAlert.threshold := 120;
                      TelemetryAlert.severity := "high";
                      TelemetryAlert.message := alert_message L "speed" "high" 145 |})
        by reflexivity.
      cbn [option_list option_rect].
      rewrite filter_cons_True by reflexivity. rewrite filter_nil.
      rewrite !filter_app.
      repeat match goal with
      | |- context [filter ?P (option_list ?o)] =>
          let E := fresh in
          destruct o eqn:E; cbn [option_list option_rect];
          [apply rule_alert_metric in E;
           rewrite filter_cons_False by (rewrite E; discriminate)|];
          rewrite filter_nil
      end.
      all: reflexivity.
    + cbn. repeat split; reflexivity.
Qed.

Lemma check_follows_rule_witness :
  exists a,
    filter (fun x => TelemetryAlert.metric x = "speed"%string)
      (rule_alerts Sample.runtime Sample.speeding) = [a] /\
    TelemetryAlert.severity a = "high"%string /\
    TelemetryAlert.value a = 145 /\ TelemetryAlert.threshold a = 120.
Proof.
  apply (proj2 (proj2 (proj2 (check_follows_rule Sample.runtime Sample.speeding)))).
  reflexivity.
Defined.

(** C9. Every alert that [check_telemetry_alerts] returns has severity
    medium or high; the severity low is never produced. *)
Theorem severity_medium_or_high (L : Runtime) (t : TelemetryData.t)
    (alerts : list TelemetryAlert.t) (a : TelemetryAlert.t) :
  check_telemetry_alerts L t = Ok alerts ->
  a ∈ alerts ->
  (TelemetryAlert.severity a = "medium"%string \/
   TelemetryAlert.severity a = "high"%string) /\
  TelemetryAlert.severity a <> "low"%string.
Proof.
  rewrite check_telemetry_alerts_rule. intros [= <-] Hin.
  assert (H : TelemetryAlert.severity a = "medium"%string \/
              TelemetryAlert.severity a = "high"%string).
  { unfold rule_alerts in Hin.
    repeat (apply elem_of_app in Hin; destruct Hin as [Hin|Hin]).
    all: destruct (rule_alert _ _ _ _ _ _) eqn:E in Hin; cbn in Hin;
      [apply list_elem_of_singleton in Hin; subst; eapply rule_alert_severity; eauto
      |by apply elem_of_nil in Hin]. }
  split; [exact H|]. destruct H as [-> | ->]; discriminate.
Qed.

Lemma severity_medium_or_high_witness :
  (TelemetryAlert.severity Sample.speed_alert = "medium"%string \/
   TelemetryAlert.severity Sample.speed_alert = "high"%string) /\
  TelemetryAlert.severity Sample.speed_alert <> "low"%string.
Proof.
  apply (severity_medium_or_high Sample.runtime Sample.speeding [Sample.speed_alert]).
  - vm_compute. reflexivity.
  - apply list_elem_of_here.
Defined.

(** ** The loop of the handler *)

(** Unfolds the operations of [M] and the database calls. *)
Ltac run :=
  unfold Db.insert_telemetry, Db.find_active, Db.update_one, Db.insert_vehicle,
    Db.find_one, Db.reply;
  unfold bind, get, modify, ret, raise, lift; cbn beta iota.

Lemma touches_only_refl ids w : touches_only ids w w.
Proof.
  repeat split; try done. exists []. by rewrite app_nil_r.
Qed.

Lemma touches_only_trans ids w1 w2 w3 :
  touches_only ids w1 w2 -> touches_only ids w2 w3 -> touches_only ids w1 w3.
Proof.
  intros (Hv & Hc & Ht & Hs & new & Hn & Hf) (Hv' & Hc' & Ht' & Hs' & new' & Hn' & Hf').
  repeat split; try congruence.
  - intros vid Hvid. rewrite Hs' by done. by apply Hs.
  - exists (new ++ new'). split.
    + rewrite Hn', Hn. by rewrite app_assoc.
    + by apply Forall_app.
Qed.

Lemma touches_only_mono ids ids' w w' :
  ids ⊆ ids' -> touches_only ids w w' -> touches_only ids' w w'.
Proof.
  intros Hsub (Hv & Hc & Ht & Hs & new & Hn & Hf).
  repeat split; try done.
  - intros vid Hvid. apply Hs. intros Hin. apply Hvid, Hsub, Hin.
  - exists new. split; [done|]. eapply Forall_impl; [exact Hf|].
    intros t Ht'. cbn in Ht'. by apply Hsub.
Qed.

(** Inclusions between lists of identifiers. *)
Lemma sub_here (x : string) (l : list string) : [x] ⊆ x :: l.
Proof. intros y Hy%list_elem_of_singleton. subst. apply list_elem_of_here. Qed.

Lemma sub_further (x : string) (l : list string) : l ⊆ x :: l.
Proof. intros y Hy. by apply list_elem_of_further. Qed.

Lemma sub_same (l : list string) : l ⊆ l.
Proof. done. Qed.

Create HintDb subs.

#[export] Hint Resolve sub_here sub_further sub_same : subs.

(** The observers of a trace distribute over its growth. *)
Lemma broadcast_samples_app tr1 tr2 :
  broadcast_samples (tr1 ++ tr2) = broadcast_samples tr1 ++ broadcast_samples tr2.
Proof.
  induction tr1 as [|[m| |] tr1 IH]; cbn; [done| |done|done].
  by rewrite IH, app_assoc.
Qed.

Lemma broadcast_calls_app tr1 tr2 :
  broadcast_calls (tr1 ++ tr2) = (broadcast_calls tr1 + broadcast_calls tr2)%nat.
Proof. unfold broadcast_calls. by rewrite List.filter_app, length_app. Qed.

Lemma events_since_app w w' evs :
  trace w' = trace w ++ evs -> events_since w w' = evs.
Proof. intros H. unfold events_since. rewrite H. by rewrite drop_app_length. Qed.

Lemma broadcast_calls_cons message tr :
  broadcast_calls (Broadcast message :: tr) = S (broadcast_calls tr).
Proof. reflexivity. Qed.

Lemma samples_of_app (vid : string) (l1 l2 : list TelemetryData.t) :
  samples_of vid (l1 ++ l2) = samples_of vid l1 ++ samples_of vid l2.
Proof. apply filter_app. Qed.

(** Samples that all belong to the listed vehicles hold none of another. *)
Lemma samples_of_others (vid : string) (ids : list string)
    (l : list TelemetryData.t) :
  vid ∉ ids ->
  Forall (fun t => TelemetryData.vehicle_id t ∈ ids) l ->
  samples_of vid l = [].
Proof.
  intros Hvid Hl. induction Hl as [|t l Ht Hl IH]; [done|].
  unfold samples_of in *. rewrite filter_cons_False; [done|].
  intros E. apply Hvid. by rewrite <- E.
Qed.

Lemma samples_of_ids (vid : string) (l : list TelemetryData.t) :
  vid ∉ map TelemetryData.vehicle_id l -> samples_of vid l = [].
Proof.
  intros Hvid. apply (samples_of_others vid (map TelemetryData.vehicle_id l)); [done|].
  apply Forall_forall. intros t Ht. apply list_elem_of_fmap. eauto.
Qed.

Section Loop.

Context (L : Runtime).

(** The body of the loop when the insert goes through. *)
Lemma process_vehicle_ok (vi : VehicleInput) (v : Vehicle.t)
    (tel : list TelemetryData.t) (al : list TelemetryAlert.t) (w : World) :
  insert_ok vi = true ->
  process_vehicle L vi v (tel, al) w =
  (stored (snd (step_for L w vi v)) (stepped L w vi v),
   Ok (tel ++ [snd (step_for L w vi v)],
       al ++ rule_alerts L (snd (step_for L w vi v)))).
Proof.
  intros Hok. unfold process_vehicle, stepped, stored, step_for, state_for.
  unfold simulate_realistic_telemetry. run.
  rewrite check_telemetry_alerts_rule, Hok. reflexivity.
Qed.

(** The body of the loop when the insert raises: the state has been
    advanced, nothing is stored and the exception is passed on. *)
Lemma process_vehicle_fail (vi : VehicleInput) (v : Vehicle.t)
    (acc : list TelemetryData.t * list TelemetryAlert.t) (w : World) :
  insert_ok vi = false ->
  process_vehicle L vi v acc w = (stepped L w vi v, Raise DatabaseError).
Proof.
  intros Hok. destruct acc as [tel al].
  unfold process_vehicle, stepped, step_for, state_for.
  unfold simulate_realistic_telemetry. run. rewrite Hok. reflexivity.
Qed.

Lemma step_for_vehicle_id w vi v :
  TelemetryData.vehicle_id (snd (step_for L w vi v)) = Vehicle.id v.
Proof. reflexivity. Qed.

Lemma stepped_touches w vi v : touches_only [Vehicle.id v] w (stepped L w vi v).
Proof.
  repeat split; try done.
  - intros vid Hvid. cbn. apply lookup_insert_ne.
    intros E. apply Hvid. rewrite <- E. apply list_elem_of_here.
  - exists []. cbn. by rewrite app_nil_r.
Qed.

Lemma stored_touches w vi v :
  touches_only [Vehicle.id v] w (stored (snd (step_for L w vi v)) (stepped L w vi v)).
Proof.
  repeat split; try done.
  - intros vid Hvid. cbn. apply lookup_insert_ne.
    intros E. apply Hvid. rewrite <- E. apply list_elem_of_here.
  - exists [snd (step_for L w vi v)]. split; [reflexivity|].
    apply Forall_singleton. apply list_elem_of_here.
Qed.

Lemma process_vehicle_touches vi v acc w :
  touches_only [Vehicle.id v] w (fst (process_vehicle L vi v acc w)).
Proof.
  destruct acc as [tel al]. destruct (insert_ok vi) eqn:E.
  - rewrite process_vehicle_ok by done. apply stored_touches.
  - rewrite process_vehicle_fail by done. apply stepped_touches.
Qed.

(** Whether it returns or raises, the loop over the vehicles changes only
    their states and stores only their samples. *)
Lemma process_vehicles_touches inputs vs : forall k acc w,
  touches_only (map Vehicle.id vs) w (fst (process_vehicles L inputs k vs acc w)).
Proof.
  induction vs as [|v vs IH]; intros k acc w.
  - apply touches_only_refl.
  - cbn [process_vehicles]. unfold bind.
    pose proof (process_vehicle_touches (inputs k) v acc w) as H1.
    destruct (process_vehicle L (inputs k) v acc w) as [w1 [acc1|e]].
    + eapply touches_only_trans.
      * eapply touches_only_mono; [|exact H1]. cbn; auto with subs.
      * eapply touches_only_mono; [|apply IH]. cbn; auto with subs.
    + eapply touches_only_mono; [|exact H1]. cbn; auto with subs.
Qed.

(** When every insert goes through, the loop returns one stored sample per
    vehicle, in order, and every vehicle has a state. *)
Lemma process_vehicles_ok inputs vs : forall k tel al w,
  (forall j, (j < length vs)%nat -> insert_ok (inputs (k + j)%nat) = true) ->
  exists w' samples alerts,
    process_vehicles L inputs k vs (tel, al) w = (w', Ok (tel ++ samples, al ++ alerts)) /\
    map TelemetryData.vehicle_id samples = map Vehicle.id vs /\
    telemetry w' = telemetry w ++ samples /\
    forall v, v ∈ vs -> is_Some (vehicle_states w' !! Vehicle.id v).
Proof.
  induction vs as [|v vs IH]; intros k tel al w Hok.
  - exists w, [], []. cbn. rewrite !app_nil_r. repeat split; try done.
    intros v Hv. by apply elem_of_nil in Hv.
  - cbn [process_vehicles]. unfold bind.
    rewrite process_vehicle_ok
      by (specialize (Hok 0%nat); rewrite Nat.add_0_r in Hok; apply Hok; cbn; lia).
    set (t := snd (step_for L w (inputs k) v)).
    set (w1 := stored t (stepped L w (inputs k) v)).
    destruct (IH (S k) (tel ++ [t]) (al ++ rule_alerts L t) w1)
      as (w' & samples & alerts & Hrun & Hids & Htel & Hst).
    { intros j Hj. replace (S k + j)%nat with (k + S j)%nat by lia.
      apply Hok. cbn. lia. }
    exists w', (t :: samples), (rule_alerts L t ++ alerts).
    rewrite Hrun. rewrite <- !app_assoc. repeat split; try done.
    + cbn. by rewrite Hids.
    + rewrite Htel. unfold w1. cbn. by rewrite <- app_assoc.
    + intros v' Hv'. apply elem_of_cons in Hv' as [->|Hv']; [|by apply Hst].
      destruct (decide (Vehicle.id v ∈ map Vehicle.id vs)) as [Hin|Hnin].
      * apply list_elem_of_fmap in Hin as (v2 & -> & Hv2). by apply Hst.
      * pose proof (process_vehicles_touches inputs vs (S k)
                      (tel ++ [t], al ++ rule_alerts L t) w1) as Hfr.
        rewrite Hrun in Hfr. destruct Hfr as (_ & _ & _ & Hs & _).
        cbn [fst] in Hs. rewrite Hs by done. unfold w1. cbn.
        rewrite lookup_insert_eq. by eexists.
Qed.

(** When the [i]-th insert is the first to raise, the loop raises: [i]
    samples are stored and the vehicles after the [i]-th are left as they
    were. *)
Lemma process_vehicles_fail inputs vs : forall i k acc w,
  (i < length vs)%nat ->
  (forall j, (j < i)%nat -> insert_ok (inputs (k + j)%nat) = true) ->
  insert_ok (inputs (k + i)%nat) = false ->
  snd (process_vehicles L inputs k vs acc w) = Raise DatabaseError /\
  touches_only (map Vehicle.id (take (S i) vs)) w
    (fst (process_vehicles L inputs k vs acc w)) /\
  exists kept,
    telemetry (fst (process_vehicles L inputs k vs acc w)) = telemetry w ++ kept /\
    map TelemetryData.vehicle_id kept = map Vehicle.id (take i vs).
Proof.
  induction vs as [|v vs IH]; intros i k acc w Hi Hok Hfail; [cbn in Hi; lia|].
  cbn [process_vehicles]. unfold bind.
  destruct i as [|i].
  - rewrite Nat.add_0_r in Hfail. rewrite process_vehicle_fail by done.
    cbn [fst snd take map]. split; [done|]. split; [apply stepped_touches|].
    exists []. cbn. by rewrite app_nil_r.
  - destruct acc as [tel al].
    rewrite process_vehicle_ok
      by (specialize (Hok 0%nat); rewrite Nat.add_0_r in Hok; apply Hok; lia).
    set (t := snd (step_for L w (inputs k) v)).
    set (w1 := stored t (stepped L w (inputs k) v)).
    destruct (IH i (S k) (tel ++ [t], al ++ rule_alerts L t) w1)
      as (Hr & Hfr & kept & Hkept & Hids).
    { cbn in Hi. lia. }
    { intros j Hj. replace (S k + j)%nat with (k + S j)%nat by lia. apply Hok. lia. }
    { replace (S k + i)%nat with (k + S i)%nat by lia. done. }
    split; [done|]. split.
    + eapply touches_only_trans.
      * eapply (touches_only_mono [Vehicle.id v]);
          [|apply (stored_touches w (inputs k) v)]. cbn; auto with subs.
      * eapply touches_only_mono; [|exact Hfr]. cbn; auto with subs.
    + exists (t :: kept). rewrite Hkept. unfold w1. cbn. rewrite <- app_assoc.
      split; [reflexivity|]. by rewrite Hids.
Qed.

(** A loop that returns has gathered one sample per vehicle, in order. *)
Lemma process_vehicles_result inputs vs : forall k tel al w w' tel' al',
  process_vehicles L inputs k vs (tel, al) w = (w', Ok (tel', al')) ->
  exists samples,
    tel' = tel ++ samples /\
    map TelemetryData.vehicle_id samples = map Vehicle.id vs.
Proof.
  induction vs as [|v vs IH]; intros k tel al w w' tel' al' Hrun.
  - cbn in Hrun. injection Hrun as <- <- <-. exists []. by rewrite app_nil_r.
  - cbn [process_vehicles] in Hrun. unfold bind in Hrun.
    destruct (insert_ok (inputs k)) eqn:E.
    + rewrite process_vehicle_ok in Hrun by done.
      apply IH in Hrun as (samples & -> & Hids).
      exists (snd (step_for L w (inputs k) v) :: samples).
      rewrite <- app_assoc. split; [done|]. cbn. by rewrite Hids.
    + rewrite process_vehicle_fail in Hrun by done. discriminate.
Qed.

Lemma broadcast_samples_deliveries send message conns :
  broadcast_samples (deliveries L send message conns) = [].
Proof.
  induction conns as [|c conns IH]; [done|].
  unfold deliveries in *. cbn [map concat]. rewrite broadcast_samples_app, IH.
  unfold delivery. destruct (json_dumps L message); [destruct (send c s)|]; done.
Qed.

Lemma broadcast_calls_deliveries send message conns :
  broadcast_calls (deliveries L send message conns) = 0%nat.
Proof.
  induction conns as [|c conns IH]; [done|].
  unfold deliveries in *. cbn [map concat]. rewrite broadcast_calls_app, IH.
  unfold delivery. destruct (json_dumps L message); [destruct (send c s)|]; done.
Qed.

Lemma emit_nil w : emit [] w = w.
Proof. destruct w. unfold emit. cbn. by rewrite app_nil_r. Qed.

Lemma emit_emit evs1 evs2 w : emit evs2 (emit evs1 w) = emit (evs1 ++ evs2) w.
Proof. unfold emit. cbn. by rewrite app_assoc. Qed.

(** The body of the loop of [broadcast] at one connection returns, whatever
    [json.dumps] and [send_text] do. *)
Lemma try_send_run send message c w :
  try_pass (text <- ConnectionManager.dumps L message ;;
            ConnectionManager.send send c text) (emit [Attempt c] w)
  = (emit (delivery L send message c) w, Ok tt).
Proof.
  unfold try_pass, bind, ConnectionManager.dumps, ConnectionManager.send, delivery.
  destruct (json_dumps L message) as [text|]; [|reflexivity].
  unfold ret. destruct (send c text); [|reflexivity].
  unfold modify. by rewrite emit_emit.
Qed.

(** The loop of [broadcast] visits every connection and returns. *)
Lemma broadcast_loop_run send message conns : forall w,
  ConnectionManager.broadcast_loop L send message conns w
  = (emit (deliveries L send message conns) w, Ok tt).
Proof.
  induction conns as [|c conns IH]; intros w.
  - cbn. by rewrite emit_nil.
  - cbn [ConnectionManager.broadcast_loop]. unfold bind at 1. unfold modify at 1.
    unfold bind at 1. rewrite try_send_run, IH, emit_emit. reflexivity.
Qed.

Lemma broadcast_run send message w :
  ConnectionManager.broadcast L send message w
  = (emit (Broadcast message :: deliveries L send message (active_connections w)) w,
     Ok tt).
Proof.
  unfold ConnectionManager.broadcast, bind, modify, get.
  cbn [active_connections emit]. by rewrite broadcast_loop_run, emit_emit.
Qed.

(** The batch of a turn and the state it leaves, when the fetch went through. *)
Lemma tick_unfold inp w :
  find_ok inp = true ->
  tick L inp w =
  match process_vehicles L (per_vehicle inp) 0 (fetched w) ([], []) w with
  | (w1, Ok batch) =>
      let message :=
        {| Message.type := "telemetry_update";
           Message.timestamp := isoformat L (message_now inp);
           Message.data := fst batch;
           Message.alerts := snd batch |} in
      (emit (Broadcast message
             :: deliveries L (send_text inp) message (active_connections w1)) w1,
       Ok message)
  | (w1, Raise e) => (w1, Raise e)
  end.
Proof.
  intros Hok. unfold tick. run. rewrite Hok. fold (fetched w).
  destruct (process_vehicles L (per_vehicle inp) 0 (fetched w) ([], []) w)
    as [w1 [batch|e]]; [|reflexivity].
  by rewrite broadcast_run.
Qed.

Lemma tick_find_failure inp w :
  find_ok inp = false -> tick L inp w = (w, Raise DatabaseError).
Proof. intros Hok. unfold tick. run. by rewrite Hok. Qed.

(** A turn whose database calls go through. *)
Lemma tick_ok inp w :
  find_ok inp = true ->
  (forall j, (j < length (fetched w))%nat -> insert_ok (per_vehicle inp j) = true) ->
  exists w' message,
    tick L inp w = (w', Ok message) /\
    map TelemetryData.vehicle_id (Message.data message) = map Vehicle.id (fetched w) /\
    telemetry w' = telemetry w ++ Message.data message /\
    trace w' = trace w ++
      Broadcast message
      :: deliveries L (send_text inp) message (active_connections w) /\
    vehicles w' = vehicles w /\
    active_connections w' = active_connections w /\
    forall v, v ∈ fetched w -> is_Some (vehicle_states w' !! Vehicle.id v).
Proof.
  intros Hfind Hins. rewrite tick_unfold by done.
  destruct (process_vehicles_ok (per_vehicle inp) (fetched w) 0 [] [] w Hins)
    as (w1 & samples & alerts & Hrun & Hids & Htel & Hst).
  pose proof (process_vehicles_touches (per_vehicle inp) (fetched w) 0 ([], []) w) as Hfr.
  rewrite Hrun in *. destruct Hfr as (Hv & Hc & Htr & _). cbn [fst] in *.
  eexists _, _. split; [reflexivity|]. cbn.
  rewrite Hc, Htr. repeat split; try done.
Qed.

(** A turn in which an insert raises. *)
Lemma tick_storage_failure inp w i :
  find_ok inp = true ->
  (i < length (fetched w))%nat ->
  (forall j, (j < i)%nat -> insert_ok (per_vehicle inp j) = true) ->
  insert_ok (per_vehicle inp i) = false ->
  snd (tick L inp w) = Raise DatabaseError /\
  touches_only (map Vehicle.id (take (S i) (fetched w))) w (fst (tick L inp w)) /\
  exists kept,
    telemetry (fst (tick L inp w)) = telemetry w ++ kept /\
    map TelemetryData.vehicle_id kept = map Vehicle.id (take i (fetched w)).
Proof.
  intros Hfind Hi Hok Hfail. rewrite tick_unfold by done.
  destruct (process_vehicles_fail (per_vehicle inp) (fetched w) i 0 ([], []) w
              Hi Hok Hfail) as (Hr & Hfr & Hlen).
  destruct (process_vehicles L (per_vehicle inp) 0 (fetched w) ([], []) w)
    as [w1 [batch|e]]; cbn [fst snd] in *; [discriminate|].
  injection Hr as ->. split; [reflexivity|split; assumption].
Qed.

(** The only exception that leaves the loop over the vehicles, and so a
    turn, is the one of a database call. *)
Lemma process_vehicles_raises inputs vs : forall k acc w e,
  snd (process_vehicles L inputs k vs acc w) = Raise e -> e = DatabaseError.
Proof.
  induction vs as [|v vs IH]; intros k [tel al] w e; [discriminate|].
  cbn [process_vehicles]. unfold bind.
  destruct (insert_ok (inputs k)) eqn:E.
  - rewrite process_vehicle_ok by done. apply IH.
  - rewrite process_vehicle_fail by done. cbn. congruence.
Qed.

Lemma tick_raises inp w e : snd (tick L inp w) = Raise e -> e = DatabaseError.
Proof.
  destruct (find_ok inp) eqn:Hfind.
  - rewrite tick_unfold by done.
    pose proof (process_vehicles_raises (per_vehicle inp) (fetched w) 0 ([], []) w) as H.
    destruct (process_vehicles L (per_vehicle inp) 0 (fetched w) ([], []) w)
      as [w1 [batch|e']]; cbn [snd] in *; [discriminate|].
    intros [= <-]. by apply H.
  - rewrite tick_find_failure by done. cbn. congruence.
Qed.

(** A turn leaves alone every vehicle it did not fetch. *)
Lemma tick_leaves_alone inp w vid :
  vid ∉ map Vehicle.id (fetched w) ->
  let w' := fst (tick L inp w) in
  vehicles w' = vehicles w /\
  active_connections w' = active_connections w /\
  vehicle_states w' !! vid = vehicle_states w !! vid /\
  samples_of vid (telemetry w') = samples_of vid (telemetry w) /\
  exists evs, trace w' = trace w ++ evs /\
              samples_of vid (broadcast_samples evs) = [] /\
              (broadcast_calls evs <= 1)%nat.
Proof.
  intros Hvid. cbn zeta. destruct (find_ok inp) eqn:Hfind.
  - rewrite tick_unfold by done.
    pose proof (process_vehicles_touches (per_vehicle inp) (fetched w) 0 ([], []) w)
      as Hfr.
    destruct (process_vehicles L (per_vehicle inp) 0 (fetched w) ([], []) w)
      as [w1 [[tel al]|e]] eqn:Hrun;
      destruct Hfr as (Hv & Hc & Htr & Hs & new & Hn & Hf); cbn [fst] in *.
    + apply process_vehicles_result in Hrun as (samples & -> & Hids).
      cbn [fst snd emit vehicles active_connections vehicle_states telemetry trace].
      repeat split; try done.
      * by apply Hs.
      * rewrite Hn, samples_of_app, (samples_of_others vid _ new Hvid Hf).
        by rewrite app_nil_r.
      * eexists. split; [by rewrite Htr|]. split.
        -- cbn [broadcast_samples Message.data fst app].
           rewrite broadcast_samples_deliveries, app_nil_r.
           apply samples_of_ids. by rewrite Hids.
        -- by rewrite broadcast_calls_cons, broadcast_calls_deliveries.
    + repeat split; try done.
      * by apply Hs.
      * rewrite Hn, samples_of_app, (samples_of_others vid _ new Hvid Hf).
        by rewrite app_nil_r.
      * exists []. rewrite app_nil_r. repeat split; try done. cbn. lia.
  - rewrite tick_find_failure by done. cbn [fst]. repeat split; try done.
    exists []. rewrite app_nil_r. repeat split; try done. cbn. lia.
Qed.

Lemma process_vehicle_viewers vi v acc w1 w2 :
  same_but_viewers w1 w2 ->
  same_but_viewers (fst (process_vehicle L vi v acc w1))
                   (fst (process_vehicle L vi v acc w2)) /\
  snd (process_vehicle L vi v acc w1) = snd (process_vehicle L vi v acc w2).
Proof.
  intros (Hv & Ht & Hs). destruct acc as [tel al].
  assert (Hstep : step_for L w1 vi v = step_for L w2 vi v).
  { unfold step_for, state_for. by rewrite Hs. }
  destruct (insert_ok vi) eqn:E.
  - rewrite !process_vehicle_ok by done. unfold stored, stepped. rewrite Hstep.
    split; [|done]. unfold same_but_viewers. cbn. by rewrite Hv, Ht, Hs.
  - rewrite !process_vehicle_fail by done. unfold stepped. rewrite Hstep.
    split; [|done]. unfold same_but_viewers. cbn. by rewrite Hv, Ht, Hs.
Qed.

Lemma process_vehicles_viewers inputs vs : forall k acc w1 w2,
  same_but_viewers w1 w2 ->
  same_but_viewers (fst (process_vehicles L inputs k vs acc w1))
                   (fst (process_vehicles L inputs k vs acc w2)) /\
  snd (process_vehicles L inputs k vs acc w1) = snd (process_vehicles L inputs k vs acc w2).
Proof.
  induction vs as [|v vs IH]; intros k acc w1 w2 Hsame; [done|].
  cbn [process_vehicles]. unfold bind.
  destruct (process_vehicle_viewers (inputs k) v acc w1 w2 Hsame) as [H1 H2].
  destruct (process_vehicle L (inputs k) v acc w1) as [w1' [a1|e1]],
           (process_vehicle L (inputs k) v acc w2) as [w2' [a2|e2]];
    cbn [fst snd] in *; try discriminate.
  - injection H2 as ->. by apply IH.
  - done.
Qed.

(** The registered connections do not matter to what a turn simulates,
    stores and batches. *)
Lemma tick_viewers inp w1 w2 :
  same_but_viewers w1 w2 ->
  same_but_viewers (fst (tick L inp w1)) (fst (tick L inp w2)) /\
  snd (tick L inp w1) = snd (tick L inp w2).
Proof.
  intros Hsame. destruct (find_ok inp) eqn:Hfind.
  - rewrite !tick_unfold by done.
    assert (Hf : fetched w1 = fetched w2).
    { unfold fetched. by destruct Hsame as (-> & _). }
    rewrite Hf.
    destruct (process_vehicles_viewers (per_vehicle inp) (fetched w2) 0 ([], [])
                w1 w2 Hsame) as [H1 H2].
    destruct (process_vehicles L (per_vehicle inp) 0 (fetched w2) ([], []) w1)
      as [w1' [a1|e1]],
      (process_vehicles L (per_vehicle inp) 0 (fetched w2) ([], []) w2)
      as [w2' [a2|e2]]; cbn [fst snd] in *; try discriminate.
    + injection H2 as ->. split; [exact H1|reflexivity].
    + split; [exact H1|]. by injection H2 as ->.
  - rewrite !tick_find_failure by done. done.
Qed.

(** The states the process holds stay in the clamp ranges over a turn. *)
Lemma step_for_in_ranges w vi v :
  states_in_ranges w -> unit_init (init_rnd vi) ->
  in_clamp_ranges (fst (step_for L w vi v)).
Proof.
  intros Hw Hrnd. unfold step_for, simulate_realistic_telemetry. cbn [fst].
  assert (H : in_clamp_ranges (state_for w vi v)).
  { unfold state_for. destruct (vehicle_states w !! Vehicle.id v) eqn:E.
    - by apply (Hw _ _ E).
    - by apply initialize_in_clamp_ranges. }
  destruct H as (_ & _ & _ & _ & Hd1 & Hd2). by apply simulate_state_in_ranges.
Qed.

Lemma stepped_in_ranges w vi v :
  states_in_ranges w -> unit_init (init_rnd vi) -> states_in_ranges (stepped L w vi v).
Proof.
  intros Hw Hrnd vid state. unfold stepped. cbn. rewrite lookup_insert.
  destruct (decide (Vehicle.id v = vid)); [|apply Hw].
  intros [= <-]. by apply step_for_in_ranges.
Qed.

Lemma process_vehicles_in_ranges inputs vs : forall k acc w,
  (forall j, unit_init (init_rnd (inputs j))) ->
  states_in_ranges w ->
  states_in_ranges (fst (process_vehicles L inputs k vs acc w)).
Proof.
  induction vs as [|v vs IH]; intros k [tel al] w Hrnd Hw; [done|].
  cbn [process_vehicles]. unfold bind.
  destruct (insert_ok (inputs k)) eqn:E.
  - rewrite process_vehicle_ok by done. apply IH; [done|].
    by apply (stepped_in_ranges w (inputs k) v).
  - rewrite process_vehicle_fail by done. by apply stepped_in_ranges.
Qed.

Lemma tick_in_ranges inp w :
  (forall j, unit_init (init_rnd (per_vehicle inp j))) ->
  states_in_ranges w ->
  states_in_ranges (fst (tick L inp w)).
Proof.
  intros Hrnd Hw. destruct (find_ok inp) eqn:Hfind.
  - rewrite tick_unfold by done.
    pose proof (process_vehicles_in_ranges (per_vehicle inp) (fetched w) 0 ([], []) w
                  Hrnd Hw) as H.
    by destruct (process_vehicles L (per_vehicle inp) 0 (fetched w) ([], []) w)
      as [w1 [batch|e]].
  - by rewrite tick_find_failure.
Qed.

End Loop.

(** ** The loop of each handler, and the server *)

Lemma turn_ok L websocket inp w w' message :
  tick L inp w = (w', Ok message) ->
  websocket_telemetry_turn L websocket inp w = (w', Looping).
Proof. intros H. unfold websocket_telemetry_turn. by rewrite H. Qed.

Lemma turn_database_error L websocket inp w :
  snd (tick L inp w) = Raise DatabaseError ->
  websocket_telemetry_turn L websocket inp w = (fst (tick L inp w), Failed DatabaseError).
Proof.
  intros H. unfold websocket_telemetry_turn.
  destruct (tick L inp w) as [w' r]. cbn in *. by rewrite H.
Qed.

(** No turn of a handler ends in [except WebSocketDisconnect]: the handler
    never calls [manager.disconnect]. *)
Lemma turn_never_returns L websocket inp w :
  snd (websocket_telemetry_turn L websocket inp w) <> Returned.
Proof.
  unfold websocket_telemetry_turn.
  pose proof (tick_raises L inp w) as H.
  destruct (tick L inp w) as [w' [message|e]]; cbn [snd] in *; [done|].
  rewrite (H e eq_refl). done.
Qed.

Lemma fetched_same w w' : vehicles w' = vehicles w -> fetched w' = fetched w.
Proof. intros H. unfold fetched. by rewrite H. Qed.

(** A second of the server in which every database call goes through:
    every handler takes its turn and stays in its loop. *)
Lemma run_turns_all L inputs hs : forall k w,
  (forall j, all_go_through (inputs j)) ->
  exists w' evs,
    run_turns L inputs k hs w = (w', hs) /\
    vehicles w' = vehicles w /\
    trace w' = trace w ++ evs /\
    broadcast_calls evs = length hs /\
    length (telemetry w') = (length (telemetry w) + length hs * length (fetched w))%nat.
Proof.
  induction hs as [|h hs IH]; intros k w Hall.
  - exists w, []. cbn. rewrite app_nil_r. repeat split; try done; lia.
  - cbn [run_turns]. destruct (Hall k) as [Hfind Hins].
    destruct (tick_ok L (inputs k) w Hfind (fun j _ => Hins j))
      as (w1 & message & Htick & Hids & Htel & Htr & Hv & _).
    rewrite (turn_ok L h (inputs k) w w1 message Htick).
    destruct (IH (S k) w1 Hall) as (w2 & evs & Hrun & Hv2 & Htr2 & Hcalls & Hlen).
    rewrite Hrun. eexists w2, _. split; [reflexivity|]. split; [congruence|].
    split; [rewrite Htr2, Htr, <- app_assoc; reflexivity|]. split.
    + rewrite broadcast_calls_app, Hcalls.
      rewrite broadcast_calls_cons, broadcast_calls_deliveries. cbn. lia.
    + assert (Hl : length (Message.data message) = length (fetched w)).
      { rewrite <- (length_map TelemetryData.vehicle_id (Message.data message)), Hids.
        apply length_map. }
      rewrite Hlen, Htel, length_app, (fetched_same w w1 Hv), Hl. cbn. lia.
Qed.

(** A loop whose database calls go through takes turn after turn, one call
    to [manager.broadcast] in each. *)
Lemma loop_keeps_going L websocket turns : forall w,
  Forall all_go_through turns ->
  exists w' evs,
    websocket_telemetry_loop L websocket turns w = (w', Looping) /\
    trace w' = trace w ++ evs /\
    broadcast_calls evs = length turns.
Proof.
  induction turns as [|inp turns IH]; intros w Hall.
  - exists w, []. cbn. by rewrite app_nil_r.
  - apply Forall_cons in Hall as [[Hfind Hins] Hall].
    destruct (tick_ok L inp w Hfind (fun j _ => Hins j))
      as (w1 & message & Htick & _ & _ & Htr & _).
    cbn [websocket_telemetry_loop].
    rewrite (turn_ok L websocket inp w w1 message Htick).
    destruct (IH w1 Hall) as (w2 & evs & Hrun & Htr2 & Hcalls).
    eexists w2, _. split; [exact Hrun|].
    split; [rewrite Htr2, Htr, <- app_assoc; reflexivity|].
    rewrite broadcast_calls_app, Hcalls.
    rewrite broadcast_calls_cons, broadcast_calls_deliveries. cbn. lia.
Qed.

(** C1, as stated, fails: the loop is the body of the websocket handler.
    With no viewer a second of the server stores no sample and publishes no
    batch although two vehicles are active; with two viewers the batch is
    built and published twice in that second and every vehicle is simulated
    and stored twice. And a started loop does not go on whatever happens: a
    turn whose fetch from the registry fails calls [manager.broadcast] not
    once and is the last turn of its loop. *)
Lemma loops_follow_viewers :
  (telemetry (world (server_period Sample.runtime Sample.quiet_second Sample.no_viewer))
   = [] /\
   broadcast_calls
     (trace (world (server_period Sample.runtime Sample.quiet_second Sample.no_viewer)))
   = 0%nat) /\
  (broadcast_calls
     (trace (world (server_period Sample.runtime Sample.quiet_second Sample.two_viewers)))
   = 2%nat /\
   map TelemetryData.vehicle_id
     (telemetry (world (server_period Sample.runtime Sample.quiet_second
                          Sample.two_viewers)))
   = ["car-1"; "car-2"; "car-1"; "car-2"]%string) /\
  (broadcast_calls
     (trace (fst (tick Sample.runtime Sample.registry_down_turn Sample.watched_fleet)))
   = 0%nat /\
   snd (websocket_telemetry_loop Sample.runtime 1
          [Sample.registry_down_turn; Sample.quiet_turn] Sample.watched_fleet)
   = Failed DatabaseError).
Proof. vm_compute. repeat split. Qed.

(** C1, amended. A turn of a handler's loop whose database calls go through
    stores one sample per fetched vehicle and calls [manager.broadcast]
    exactly once, with the batch of these samples; what it simulates, stores
    and batches does not depend on the registered connections; and a loop
    whose database calls go through takes turn after turn. The server runs
    one such loop per viewer handler: in a second whose database calls go
    through there are as many calls to [manager.broadcast] as handlers and as
    many stored samples per fetched vehicle, and with no handler the server
    does nothing. A turn whose fetch from the registry fails changes nothing
    and ends its loop with the exception. *)
Theorem one_broadcast_per_handler_turn (L : Runtime) :
  (forall inp w,
      find_ok inp = true ->
      (forall j, (j < length (fetched w))%nat -> insert_ok (per_vehicle inp j) = true) ->
      exists w' message,
        tick L inp w = (w', Ok message) /\
        events_since w w' =
          Broadcast message
          :: deliveries L (send_text inp) message (active_connections w) /\
        broadcast_calls (events_since w w') = 1%nat /\
        map TelemetryData.vehicle_id (Message.data message) = map Vehicle.id (fetched w) /\
        telemetry w' = telemetry w ++ Message.data message) /\
  (forall inp w conns,
      snd (tick L inp (set_active_connections conns w)) = snd (tick L inp w) /\
      telemetry (fst (tick L inp (set_active_connections conns w)))
      = telemetry (fst (tick L inp w)) /\
      vehicle_states (fst (tick L inp (set_active_connections conns w)))
      = vehicle_states (fst (tick L inp w))) /\
  (forall websocket turns w,
      Forall all_go_through turns ->
      snd (websocket_telemetry_loop L websocket turns w) = Looping /\
      broadcast_calls
        (events_since w (fst (websocket_telemetry_loop L websocket turns w)))
      = length turns) /\
  (forall inputs s,
      (forall k, all_go_through (inputs k)) ->
      handlers (server_period L inputs s) = handlers s /\
      broadcast_calls (events_since (world s) (world (server_period L inputs s)))
      = length (handlers s) /\
      length (telemetry (world (server_period L inputs s)))
      = (length (telemetry (world s))
         + length (handlers s) * length (fetched (world s)))%nat) /\
  (forall inputs s, handlers s = [] -> server_period L inputs s = s) /\
  (forall websocket inp rest w,
      find_ok inp = false ->
      websocket_telemetry_loop L websocket (inp :: rest) w = (w, Failed DatabaseError)).
Proof.
  repeat apply conj.
  - intros inp w Hfind Hins.
    destruct (tick_ok L inp w Hfind Hins) as (w' & message & Htick & Hids & Htel & Htr & _).
    exists w', message. rewrite (events_since_app w w' _ Htr).
    repeat split; try done.
    by rewrite broadcast_calls_cons, broadcast_calls_deliveries.
  - intros inp w conns.
    destruct (tick_viewers L inp (set_active_connections conns w) w) as [(_ & Ht & Hs) Hr];
      done.
  - intros websocket turns w Hall.
    destruct (loop_keeps_going L websocket turns w Hall) as (w' & evs & Hrun & Htr & Hcalls).
    rewrite Hrun. cbn [fst snd]. by rewrite (events_since_app _ _ _ Htr).
  - intros inputs s Hall. unfold server_period.
    destruct (run_turns_all L inputs (handlers s) 0 (world s) Hall)
      as (w' & evs & Hrun & _ & Htr & Hcalls & Hlen).
    rewrite Hrun. cbn. by rewrite (events_since_app _ _ _ Htr).
  - intros inputs [w hs] Hnone. cbn in Hnone. subst hs. reflexivity.
  - intros websocket inp rest w Hfind. cbn [websocket_telemetry_loop].
    rewrite turn_database_error; by rewrite tick_find_failure.
Qed.

Lemma one_broadcast_per_handler_turn_witness :
  exists w' message,
    tick Sample.runtime Sample.quiet_turn Sample.watched_fleet = (w', Ok message) /\
    events_since Sample.watched_fleet w' =
      Broadcast message
      :: deliveries Sample.runtime (send_text Sample.quiet_turn) message
           (active_connections Sample.watched_fleet) /\
    broadcast_calls (events_since Sample.watched_fleet w') = 1%nat /\
    map TelemetryData.vehicle_id (Message.data message)
    = map Vehicle.id (fetched Sample.watched_fleet) /\
    telemetry w' = telemetry Sample.watched_fleet ++ Message.data message.
Proof.
  apply (proj1 (one_broadcast_per_handler_turn Sample.runtime)).
  - reflexivity.
  - intros j _. reflexivity.
Defined.

(** C4, as stated, fails: when the insert of the first vehicle's sample
    raises, the turn raises, nothing is stored, the second vehicle is not
    simulated, no batch is published and the handler leaves its loop although
    a quiet turn was to follow. *)
Lemma storage_failure_not_swallowed :
  snd (tick Sample.runtime Sample.storage_down_turn Sample.watched_fleet)
  = Raise DatabaseError /\
  trace (fst (tick Sample.runtime Sample.storage_down_turn Sample.watched_fleet)) = [] /\
  vehicle_states (fst (tick Sample.runtime Sample.storage_down_turn Sample.watched_fleet))
    !! "car-2"%string = None /\
  telemetry (fst (tick Sample.runtime Sample.storage_down_turn Sample.watched_fleet)) = [] /\
  snd (websocket_telemetry_loop Sample.runtime 1
         [Sample.storage_down_turn; Sample.quiet_turn] Sample.watched_fleet)
  = Failed DatabaseError.
Proof. vm_compute. repeat split. Qed.

(** C4, amended. When the insert of the [i]-th fetched vehicle's sample is
    the first to raise, the exception leaves the turn: no batch is published,
    the vehicles after the [i]-th are not simulated, the samples stored are
    those of the [i] vehicles before it, and the handler leaves its loop with
    the exception, whatever turns were to follow. *)
Theorem storage_failure_ends_the_loop (L : Runtime) (websocket : WebSocket)
    (inp : TickInput) (rest : list TickInput) (w : World) (i : nat) :
  find_ok inp = true ->
  (i < length (fetched w))%nat ->
  (forall j, (j < i)%nat -> insert_ok (per_vehicle inp j) = true) ->
  insert_ok (per_vehicle inp i) = false ->
  snd (tick L inp w) = Raise DatabaseError /\
  events_since w (fst (tick L inp w)) = [] /\
  (forall vid, vid ∉ map Vehicle.id (take (S i) (fetched w)) ->
     vehicle_states (fst (tick L inp w)) !! vid = vehicle_states w !! vid) /\
  (exists kept,
     telemetry (fst (tick L inp w)) = telemetry w ++ kept /\
     map TelemetryData.vehicle_id kept = map Vehicle.id (take i (fetched w))) /\
  websocket_telemetry_loop L websocket (inp :: rest) w
  = (fst (tick L inp w), Failed DatabaseError).
Proof.
  intros Hfind Hi Hok Hfail.
  destruct (tick_storage_failure L inp w i Hfind Hi Hok Hfail)
    as (Hr & (_ & _ & Htr & Hs & _) & Hkept).
  repeat apply conj; try done.
  - apply events_since_app. by rewrite Htr, app_nil_r.
  - cbn [websocket_telemetry_loop]. by rewrite turn_database_error.
Qed.

Lemma storage_failure_ends_the_loop_witness :
  snd (tick Sample.runtime Sample.storage_down_turn Sample.watched_fleet)
  = Raise DatabaseError /\
  events_since Sample.watched_fleet
    (fst (tick Sample.runtime Sample.storage_down_turn Sample.watched_fleet)) = [] /\
  (forall vid,
     vid ∉ map Vehicle.id (take 1 (fetched Sample.watched_fleet)) ->
     vehicle_states (fst (tick Sample.runtime Sample.storage_down_turn Sample.watched_fleet))
       !! vid = vehicle_states Sample.watched_fleet !! vid) /\
  (exists kept,
     telemetry (fst (tick Sample.runtime Sample.storage_down_turn Sample.watched_fleet))
     = telemetry Sample.watched_fleet ++ kept /\
     map TelemetryData.vehicle_id kept
     = map Vehicle.id (take 0 (fetched Sample.watched_fleet))) /\
  websocket_telemetry_loop Sample.runtime 1 [Sample.storage_down_turn; Sample.quiet_turn]
    Sample.watched_fleet
  = (fst (tick Sample.runtime Sample.storage_down_turn Sample.watched_fleet),
     Failed DatabaseError).
Proof.
  apply (storage_failure_ends_the_loop Sample.runtime 1 Sample.storage_down_turn
           [Sample.quiet_turn] Sample.watched_fleet 0).
  - reflexivity.
  - vm_compute. lia.
  - intros j Hj. lia.
  - reflexivity.
Defined.

(** ** The connection manager *)

Section Deliveries.

Context (L : Runtime) (send : nat -> string -> outcome unit) (message : Message.t).








End Deliveries.





(** [list.remove] on a member drops its first occurrence. *)
Lemma list_remove_in (x : nat) (l : list nat) :
  x ∈ l ->
  exists before after,
    l = before ++ x :: after /\ (x ∉ before) /\ list_remove x l = Some (before ++ after).
Proof.
  induction l as [|y l IH]; intros Hin; [by apply elem_of_nil in Hin|].
  cbn [list_remove]. destruct (Nat.eqb_spec y x) as [->|Hne].
  - exists [], l. repeat split; try done. apply not_elem_of_nil.
  - apply elem_of_cons in Hin as [->|Hin]; [done|].
    destruct (IH Hin) as (before & after & -> & Hb & ->).
    exists (y :: before), after. repeat split; try done.
    intros [E|H]%elem_of_cons; [by subst|done].
Qed.

Lemma list_remove_absent (x : nat) (l : list nat) :
  x ∉ l -> list_remove x l = None.
Proof.
  induction l as [|y l IH]; intros Hnin; [done|].
  cbn [list_remove]. destruct (Nat.eqb_spec y x) as [->|Hne].
  - exfalso. apply Hnin, list_elem_of_here.
  - rewrite IH; [done|]. intros H. by apply Hnin, list_elem_of_further.
Qed.

(** C3, amended. [disconnect] on a registered connection drops its first
    registration and returns (the connection is then absent when it was
    registered once); on a connection that is not registered it raises
    ValueError and leaves the registry as it is. *)
Theorem disconnect_needs_registered (websocket : nat) (w : World) :
  (websocket ∈ active_connections w ->
   exists before after,
     active_connections w = before ++ websocket :: after /\
     (websocket ∉ before) /\
     ConnectionManager.disconnect websocket w
     = (set_active_connections (before ++ after) w, Ok tt) /\
     (NoDup (active_connections w) -> websocket ∉ (before ++ after))) /\
  (websocket ∉ active_connections w ->
   ConnectionManager.disconnect websocket w = (w, Raise ValueError)).
Proof.
  split.
  - intros Hin. destruct (list_remove_in websocket _ Hin) as (before & after & Hl & Hb & Hr).
    exists before, after. repeat split; try done.
    + unfold ConnectionManager.disconnect, bind, get, modify. by rewrite Hr.
    + rewrite Hl. intros Hnd%NoDup_app. destruct Hnd as (_ & _ & Hnd%NoDup_cons).
      intros [H|H]%elem_of_app; [done|]. by destruct Hnd.
  - intros Hnin. unfold ConnectionManager.disconnect, bind, get, raise.
    by rewrite list_remove_absent.
Qed.

Lemma disconnect_needs_registered_witness :
  exists before after,
    active_connections Sample.watched_fleet = before ++ 2%nat :: after /\
    (2%nat ∉ before) /\
    ConnectionManager.disconnect 2 Sample.watched_fleet
    = (set_active_connections (before ++ after) Sample.watched_fleet, Ok tt) /\
    (NoDup (active_connections Sample.watched_fleet) -> 2%nat ∉ (before ++ after)).
Proof.
  apply (proj1 (disconnect_needs_registered 2 Sample.watched_fleet)).
  compute_done.
Defined.

(** C3, as stated, fails: [disconnect] of a connection that was never
    registered raises ValueError, and so does a second [disconnect] of the
    same connection. *)
Lemma disconnect_absent_raises :
  ConnectionManager.disconnect 4 Sample.watched_fleet
  = (Sample.watched_fleet, Raise ValueError) /\
  snd (ConnectionManager.disconnect 2
         (fst (ConnectionManager.disconnect 2 Sample.watched_fleet)))
  = Raise ValueError.
Proof. split; reflexivity. Qed.

(** ** Deleted vehicles *)

(** The loop does not fetch a retired identifier. *)
Lemma retired_not_fetched vid w : retired vid w -> vid ∉ map Vehicle.id (fetched w).
Proof.
  intros [Hdocs _] Hin. apply list_elem_of_fmap in Hin as (v & -> & Hv).
  unfold fetched in Hv. apply elem_of_take in Hv as (i & Hv & _).
  apply list_elem_of_lookup_2 in Hv. apply list_elem_of_filter in Hv as [Hact Hv].
  rewrite (Hdocs v Hv eq_refl) in Hact. discriminate.
Qed.

(** The documents after an update are the old ones, one of them updated. *)
Lemma update_first_docs vehicle_id f docs v' :
  v' ∈ fst (Db.update_first vehicle_id f docs) ->
  v' ∈ docs \/ exists v, v ∈ docs /\ Vehicle.id v = vehicle_id /\ v' = f v.
Proof.
  induction docs as [|v docs IH]; cbn [Db.update_first]; [intros H; by left|].
  destruct (String.eqb_spec (Vehicle.id v) vehicle_id) as [E|E].
  - cbn. intros [->|H]%elem_of_cons.
    + right. exists v. split; [apply list_elem_of_here|done].
    + left. by apply list_elem_of_further.
  - destruct (Db.update_first vehicle_id f docs) as [rest n]. cbn in *.
    intros [->|H]%elem_of_cons; [left; apply list_elem_of_here|].
    destruct (IH H) as [H'|(v0 & H0 & H1 & H2)].
    + left. by apply list_elem_of_further.
    + right. exists v0. split; [by apply list_elem_of_further|done].
Qed.


Lemma delete_vehicle_unfold vehicle_id w :
  delete_vehicle vehicle_id true w =
  if Nat.eqb (snd (Db.update_first vehicle_id set_inactive (vehicles w))) 0
  then (set_vehicles (fst (Db.update_first vehicle_id set_inactive (vehicles w))) w,
        Raise (HTTPException 404))
  else (set_vehicle_states (delete vehicle_id (vehicle_states w))
          (set_vehicles (fst (Db.update_first vehicle_id set_inactive (vehicles w))) w),
        Ok tt).
Proof.
  unfold delete_vehicle. run.
  destruct (Db.update_first vehicle_id set_inactive (vehicles w)) as [docs n].
  cbn [fst snd]. destruct (Nat.eqb n 0); [reflexivity|].
  cbn [vehicle_states set_vehicles].
  destruct (vehicle_states w !! vehicle_id) eqn:E; [reflexivity|].
  unfold set_vehicle_states. cbn. by rewrite delete_id.
Qed.


Lemma update_vehicle_world vehicle_id vehicle_data ok ok_find w :
  fst (update_vehicle vehicle_id vehicle_data ok ok_find w) = w \/
  fst (update_vehicle vehicle_id vehicle_data ok ok_find w)
  = set_vehicles
      (fst (Db.update_first vehicle_id (set_vehicle_dict vehicle_id vehicle_data)
              (vehicles w))) w.
Proof.
  destruct ok; [right|left; reflexivity].
  unfold update_vehicle. run.
  destruct (Db.update_first vehicle_id _ (vehicles w)) as [docs n].
  cbn [fst snd]. destruct (Nat.eqb n 0); [reflexivity|].
  destruct ok_find; [|reflexivity].
  cbn [vehicles set_vehicles].
  by destruct (List.find (fun v => String.eqb (Vehicle.id v) vehicle_id) docs).
Qed.

Lemma delete_vehicle_world vehicle_id ok w :
  fst (delete_vehicle vehicle_id ok w) = w \/
  fst (delete_vehicle vehicle_id ok w)
  = set_vehicles (fst (Db.update_first vehicle_id set_inactive (vehicles w))) w \/
  fst (delete_vehicle vehicle_id ok w)
  = set_vehicle_states (delete vehicle_id (vehicle_states w))
      (set_vehicles (fst (Db.update_first vehicle_id set_inactive (vehicles w))) w).
Proof.
  destruct ok; [|left; reflexivity]. rewrite delete_vehicle_unfold.
  destruct (Nat.eqb _ 0); auto.
Qed.

(** The updates of the routes keep the identifiers of the documents. *)
Lemma update_first_ids vid f docs :
  (forall v, Vehicle.id v = vid -> Vehicle.id (f v) = vid) ->
  map Vehicle.id (fst (Db.update_first vid f docs)) = map Vehicle.id docs.
Proof.
  intros Hf. induction docs as [|d docs IH]; [done|]. cbn [Db.update_first].
  destruct (String.eqb_spec (Vehicle.id d) vid) as [E|E].
  - cbn. by rewrite Hf, E.
  - destruct (Db.update_first vid f docs) as [rest n]. cbn in *. by rewrite IH.
Qed.

(** The identifiers of the registry stay distinct as long as no vehicle is
    created under an identifier in use. *)
Lemma perform_keeps_ids_distinct L a w :
  fresh_ids a w ->
  NoDup (map Vehicle.id (vehicles w)) ->
  NoDup (map Vehicle.id (vehicles (perform L a w))).
Proof.
  intros Hfresh Hnd. destruct a as [inp|vd uuid now ok snow rnd|vid vd ok ok'|vid ok|ws|ws];
    cbn [perform].
  - assert (H : vehicles (fst (tick L inp w)) = vehicles w); [|by rewrite H].
    destruct (find_ok inp) eqn:Hfind; [|by rewrite tick_find_failure].
    rewrite tick_unfold by done.
    pose proof (process_vehicles_touches L (per_vehicle inp) (fetched w) 0 ([], []) w)
      as (Hv & _).
    by destruct (process_vehicles L (per_vehicle inp) 0 (fetched w) ([], []) w)
      as [w1 [batch|e]].
  - destruct ok; [|done]. cbn. rewrite map_app. apply NoDup_app.
    split; [done|]. split; [|apply NoDup_singleton].
    intros x Hx [= ->]%list_elem_of_singleton. by apply Hfresh.
  - destruct (update_vehicle_world vid vd ok ok' w) as [->| ->]; [done|].
    cbn. by rewrite update_first_ids.
  - destruct (delete_vehicle_world vid ok w) as [->|[->| ->]]; [done| |];
      cbn; by rewrite update_first_ids.
  - done.
  - unfold ConnectionManager.disconnect, bind, get.
    by destruct (list_remove ws (active_connections w)).
Qed.

Lemma retired_update vid vehicle_id f w :
  (forall v, Vehicle.id v = vehicle_id -> Vehicle.id (f v) = vehicle_id) ->
  (forall v, Vehicle.is_active (f v) = false \/ Vehicle.is_active (f v) = Vehicle.is_active v) ->
  retired vid w ->
  retired vid (set_vehicles (fst (Db.update_first vehicle_id f (vehicles w))) w).
Proof.
  intros Hid Hact [Hdocs Hst]. split; [|exact Hst]. cbn.
  intros v' [Hv'|(v & Hv & Hvid & ->)]%update_first_docs E; [by apply Hdocs|].
  destruct (Hact v) as [H|H]; [done|]. rewrite H. apply Hdocs; [done|].
  rewrite <- E. rewrite Hid by done. done.
Qed.

Lemma kept_out_same vid w w' :
  retired vid w' -> telemetry w' = telemetry w -> trace w' = trace w ->
  kept_out vid w w'.
Proof.
  intros Hr Ht Htr. split; [done|]. split; [by rewrite Ht|].
  exists []. by rewrite Htr, app_nil_r.
Qed.

(** A step of the process keeps a retired identifier retired and neither
    stores nor batches a sample of it. *)
Lemma perform_keeps_out L a vid w :
  creates_other vid a -> retired vid w -> kept_out vid w (perform L a w).
Proof.
  intros Hfresh Hret. destruct a as [inp|vd uuid now ok snow rnd|vid' vd ok ok'|vid' ok|ws|ws];
    cbn [perform].
  - destruct (tick_leaves_alone L inp w vid (retired_not_fetched vid w Hret))
      as (Hv & _ & Hs & Hsam & evs & Htr & Hb & _).
    split; [|split; [done|by exists evs]].
    destruct Hret as [Hdocs Hst]. split; [by rewrite Hv|by rewrite Hs].
  - destruct ok; [|by apply kept_out_same].
    apply kept_out_same; try done. destruct Hret as [Hdocs Hst]. split.
    + cbn. intros v [Hv|Hv%list_elem_of_singleton]%elem_of_app E; [by apply Hdocs|].
      subst v. cbn in E. cbn in Hfresh. done.
    + cbn. rewrite lookup_insert_ne; [done|]. exact Hfresh.
  - destruct (update_vehicle_world vid' vd ok ok' w) as [->| ->]; [by apply kept_out_same|].
    apply kept_out_same; try done. apply retired_update; try done.
    intros v. by right.
  - destruct (delete_vehicle_world vid' ok w) as [->|[->| ->]];
      [by apply kept_out_same| |].
    + apply kept_out_same; try done. apply retired_update; try done.
      intros v. by left.
    + apply kept_out_same; try done.
      assert (Hr : retired vid (set_vehicles
                (fst (Db.update_first vid' set_inactive (vehicles w))) w)).
      { apply retired_update; try done. intros v. by left. }
      destruct Hr as [Hdocs Hst]. split; [exact Hdocs|]. cbn.
      rewrite lookup_delete. destruct (decide (vid' = vid)); [done|exact Hst].
  - by apply kept_out_same.
  - unfold ConnectionManager.disconnect. run.
    destruct (list_remove ws (active_connections w)); by apply kept_out_same.
Qed.

Lemma perform_all_keeps_out L acts vid : forall w,
  Forall (creates_other vid) acts -> retired vid w ->
  kept_out vid w (perform_all L acts w).
Proof.
  induction acts as [|a acts IH]; intros w Hacts Hret; cbn [perform_all].
  - by apply kept_out_same.
  - apply Forall_cons in Hacts as [Ha Hacts].
    destruct (perform_keeps_out L a vid w Ha Hret) as (Hr1 & Hs1 & evs1 & Ht1 & Hb1).
    destruct (IH (perform L a w) Hacts Hr1) as (Hr2 & Hs2 & evs2 & Ht2 & Hb2).
    split; [done|]. split; [congruence|].
    exists (evs1 ++ evs2). split; [by rewrite Ht2, Ht1, app_assoc|].
    by rewrite broadcast_samples_app, samples_of_app, Hb1, Hb2.
Qed.



Lemma find_active_run ok w :
  Db.find_active 100 ok w
  = if ok then (w, Ok (fetched w)) else (w, Raise DatabaseError).
Proof. unfold Db.find_active. run. by destruct ok. Qed.





(** The parts of a handler that is in no turn do nothing, its fetch apart. *)
Lemma run_parts_idle L websocket (inputs : nat -> VehicleInput) now send flights w :
  forall ks : list nat,
  flights !! websocket = None ->
  run_parts L (map (fun k => Simulate websocket (inputs k)) ks
               ++ [Send websocket now send]) (w, flights)
  = (w, flights).
Proof.
  intros ks Hh. induction ks as [|k ks IH]; cbn [map app run_parts run_part].
  - by rewrite Hh.
  - rewrite Hh. exact IH.
Qed.

(** The parts of a turn after its fetch, run one after the other with
    nothing between them, are the [for] loop and the broadcast. *)
Lemma simulate_parts_alone L websocket inputs now send flights :
  flights !! websocket = None ->
  forall vs k tel al w,
  run_parts L (map (fun k => Simulate websocket (inputs k)) (seq k (length vs))
               ++ [Send websocket now send])
    (w, <[websocket := Flight.mk vs tel al]> flights)
  = match process_vehicles L inputs k vs (tel, al) w with
    | (w1, Ok batch) =>
        (fst (ConnectionManager.broadcast L send
                {| Message.type := "telemetry_update";
                   Message.timestamp := isoformat L now;
                   Message.data := fst batch;
                   Message.alerts := snd batch |} w1), flights)
    | (w1, Raise _) => (w1, flights)
    end.
Proof.
  intros Hh. induction vs as [|v vs IH]; intros k tel al w.
  - cbn [length seq map app run_parts run_part process_vehicles].
    rewrite lookup_insert_eq. unfold ret. cbn [fst snd].
    by rewrite delete_insert_eq, delete_id.
  - cbn [length seq map app run_parts run_part process_vehicles].
    rewrite lookup_insert_eq. unfold bind.
    destruct (process_vehicle L (inputs k) v (tel, al) w) as [w1 [[tel1 al1]|e]].
    + rewrite insert_insert_eq. apply IH.
    + rewrite delete_insert_eq, delete_id by done. by apply run_parts_idle.
Qed.

(** A turn is its parts, run one after the other with nothing between them. *)
Lemma turn_parts_alone L websocket inp w flights :
  flights !! websocket = None ->
  run_parts L (turn_parts websocket inp (length (fetched w))) (w, flights)
  = (fst (tick L inp w), flights).
Proof.
  intros Hh. unfold turn_parts. cbn [run_parts run_part]. rewrite Hh, find_active_run.
  destruct (find_ok inp) eqn:Hfind.
  - rewrite simulate_parts_alone by done. rewrite tick_unfold by done.
    destruct (process_vehicles L (per_vehicle inp) 0 (fetched w) ([], []) w)
      as [w1 [batch|e]]; [|done].
    by rewrite broadcast_run.
  - rewrite tick_find_failure by done. by apply run_parts_idle.
Qed.




(** ** The cap on the fetch *)

(** Turns of the loop leave alone a vehicle the first of them does not fetch. *)
Lemma ticks_leave_alone L turns vid : forall w,
  vid ∉ map Vehicle.id (fetched w) ->
  vehicles (perform_all L (map Tick turns) w) = vehicles w /\
  vehicle_states (perform_all L (map Tick turns) w) !! vid = vehicle_states w !! vid /\
  samples_of vid (telemetry (perform_all L (map Tick turns) w))
  = samples_of vid (telemetry w) /\
  exists evs, trace (perform_all L (map Tick turns) w) = trace w ++ evs /\
              samples_of vid (broadcast_samples evs) = [].
Proof.
  induction turns as [|inp turns IH]; intros w Hvid; cbn [map perform_all perform].
  - repeat split; try done. exists []. by rewrite app_nil_r.
  - destruct (tick_leaves_alone L inp w vid Hvid)
      as (Hv & _ & Hs & Hsam & evs & Htr & Hb & _).
    destruct (IH (fst (tick L inp w))) as (Hv2 & Hs2 & Hsam2 & evs2 & Htr2 & Hb2).
    { by rewrite (fetched_same w _ Hv). }
    repeat split; try congruence.
    exists (evs ++ evs2). split; [by rewrite Htr2, Htr, app_assoc|].
    by rewrite broadcast_samples_app, samples_of_app, Hb, Hb2.
Qed.

Lemma fetched_length w : (length (fetched w) <= 100)%nat.
Proof. unfold fetched. rewrite length_take. lia. Qed.

Lemma NoDup_ids_filter (P : Vehicle.t -> Prop) `{!forall v, Decision (P v)}
    (l : list Vehicle.t) :
  NoDup (map Vehicle.id l) -> NoDup (map Vehicle.id (filter P l)).
Proof.
  induction l as [|v l IH]; [done|]. cbn [map]. intros [Hv Hnd]%NoDup_cons.
  rewrite filter_cons. destruct (decide (P v)); [|by apply IH].
  cbn [map]. apply NoDup_cons. split; [|by apply IH].
  intros (v' & E & Hv')%list_elem_of_fmap. apply Hv.
  apply list_elem_of_fmap. exists v'. split; [done|].
  by apply list_elem_of_filter in Hv' as [_ ?].
Qed.

(** With distinct identifiers, an active vehicle beyond the first 100 is
    not fetched. *)
Lemma excess_vehicle w v :
  NoDup (map Vehicle.id (vehicles w)) ->
  v ∈ drop 100 (filter (fun v => Vehicle.is_active v = true) (vehicles w)) ->
  v ∈ vehicles w /\ Vehicle.is_active v = true /\
  Vehicle.id v ∉ map Vehicle.id (fetched w).
Proof.
  intros Hnd Hv. unfold fetched.
  set (active := filter (fun v => Vehicle.is_active v = true) (vehicles w)) in *.
  assert (Hnd' : NoDup (map Vehicle.id active)) by by apply NoDup_ids_filter.
  rewrite <- (take_drop 100 active) in Hnd'. rewrite fmap_app in Hnd'.
  apply NoDup_app in Hnd' as (_ & Hdisj & _).
  assert (Hin : v ∈ active).
  { rewrite <- (take_drop 100 active). apply elem_of_app. by right. }
  apply list_elem_of_filter in Hin as [Hact Hin].
  repeat split; try done.
  intros Hid. apply (Hdisj _ Hid). apply list_elem_of_fmap. eauto.
Qed.

(** C10. The batch of a turn holds the samples of the first 100 active
    vehicles of the registry, hence at most 100 samples; [get_vehicles]
    lists the same 100 at most; the active vehicles beyond the first 100
    number the excess over 100, and (their identifiers being distinct) for
    each of them no number of turns changes its state entry, stores a sample
    or puts one in a batch. *)
Theorem fetch_capped_at_100 (L : Runtime) :
  (forall inp w w' message,
      tick L inp w = (w', Ok message) ->
      (length (Message.data message) <= 100)%nat /\
      map TelemetryData.vehicle_id (Message.data message)
      = map Vehicle.id
          (take 100 (filter (fun v => Vehicle.is_active v = true) (vehicles w)))) /\
  (forall ok w w' listed,
      get_vehicles ok w = (w', Ok listed) ->
      (length listed <= 100)%nat /\
      listed = take 100 (filter (fun v => Vehicle.is_active v = true) (vehicles w))) /\
  (forall w,
      length (drop 100 (filter (fun v => Vehicle.is_active v = true) (vehicles w)))
      = (length (filter (fun v => Vehicle.is_active v = true) (vehicles w)) - 100)%nat) /\
  (forall w v turns,
      NoDup (map Vehicle.id (vehicles w)) ->
      v ∈ drop 100 (filter (fun v => Vehicle.is_active v = true) (vehicles w)) ->
      (v ∈ vehicles w /\ Vehicle.is_active v = true) /\
      vehicle_states (perform_all L (map Tick turns) w) !! Vehicle.id v
      = vehicle_states w !! Vehicle.id v /\
      samples_of (Vehicle.id v) (telemetry (perform_all L (map Tick turns) w))
      = samples_of (Vehicle.id v) (telemetry w) /\
      samples_of (Vehicle.id v)
        (broadcast_samples (events_since w (perform_all L (map Tick turns) w)))
      = []).
Proof.
  repeat apply conj.
  - intros inp w w' message Htick.
    assert (Hids : map TelemetryData.vehicle_id (Message.data message)
                   = map Vehicle.id (fetched w)).
    { destruct (find_ok inp) eqn:Hfind;
        [|rewrite tick_find_failure in Htick by done; discriminate].
      rewrite tick_unfold in Htick by done.
      destruct (process_vehicles L (per_vehicle inp) 0 (fetched w) ([], []) w)
        as [w1 [[tel al]|e]] eqn:Hrun; [|discriminate].
      apply process_vehicles_result in Hrun as (samples & -> & Hids).
      injection Htick as _ <-. exact Hids. }
    split; [|exact Hids].
    rewrite <- (length_map TelemetryData.vehicle_id (Message.data message)), Hids.
    rewrite length_map. apply fetched_length.
  - intros ok w w' listed Hget. unfold get_vehicles in Hget. destruct ok.
    + injection Hget as _ <-. split; [apply fetched_length|reflexivity].
    + discriminate.
  - intros w. apply length_drop.
  - intros w v turns Hnd Hv.
    destruct (excess_vehicle w v Hnd Hv) as (Hin & Hact & Hout).
    destruct (ticks_leave_alone L turns (Vehicle.id v) w Hout)
      as (_ & Hs & Hsam & evs & Htr & Hb).
    repeat split; try done. by rewrite (events_since_app w _ evs).
Qed.

Lemma fetch_capped_at_100_witness :
  (Sample.car "100" true ∈ vehicles Sample.big_fleet /\
   Vehicle.is_active (Sample.car "100" true) = true) /\
  vehicle_states
    (perform_all Sample.runtime (map Tick [Sample.quiet_turn; Sample.quiet_turn])
       Sample.big_fleet) !! "100"%string
  = vehicle_states Sample.big_fleet !! "100"%string /\
  samples_of "100"
    (telemetry
       (perform_all Sample.runtime (map Tick [Sample.quiet_turn; Sample.quiet_turn])
          Sample.big_fleet))
  = samples_of "100" (telemetry Sample.big_fleet) /\
  samples_of "100"
    (broadcast_samples
       (events_since Sample.big_fleet
          (perform_all Sample.runtime (map Tick [Sample.quiet_turn; Sample.quiet_turn])
             Sample.big_fleet)))
  = [].
Proof.
  apply (proj2 (proj2 (proj2 (fetch_capped_at_100 Sample.runtime)))
           Sample.big_fleet (Sample.car "100" true)).
  - compute_done.
  - vm_compute. apply list_elem_of_here.
Defined.

(** * Further properties

    What the code shows about the simulator, the alert evaluator, the loop,
    the routes and the connection manager besides what the specification
    states. *)

Lemma unit_sim_draws :
  unit_draw (u_speed Sample.sim_draws) /\ unit_draw (u_rpm Sample.sim_draws).
Proof. unfold unit_draw. cbn. lra. Qed.

Lemma unit_init_draws : unit_init Sample.init_draws.
Proof. unfold unit_init, unit_draw. cbn. lra. Qed.

(** ** The simulator, field by field *)


Lemma min_le_min hi x y : x <= y -> Py.min hi x <= Py.min hi y.
Proof.
  intros H. destruct (min_cases hi x) as [[? ->]|[? ->]];
    destruct (min_cases hi y) as [[? ->]|[? ->]]; lra.
Qed.


Lemma unit_uniform a b u : a <= b -> unit_draw u -> a <= Py.uniform a b u /\ Py.uniform a b u <= b.
Proof.
  intros Hab [H0 H1]. unfold Py.uniform.
  assert (0 <= (b - a) * u) by (apply Qmult_le_0_compat; lra).
  assert (0 <= (b - a) * (1 - u)) by (apply Qmult_le_0_compat; lra).
  split; lra.
Qed.



Lemma simulate_speed_range L state current_time rnd :
  0 <= State.speed (simulate_state L state current_time rnd) /\
  State.speed (simulate_state L state current_time rnd) <= 140.
Proof. unfold simulate_state. cbn [State.speed]. apply clamp_range. lra. Qed.

Lemma simulate_rpm_eq L state current_time rnd :
  State.engine_rpm (simulate_state L state current_time rnd)
  = rpm_of_speed (State.speed (simulate_state L state current_time rnd)) (u_rpm rnd).
Proof. reflexivity. Qed.

Lemma simulate_rpm_le_5100 L state current_time rnd :
  unit_draw (u_rpm rnd) ->
  State.engine_rpm (simulate_state L state current_time rnd) <= 5100.
Proof.
  intros Hu. rewrite simulate_rpm_eq.
  destruct (simulate_speed_range L state current_time rnd) as [Hs1 Hs2].
  set (s := State.speed (simulate_state L state current_time rnd)) in *.
  unfold rpm_of_speed.
  destruct (unit_uniform (-200) 200 (u_rpm rnd)) as [Hk1 Hk2]; [lra|done|].
  set (k := Py.uniform (-200) 200 (u_rpm rnd)) in *.
  destruct (min_cases 6500 (s * 35 + k)) as [[? ->]|[? ->]];
    [destruct (max_cases 800 (s * 35 + k)) as [[? ->]|[? ->]]
    |destruct (max_cases 800 6500) as [[? ->]|[? ->]]]; lra.
Qed.







(** ** Rounding *)

Lemma scale_pos n : 0 < scale n.
Proof.
  unfold scale. change 0 with (inject_Z 0). rewrite <- Zlt_Qlt.
  apply Z.pow_pos_nonneg; lia.
Qed.

Lemma round_near x n :
  x - (1 # 2) / scale n <= Py.round x n /\ Py.round x n <= x + (1 # 2) / scale n.
Proof.
  unfold Py.round. fold (scale n). pose proof (scale_pos n) as Hs.
  destruct (round_half_even_near (x * scale n)) as [H1 H2].
  set (z := inject_Z (Py.round_half_even (x * scale n))) in *.
  assert (Hx : x == (x * scale n) / scale n) by (field; lra).
  split.
  - apply Qle_shift_div_l; [done|].
    assert ((x - (1 # 2) / scale n) * scale n == x * scale n - (1 # 2)) by (field; lra).
    lra.
  - apply Qle_shift_div_r; [done|].
    assert ((x + (1 # 2) / scale n) * scale n == x * scale n + (1 # 2)) by (field; lra).
    lra.
Qed.

Lemma round_le x n (k : Z) :
  x <= inject_Z k / scale n -> Py.round x n <= inject_Z k / scale n.
Proof.
  intros H. unfold Py.round. fold (scale n). pose proof (scale_pos n) as Hs.
  assert (Hk : x * scale n <= inject_Z k).
  { assert (inject_Z k == inject_Z k / scale n * scale n) by (field; lra).
    assert (0 <= (inject_Z k / scale n - x) * scale n) by (apply Qmult_le_0_compat; lra).
    lra. }
  apply round_half_even_le in Hk. rewrite Zle_Qle in Hk.
  apply Qle_shift_div_r; [done|].
  assert (inject_Z k / scale n * scale n == inject_Z k) by (field; lra). lra.
Qed.

Lemma round_ge x n (k : Z) :
  inject_Z k / scale n <= x -> inject_Z k / scale n <= Py.round x n.
Proof.
  intros H. unfold Py.round. fold (scale n). pose proof (scale_pos n) as Hs.
  assert (Hk : inject_Z k <= x * scale n).
  { assert (inject_Z k == inject_Z k / scale n * scale n) by (field; lra).
    assert (0 <= (x - inject_Z k / scale n) * scale n) by (apply Qmult_le_0_compat; lra).
    lra. }
  apply round_half_even_ge in Hk. rewrite Zle_Qle in Hk.
  apply Qle_shift_div_l; [done|].
  assert (inject_Z k / scale n * scale n == inject_Z k) by (field; lra). lra.
Qed.

(** The sample built from a state carries the vehicle and the time of the
    step, and each of its values is the state's value up to one unit of its
    last digit: 0.1 for speed, fuel and temperature, 1 for the RPM and
    0.000001 for the coordinates. (The decimal that [round] aims at is within
    half a unit; the float it returns is the double nearest to that decimal,
    which is no further from it than the value that was rounded.) *)
Theorem sample_within_one_digit (vehicle_id : string) (state : State.t)
    (current_time : datetime) (uuid : string) :
  let t := telemetry_of_state vehicle_id state current_time uuid in
  (State.speed state - 0.1 <= TelemetryData.speed t /\
   TelemetryData.speed t <= State.speed state + 0.1) /\
  (State.engine_rpm state - 1 <= TelemetryData.engine_rpm t /\
   TelemetryData.engine_rpm t <= State.engine_rpm state + 1) /\
  (State.fuel_level state - 0.1 <= TelemetryData.fuel_level t /\
   TelemetryData.fuel_level t <= State.fuel_level state + 0.1) /\
  (State.engine_temperature state - 0.1 <= TelemetryData.engine_temperature t /\
   TelemetryData.engine_temperature t <= State.engine_temperature state + 0.1) /\
  (State.latitude state - 0.000001 <= TelemetryData.latitude t /\
   TelemetryData.latitude t <= State.latitude state + 0.000001) /\
  (State.longitude state - 0.000001 <= TelemetryData.longitude t /\
   TelemetryData.longitude t <= State.longitude state + 0.000001) /\
  TelemetryData.vehicle_id t = vehicle_id /\
  TelemetryData.timestamp t = current_time.
Proof.
  cbn zeta. unfold telemetry_of_state.
  cbn [TelemetryData.speed TelemetryData.engine_rpm TelemetryData.fuel_level
       TelemetryData.engine_temperature TelemetryData.latitude TelemetryData.longitude
       TelemetryData.vehicle_id TelemetryData.timestamp].
  pose proof (round_near (State.speed state) 1) as H1.
  pose proof (round_near (State.engine_rpm state) 0) as H2.
  pose proof (round_near (State.fuel_level state) 1) as H3.
  pose proof (round_near (State.engine_temperature state) 1) as H4.
  pose proof (round_near (State.latitude state) 6) as H5.
  pose proof (round_near (State.longitude state) 6) as H6.
  change (scale 1) with 10 in *. change (scale 0) with 1 in *.
  change (scale 6) with 1000000 in *.
  assert (E1 : (1 # 2) / 10 == 0.05) by reflexivity.
  assert (E0 : (1 # 2) / 1 == 0.5) by reflexivity.
  assert (E6 : (1 # 2) / 1000000 == 0.0000005) by reflexivity.
  rewrite E1 in H1, H3, H4. rewrite E0 in H2. rewrite E6 in H5, H6.
  repeat split; try reflexivity; lra.
Qed.

Lemma sample_ranges (L : Runtime) (vehicle_id : string) (state : State.t)
    (current_time : datetime) (rnd : SimDraws) (uuid : string) :
  let t := snd (simulate_realistic_telemetry L vehicle_id state current_time rnd uuid) in
  (0 <= TelemetryData.speed t /\ TelemetryData.speed t <= 140) /\
  (800 <= TelemetryData.engine_rpm t /\ TelemetryData.engine_rpm t <= 6500) /\
  0 <= TelemetryData.fuel_level t /\
  (70 <= TelemetryData.engine_temperature t /\ TelemetryData.engine_temperature t <= 120) /\
  (unit_draw (u_rpm rnd) -> TelemetryData.engine_rpm t <= 5100).
Proof.
  cbn zeta. cbn [simulate_realistic_telemetry snd]. unfold telemetry_of_state.
  cbn [TelemetryData.speed TelemetryData.engine_rpm TelemetryData.fuel_level
       TelemetryData.engine_temperature].
  set (s' := simulate_state L state current_time rnd).
  assert (Hs : 0 <= State.speed s' /\ State.speed s' <= 140)
    by apply simulate_speed_range.
  assert (Hr : 800 <= State.engine_rpm s' /\ State.engine_rpm s' <= 6500).
  { unfold s', simulate_state. cbn [State.engine_rpm]. apply clamp_range. lra. }
  assert (Hf : 0 <= State.fuel_level s').
  { unfold s', simulate_state. cbn [State.fuel_level]. apply max_lower. }
  assert (Ht : 70 <= State.engine_temperature s' /\ State.engine_temperature s' <= 120).
  { unfold s', simulate_state. cbn [State.engine_temperature]. apply clamp_range. lra. }
  pose proof (round_ge (State.speed s') 1 0) as A1.
  pose proof (round_le (State.speed s') 1 1400) as A2.
  pose proof (round_ge (State.engine_rpm s') 0 800) as B1.
  pose proof (round_le (State.engine_rpm s') 0 6500) as B2.
  pose proof (round_le (State.engine_rpm s') 0 5100) as B3.
  pose proof (round_ge (State.fuel_level s') 1 0) as C1.
  pose proof (round_ge (State.engine_temperature s') 1 700) as D1.
  pose proof (round_le (State.engine_temperature s') 1 1200) as D2.
  change (inject_Z 0 / scale 1) with (0 / 10) in *.
  change (inject_Z 1400 / scale 1) with (1400 / 10) in *.
  change (inject_Z 800 / scale 0) with (800 / 1) in *.
  change (inject_Z 6500 / scale 0) with (6500 / 1) in *.
  change (inject_Z 5100 / scale 0) with (5100 / 1) in *.
  change (inject_Z 700 / scale 1) with (700 / 10) in *.
  change (inject_Z 1200 / scale 1) with (1200 / 10) in *.
  assert (E1 : 0 / 10 == 0) by reflexivity.
  assert (E2 : 1400 / 10 == 140) by reflexivity.
  assert (E3 : 800 / 1 == 800) by reflexivity.
  assert (E4 : 6500 / 1 == 6500) by reflexivity.
  assert (E5 : 5100 / 1 == 5100) by reflexivity.
  assert (E6 : 700 / 10 == 70) by reflexivity.
  assert (E7 : 1200 / 10 == 120) by reflexivity.
  rewrite E1 in A1, C1. rewrite E2 in A2. rewrite E3 in B1. rewrite E4 in B2.
  rewrite E5 in B3. rewrite E6 in D1. rewrite E7 in D2.
  repeat split.
  - apply A1. lra.
  - apply A2. lra.
  - apply B1. lra.
  - apply B2. lra.
  - apply C1. lra.
  - apply D1. lra.
  - apply D2. lra.
  - intros Hu. apply B3.
    pose proof (simulate_rpm_le_5100 L state current_time rnd Hu) as H.
    fold s' in H. lra.
Qed.

(** ** Alerts *)

Lemma rule_alert_inv L vid metric value max min a :
  rule_alert L vid metric value max min = Some a ->
  TelemetryAlert.vehicle_id a = vid /\ TelemetryAlert.metric a = metric /\
  TelemetryAlert.value a = value /\
  ((max < value /\ TelemetryAlert.threshold a = max /\
    TelemetryAlert.message a = alert_message L metric "high" value /\
    (TelemetryAlert.severity a = "high"%string <-> max * 1.2 < value)) \/
   (value <= max /\ value < min /\ TelemetryAlert.threshold a = min /\
    TelemetryAlert.message a = alert_message L metric "low" value /\
    (TelemetryAlert.severity a = "high"%string <-> value < min * 0.8))).
Proof.
  unfold rule_alert. destruct (Py.ltb max value) eqn:E1.
  - intros [= <-]. cbn. apply ltb_lt in E1. repeat split; try done. left.
    repeat split; try done.
    + destruct (Py.ltb (max * 1.2) value) eqn:E; [intros _; by apply ltb_lt|discriminate].
    + intros H%ltb_lt. by rewrite H.
  - destruct (Py.ltb value min) eqn:E2; [|discriminate].
    intros [= <-]. cbn. apply ltb_ge in E1. apply ltb_lt in E2.
    repeat split; try done. right. repeat split; try done.
    + destruct (Py.ltb value (min * 0.8)) eqn:E; [intros _; by apply ltb_lt|discriminate].
    + intros H%ltb_lt. by rewrite H.
Qed.

Lemma rule_alert_none L vid metric value max min :
  rule_alert L vid metric value max min = None <-> min <= value /\ value <= max.
Proof.
  unfold rule_alert. destruct (Py.ltb max value) eqn:E1.
  - apply ltb_lt in E1. split; [discriminate|lra].
  - apply ltb_ge in E1. destruct (Py.ltb value min) eqn:E2.
    + apply ltb_lt in E2. split; [discriminate|lra].
    + apply ltb_ge in E2. split; [done|done].
Qed.

Lemma rule_alerts_elem L t a :
  a ∈ rule_alerts L t ->
  exists metric th value,
    (metric, th) ∈ TELEMETRY_THRESHOLDS /\ getattr t metric = Some value /\
    rule_alert L (TelemetryData.vehicle_id t) metric value
      (Thresholds.max th) (Thresholds.min th) = Some a.
Proof.
  unfold rule_alerts. intros Hin.
  rewrite !elem_of_app in Hin. destruct Hin as [Hin|[Hin|[Hin|Hin]]].
  all: destruct (rule_alert _ _ _ _ _ _) eqn:E in Hin; cbn in Hin;
    [apply list_elem_of_singleton in Hin; subst|by apply elem_of_nil in Hin].
  - exists "speed"%string, (Thresholds.mk 120 0), (TelemetryData.speed t).
    split; [|done]. apply list_elem_of_here.
  - exists "engine_rpm"%string, (Thresholds.mk 6000 800), (TelemetryData.engine_rpm t).
    split; [|done]. do 1 apply list_elem_of_further. apply list_elem_of_here.
  - exists "fuel_level"%string, (Thresholds.mk 100 10), (TelemetryData.fuel_level t).
    split; [|done]. do 2 apply list_elem_of_further. apply list_elem_of_here.
  - exists "engine_temperature"%string, (Thresholds.mk 100 80),
      (TelemetryData.engine_temperature t).
    split; [|done]. do 3 apply list_elem_of_further. apply list_elem_of_here.
Qed.

(** Every alert of a sample is about a monitored metric, carries the
    sample's vehicle and the sample's value of that metric, and that value
    breaches the bound the alert gives as its threshold: above the maximum
    with a message that says high, or below the minimum with a message that
    says low. *)
Theorem alert_names_its_breach (L : Runtime) (t : TelemetryData.t)
    (alerts : list TelemetryAlert.t) (a : TelemetryAlert.t) :
  check_telemetry_alerts L t = Ok alerts ->
  a ∈ alerts ->
  exists th,
    (TelemetryAlert.metric a, th) ∈ TELEMETRY_THRESHOLDS /\
    getattr t (TelemetryAlert.metric a) = Some (TelemetryAlert.value a) /\
    TelemetryAlert.vehicle_id a = TelemetryData.vehicle_id t /\
    ((Thresholds.max th < TelemetryAlert.value a /\
      TelemetryAlert.threshold a = Thresholds.max th /\
      TelemetryAlert.message a
      = alert_message L (TelemetryAlert.metric a) "high" (TelemetryAlert.value a)) \/
     (TelemetryAlert.value a < Thresholds.min th /\
      TelemetryAlert.threshold a = Thresholds.min th /\
      TelemetryAlert.message a
      = alert_message L (TelemetryAlert.metric a) "low" (TelemetryAlert.value a))).
Proof.
  rewrite check_telemetry_alerts_rule. intros [= <-] Hin.
  apply rule_alerts_elem in Hin as (metric & th & value & Hth & Hget & Hrule).
  apply rule_alert_inv in Hrule as (Hvid & Hm & Hv & Hcase).
  exists th. rewrite Hm, Hv. repeat split; try done.
  destruct Hcase as [(H1 & H2 & H3 & _)|(_ & H1 & H2 & H3 & _)]; [left|right]; repeat split; done.
Qed.

Lemma alert_names_its_breach_witness :
  exists th,
    (TelemetryAlert.metric Sample.speed_alert, th) ∈ TELEMETRY_THRESHOLDS /\
    getattr Sample.speeding (TelemetryAlert.metric Sample.speed_alert)
    = Some (TelemetryAlert.value Sample.speed_alert) /\
    TelemetryAlert.vehicle_id Sample.speed_alert
    = TelemetryData.vehicle_id Sample.speeding /\
    ((Thresholds.max th < TelemetryAlert.value Sample.speed_alert /\
      TelemetryAlert.threshold Sample.speed_alert = Thresholds.max th /\
      TelemetryAlert.message Sample.speed_alert
      = alert_message Sample.runtime (TelemetryAlert.metric Sample.speed_alert) "high"
          (TelemetryAlert.value Sample.speed_alert)) \/
     (TelemetryAlert.value Sample.speed_alert < Thresholds.min th /\
      TelemetryAlert.threshold Sample.speed_alert = Thresholds.min th /\
      TelemetryAlert.message Sample.speed_alert
      = alert_message Sample.runtime (TelemetryAlert.metric Sample.speed_alert) "low"
          (TelemetryAlert.value Sample.speed_alert))).
Proof.
  apply (alert_names_its_breach Sample.runtime Sample.speeding [Sample.speed_alert]).
  - vm_compute. reflexivity.
  - apply list_elem_of_here.
Defined.

Lemma within_thresholds_no_alert (L : Runtime) (t : TelemetryData.t) :
  (0 <= TelemetryData.speed t /\ TelemetryData.speed t <= 120) /\
  (800 <= TelemetryData.engine_rpm t /\ TelemetryData.engine_rpm t <= 6000) /\
  (10 <= TelemetryData.fuel_level t /\ TelemetryData.fuel_level t <= 100) /\
  (80 <= TelemetryData.engine_temperature t /\
   TelemetryData.engine_temperature t <= 100) ->
  check_telemetry_alerts L t = Ok [].
Proof.
  intros (H1 & H2 & H3 & H4).
  rewrite check_telemetry_alerts_rule. unfold rule_alerts.
  apply (rule_alert_none L (TelemetryData.vehicle_id t) "speed") in H1.
  apply (rule_alert_none L (TelemetryData.vehicle_id t) "engine_rpm") in H2.
  apply (rule_alert_none L (TelemetryData.vehicle_id t) "fuel_level") in H3.
  apply (rule_alert_none L (TelemetryData.vehicle_id t) "engine_temperature") in H4.
  rewrite H1, H2, H3, H4. reflexivity.
Qed.

(** A sample raises no alert exactly when its four monitored metrics lie
    within their thresholds, bounds included: a value equal to a bound is
    not reported. *)
Theorem no_alert_iff_within_thresholds (L : Runtime) (t : TelemetryData.t) :
  check_telemetry_alerts L t = Ok [] <->
  (0 <= TelemetryData.speed t /\ TelemetryData.speed t <= 120) /\
  (800 <= TelemetryData.engine_rpm t /\ TelemetryData.engine_rpm t <= 6000) /\
  (10 <= TelemetryData.fuel_level t /\ TelemetryData.fuel_level t <= 100) /\
  (80 <= TelemetryData.engine_temperature t /\
   TelemetryData.engine_temperature t <= 100).
Proof.
  rewrite check_telemetry_alerts_rule. unfold rule_alerts.
  set (vid := TelemetryData.vehicle_id t).
  split.
  - intros [= H].
    destruct (rule_alert L vid "speed" _ _ _) eqn:E1; [discriminate|].
    destruct (rule_alert L vid "engine_rpm" _ _ _) eqn:E2; [discriminate|].
    destruct (rule_alert L vid "fuel_level" _ _ _) eqn:E3; [discriminate|].
    destruct (rule_alert L vid "engine_temperature" _ _ _) eqn:E4; [discriminate|].
    apply rule_alert_none in E1, E2, E3, E4. done.
  - intros (H1 & H2 & H3 & H4).
    apply (rule_alert_none L vid "speed") in H1.
    apply (rule_alert_none L vid "engine_rpm") in H2.
    apply (rule_alert_none L vid "fuel_level") in H3.
    apply (rule_alert_none L vid "engine_temperature") in H4.
    rewrite H1, H2, H3, H4. reflexivity.
Qed.

Lemma no_alert_iff_within_thresholds_witness :
  check_telemetry_alerts Sample.runtime Case.calm = Ok [].
Proof.
  apply no_alert_iff_within_thresholds. cbn. lra.
Defined.

Lemma rule_alerts_in_ranges (L : Runtime) (t : TelemetryData.t)
    (a : TelemetryAlert.t) :
  0 <= TelemetryData.speed t /\ TelemetryData.speed t <= 140 ->
  800 <= TelemetryData.engine_rpm t /\ TelemetryData.engine_rpm t <= 6000 ->
  70 <= TelemetryData.engine_temperature t /\
  TelemetryData.engine_temperature t <= 120 ->
  a ∈ rule_alerts L t ->
  TelemetryAlert.metric a <> "engine_rpm"%string /\
  (TelemetryAlert.metric a = "speed"%string ->
   TelemetryAlert.threshold a = 120 /\ TelemetryAlert.severity a = "medium"%string) /\
  (TelemetryAlert.metric a = "engine_temperature"%string ->
   TelemetryAlert.severity a = "medium"%string) /\
  (TelemetryAlert.severity a = "high"%string ->
   TelemetryAlert.metric a = "fuel_level"%string).
Proof.
  intros Hs Hr Ht Hin.
  apply rule_alerts_elem in Hin as (metric & th & value & Hth & Hget & Hrule).
  pose proof Hrule as Hmh%rule_alert_severity.
  apply rule_alert_inv in Hrule as (_ & Hm & _ & Hcase).
  unfold TELEMETRY_THRESHOLDS in Hth.
  repeat (apply elem_of_cons in Hth as [[= -> ->]|Hth]);
    [| | | |by apply elem_of_nil in Hth];
    cbn in Hget; injection Hget as <-; cbn [Thresholds.max Thresholds.min] in Hcase;
    rewrite Hm.
  - assert (Hmed : TelemetryAlert.severity a = "medium"%string).
    { destruct Hcase as [(_ & _ & _ & Hh)|(_ & Hlo & _)]; [|lra].
      destruct Hmh as [Hmh|Hmh]; [done|]. apply Hh in Hmh. lra. }
    repeat split; try done.
    + destruct Hcase as [(_ & Hth & _)|(_ & Hlo & _)]; [done|lra].
    + rewrite Hmed. discriminate.
  - exfalso. destruct Hcase as [(Hhi & _)|(_ & Hlo & _)]; lra.
  - repeat split; try done.
  - assert (Hmed : TelemetryAlert.severity a = "medium"%string).
    { destruct Hmh as [Hmh|Hmh]; [done|].
      destruct Hcase as [(_ & _ & _ & Hh)|(_ & _ & _ & _ & Hh)];
        apply Hh in Hmh; lra. }
    repeat split; try done. rewrite Hmed. discriminate.
Qed.

(** The alerts of a sample that the simulator built: there is never an RPM
    alert (the RPM stays below 5100), a speed alert is always for the
    maximum and of medium severity, a temperature alert is of medium
    severity, and only a fuel alert can be of high severity. *)
Theorem simulator_alerts (L : Runtime) (vehicle_id : string) (state : State.t)
    (current_time : datetime) (rnd : SimDraws) (uuid : string)
    (alerts : list TelemetryAlert.t) (a : TelemetryAlert.t) :
  unit_draw (u_rpm rnd) ->
  check_telemetry_alerts L
    (snd (simulate_realistic_telemetry L vehicle_id state current_time rnd uuid))
  = Ok alerts ->
  a ∈ alerts ->
  TelemetryAlert.metric a <> "engine_rpm"%string /\
  (TelemetryAlert.metric a = "speed"%string ->
   TelemetryAlert.threshold a = 120 /\ TelemetryAlert.severity a = "medium"%string) /\
  (TelemetryAlert.metric a = "engine_temperature"%string ->
   TelemetryAlert.severity a = "medium"%string) /\
  (TelemetryAlert.severity a = "high"%string ->
   TelemetryAlert.metric a = "fuel_level"%string).
Proof.
  intros Hu. rewrite check_telemetry_alerts_rule. intros [= <-].
  pose proof (sample_ranges L vehicle_id state current_time rnd uuid) as H.
  cbv zeta in H. destruct H as (Hs & Hr & Hf & Ht & Hr').
  specialize (Hr' Hu).
  apply rule_alerts_in_ranges; [exact Hs| |exact Ht].
  split; [apply Hr|]. eapply Qle_trans; [exact Hr'|]. lra.
Qed.

Lemma simulator_alerts_witness :
  TelemetryAlert.metric Case.fuel_alert <> "engine_rpm"%string /\
  (TelemetryAlert.metric Case.fuel_alert = "speed"%string ->
   TelemetryAlert.threshold Case.fuel_alert = 120 /\
   TelemetryAlert.severity Case.fuel_alert = "medium"%string) /\
  (TelemetryAlert.metric Case.fuel_alert = "engine_temperature"%string ->
   TelemetryAlert.severity Case.fuel_alert = "medium"%string) /\
  (TelemetryAlert.severity Case.fuel_alert = "high"%string ->
   TelemetryAlert.metric Case.fuel_alert = "fuel_level"%string).
Proof.
  apply (simulator_alerts Sample.runtime "car-1" Case.low_fuel 1001 Sample.sim_draws
           "sample" Case.low_fuel_alerts).
  - apply unit_sim_draws.
  - vm_compute. reflexivity.
  - vm_compute. apply list_elem_of_here.
Defined.

(** ** Fresh states and positions *)

(** A freshly initialised state: speed in [60, 80], RPM in [1500, 2500],
    fuel in [50, 100], temperature in [85, 95], heading in [0, 360], each
    with both ends included (the upper ends are reached in floats), a
    position within 0.1001 degree of the base coordinates, and the clock of
    the initialisation as its time. *)
Theorem initial_state_ranges (vehicle_id : string) (now : datetime) (rnd : InitDraws) :
  unit_init rnd ->
  let state := initialize_vehicle_state vehicle_id now rnd in
  (60 <= State.speed state /\ State.speed state <= 80) /\
  (1500 <= State.engine_rpm state /\ State.engine_rpm state <= 2500) /\
  (50 <= State.fuel_level state /\ State.fuel_level state <= 100) /\
  (85 <= State.engine_temperature state /\ State.engine_temperature state <= 95) /\
  (37.6748 <= State.latitude state /\ State.latitude state <= 37.875) /\
  (-122.5195 <= State.longitude state /\ State.longitude state <= -122.3193) /\
  (0 <= State.direction state /\ State.direction state <= 360) /\
  State.last_update state = now.
Proof.
  unfold unit_init, unit_draw. intros Hu.
  unfold initialize_vehicle_state, Py.uniform. cbn.
  repeat split; lra.
Qed.

Lemma initial_state_ranges_witness :
  let state := initialize_vehicle_state "car-1" 1000 Sample.init_draws in
  (60 <= State.speed state /\ State.speed state <= 80) /\
  (1500 <= State.engine_rpm state /\ State.engine_rpm state <= 2500) /\
  (50 <= State.fuel_level state /\ State.fuel_level state <= 100) /\
  (85 <= State.engine_temperature state /\ State.engine_temperature state <= 95) /\
  (37.6748 <= State.latitude state /\ State.latitude state <= 37.875) /\
  (-122.5195 <= State.longitude state /\ State.longitude state <= -122.3193) /\
  (0 <= State.direction state /\ State.direction state <= 360) /\
  State.last_update state = 1000.
Proof. apply initial_state_ranges. apply unit_init_draws. Defined.




(** A clamped value stays between bounds that meet the clamp range. *)
Lemma clamp_between lo hi x a b :
  a <= x -> x <= b -> a <= hi -> lo <= b ->
  a <= Py.max lo (Py.min hi x) /\ Py.max lo (Py.min hi x) <= b.
Proof.
  intros H1 H2 H3 H4.
  destruct (min_cases hi x) as [[? ->]|[? ->]];
    [destruct (max_cases lo x) as [[? ->]|[? ->]]
    |destruct (max_cases lo hi) as [[? ->]|[? ->]]]; lra.
Qed.

(** The state one step after an initialisation at most a second earlier. *)
Lemma first_step_ranges L vehicle_id init_now init_rnd sim_now rnd :
  unit_init init_rnd ->
  unit_draw (u_speed rnd) -> unit_draw (u_rpm rnd) ->
  0 <= sim_now - init_now -> sim_now - init_now <= 1 ->
  let state' :=
    simulate_state L (initialize_vehicle_state vehicle_id init_now init_rnd) sim_now rnd in
  (55 <= State.speed state' /\ State.speed state' <= 85) /\
  (800 <= State.engine_rpm state' /\ State.engine_rpm state' <= 3175) /\
  (49 <= State.fuel_level state' /\ State.fuel_level state' <= 100) /\
  (83 <= State.engine_temperature state' /\ State.engine_temperature state' <= 98).
Proof.
  intros Hi Hus Hur Hdt0 Hdt1. cbn zeta.
  set (s0 := initialize_vehicle_state vehicle_id init_now init_rnd).
  assert (H0 : (60 <= State.speed s0 /\ State.speed s0 <= 80) /\
               (50 <= State.fuel_level s0 /\ State.fuel_level s0 <= 100) /\
               (85 <= State.engine_temperature s0 /\ State.engine_temperature s0 <= 95)).
  { unfold unit_init, unit_draw in Hi. unfold s0, initialize_vehicle_state, Py.uniform.
    cbn. repeat split; lra. }
  destruct H0 as (Hs0 & Hf0 & Ht0).
  assert (Hlast : State.last_update s0 = init_now) by reflexivity.
  set (s' := simulate_state L s0 sim_now rnd).
  assert (Es : State.speed s'
          = Py.max 0 (Py.min 140 (State.speed s0
              + Py.uniform (-5) 5 (u_speed rnd) * (sim_now - init_now)))) by reflexivity.
  assert (Er : State.engine_rpm s'
          = Py.max 800 (Py.min 6500 (State.speed s' * 35
              + Py.uniform (-200) 200 (u_rpm rnd)))) by reflexivity.
  assert (Ef : State.fuel_level s'
          = Py.max 0 (State.fuel_level s0
              - (State.speed s' * 0.001 + State.engine_rpm s' * 0.0001)
                * (sim_now - init_now))) by reflexivity.
  assert (Et : State.engine_temperature s'
          = Py.max 70 (Py.min 120 (State.engine_temperature s0
              + (90 + (State.engine_rpm s' - 2000) * 0.005 - State.engine_temperature s0)
                * 0.1 * (sim_now - init_now)))) by reflexivity.
  set (dt := sim_now - init_now) in *.
  destruct (unit_uniform (-5) 5 (u_speed rnd)) as [Hk1 Hk2]; [lra|done|].
  destruct (unit_uniform (-200) 200 (u_rpm rnd)) as [Hj1 Hj2]; [lra|done|].
  set (k := Py.uniform (-5) 5 (u_speed rnd)) in *.
  set (j := Py.uniform (-200) 200 (u_rpm rnd)) in *.
  assert (P1 : 0 <= (5 - k) * dt) by (apply Qmult_le_0_compat; lra).
  assert (P2 : 0 <= (k + 5) * dt) by (apply Qmult_le_0_compat; lra).
  assert (Hs : 55 <= State.speed s' /\ State.speed s' <= 85).
  { rewrite Es. apply clamp_between; lra. }
  assert (Hr : 800 <= State.engine_rpm s' /\ State.engine_rpm s' <= 3175).
  { rewrite Er. apply clamp_between; lra. }
  set (rate := State.speed s' * 0.001 + State.engine_rpm s' * 0.0001) in *.
  assert (Hrate : 0 <= rate /\ rate <= 1) by (unfold rate; split; lra).
  assert (P3 : 0 <= rate * dt) by (apply Qmult_le_0_compat; lra).
  assert (P4 : 0 <= (1 - rate) * dt) by (apply Qmult_le_0_compat; lra).
  assert (Hf : 49 <= State.fuel_level s' /\ State.fuel_level s' <= 100).
  { rewrite Ef. destruct (max_cases 0 (State.fuel_level s0 - rate * dt))
      as [[? ->]|[? ->]]; split; lra. }
  set (gap := 90 + (State.engine_rpm s' - 2000) * 0.005 - State.engine_temperature s0)
    in *.
  assert (Hgap : -11 <= gap /\ gap <= 11) by (unfold gap; split; lra).
  assert (P5 : 0 <= (gap + 11) * dt) by (apply Qmult_le_0_compat; lra).
  assert (P6 : 0 <= (11 - gap) * dt) by (apply Qmult_le_0_compat; lra).
  assert (Ht : 83 <= State.engine_temperature s' /\ State.engine_temperature s' <= 98).
  { rewrite Et. apply clamp_between; lra. }
  done.
Qed.

(** The loop body on a vehicle that has no state yet, simulated at most one
    second after its state is initialised: the sample it stores and batches
    raises no alert, so the alerts gathered so far are unchanged. *)
Theorem first_sample_raises_no_alert (L : Runtime) (vi : VehicleInput)
    (vehicle_data : Vehicle.t) (all_telemetry : list TelemetryData.t)
    (all_alerts : list TelemetryAlert.t) (w : World) :
  vehicle_states w !! Vehicle.id vehicle_data = None ->
  unit_init (init_rnd vi) ->
  unit_draw (u_speed (sim_rnd vi)) -> unit_draw (u_rpm (sim_rnd vi)) ->
  0 <= sim_now vi - init_now vi -> sim_now vi - init_now vi <= 1 ->
  insert_ok vi = true ->
  exists telemetry,
    snd (process_vehicle L vi vehicle_data (all_telemetry, all_alerts) w)
    = Ok (all_telemetry ++ [telemetry], all_alerts) /\
    check_telemetry_alerts L telemetry = Ok [].
Proof.
  intros Hnone Hi Hus Hur Hdt0 Hdt1 Hok.
  rewrite process_vehicle_ok by done. cbn [snd].
  exists (snd (step_for L w vi vehicle_data)).
  assert (Hno : check_telemetry_alerts L (snd (step_for L w vi vehicle_data)) = Ok []).
  { apply within_thresholds_no_alert.
    unfold step_for, state_for. rewrite Hnone.
    unfold simulate_realistic_telemetry. cbn [snd]. unfold telemetry_of_state.
    cbn [TelemetryData.speed TelemetryData.engine_rpm TelemetryData.fuel_level
         TelemetryData.engine_temperature].
    pose proof (first_step_ranges L (Vehicle.id vehicle_data) (init_now vi) (init_rnd vi)
                  (sim_now vi) (sim_rnd vi) Hi Hus Hur Hdt0 Hdt1) as H.
    cbv zeta in H. destruct H as (Hs & Hr & Hf & Ht).
    set (state := simulate_state L _ _ _) in *.
    pose proof (round_ge (State.speed state) 1 0) as A1.
    pose proof (round_le (State.speed state) 1 1200) as A2.
    pose proof (round_ge (State.engine_rpm state) 0 800) as A3.
    pose proof (round_le (State.engine_rpm state) 0 6000) as A4.
    pose proof (round_ge (State.fuel_level state) 1 100) as A5.
    pose proof (round_le (State.fuel_level state) 1 1000) as A6.
    pose proof (round_ge (State.engine_temperature state) 1 800) as A7.
    pose proof (round_le (State.engine_temperature state) 1 1000) as A8.
    change (inject_Z 0 / scale 1) with (0 / 10) in *.
    change (inject_Z 1200 / scale 1) with (1200 / 10) in *.
    change (inject_Z 800 / scale 0) with (800 / 1) in *.
    change (inject_Z 6000 / scale 0) with (6000 / 1) in *.
    change (inject_Z 100 / scale 1) with (100 / 10) in *.
    change (inject_Z 1000 / scale 1) with (1000 / 10) in *.
    change (inject_Z 800 / scale 1) with (800 / 10) in *.
    assert (E1 : 0 / 10 == 0) by reflexivity.
    assert (E2 : 1200 / 10 == 120) by reflexivity.
    assert (E3 : 800 / 1 == 800) by reflexivity.
    assert (E4 : 6000 / 1 == 6000) by reflexivity.
    assert (E5 : 100 / 10 == 10) by reflexivity.
    assert (E6 : 1000 / 10 == 100) by reflexivity.
    assert (E7 : 800 / 10 == 80) by reflexivity.
    rewrite E1 in A1. rewrite E2 in A2. rewrite E3 in A3. rewrite E4 in A4.
    rewrite E5 in A5. rewrite E6 in A6, A8. rewrite E7 in A7.
    repeat split;
      [apply A1|apply A2|apply A3|apply A4|apply A5|apply A6|apply A7|apply A8]; lra. }
  split; [|done].
  assert (Hnil : rule_alerts L (snd (step_for L w vi vehicle_data)) = []).
  { pose proof (check_telemetry_alerts_rule L (snd (step_for L w vi vehicle_data))).
    congruence. }
  by rewrite Hnil, app_nil_r.
Qed.

Lemma first_sample_raises_no_alert_witness :
  exists telemetry,
    snd (process_vehicle Sample.runtime (Sample.vehicle_input true)
           (Sample.car "car-1" true) ([], []) Sample.fleet)
    = Ok ([] ++ [telemetry], []) /\
    check_telemetry_alerts Sample.runtime telemetry = Ok [].
Proof.
  apply first_sample_raises_no_alert.
  - reflexivity.
  - apply unit_init_draws.
  - apply unit_sim_draws.
  - apply unit_sim_draws.
  - cbn. lra.
  - cbn. lra.
  - reflexivity.
Defined.

(** ** Batches and handlers *)

Lemma process_vehicles_batch L inputs vs : forall k tel al w w' tel' al',
  process_vehicles L inputs k vs (tel, al) w = (w', Ok (tel', al')) ->
  exists samples per_sample,
    tel' = tel ++ samples /\
    al' = al ++ concat per_sample /\
    Forall2 (fun t l => check_telemetry_alerts L t = Ok l) samples per_sample /\
    telemetry w' = telemetry w ++ samples.
Proof.
  induction vs as [|v vs IH]; intros k tel al w w' tel' al' Hrun.
  - cbn in Hrun. injection Hrun as <- <- <-. exists [], [].
    cbn. rewrite !app_nil_r. repeat split. constructor.
  - cbn [process_vehicles] in Hrun. unfold bind in Hrun.
    destruct (insert_ok (inputs k)) eqn:E.
    + rewrite process_vehicle_ok in Hrun by done.
      apply IH in Hrun as (samples & per & -> & -> & Hall & Htel).
      exists (snd (step_for L w (inputs k) v) :: samples),
             (rule_alerts L (snd (step_for L w (inputs k) v)) :: per).
      rewrite <- !app_assoc. repeat split; try done.
      * constructor; [apply check_telemetry_alerts_rule|done].
      * rewrite Htel. cbn. by rewrite <- app_assoc.
    + rewrite process_vehicle_fail in Hrun by done. discriminate.
Qed.

(** What a turn keeps whatever its outcome. *)
Lemma tick_appends L inp w :
  vehicles (fst (tick L inp w)) = vehicles w /\
  active_connections (fst (tick L inp w)) = active_connections w /\
  (exists new, telemetry (fst (tick L inp w)) = telemetry w ++ new) /\
  (exists evs, trace (fst (tick L inp w)) = trace w ++ evs).
Proof.
  destruct (find_ok inp) eqn:Hfind.
  - rewrite tick_unfold by done.
    pose proof (process_vehicles_touches L (per_vehicle inp) (fetched w) 0 ([], []) w)
      as (Hv & Hc & Htr & _ & new & Hnew & _).
    destruct (process_vehicles L (per_vehicle inp) 0 (fetched w) ([], []) w)
      as [w1 [batch|e]]; cbn [fst] in *.
    + cbn. rewrite Htr. repeat split; try done; eauto.
    + repeat split; try done; eauto. exists []. by rewrite app_nil_r.
  - rewrite tick_find_failure by done. cbn. repeat split.
    + exists []. by rewrite app_nil_r.
    + exists []. by rewrite app_nil_r.
Qed.

Lemma turn_world L websocket inp w :
  fst (websocket_telemetry_turn L websocket inp w) = fst (tick L inp w).
Proof.
  unfold websocket_telemetry_turn.
  pose proof (tick_raises L inp w) as H.
  destruct (tick L inp w) as [w' [message|e]]; cbn [snd fst] in *; [done|].
  by rewrite (H e eq_refl).
Qed.

Lemma loop_registry L websocket turns : forall w,
  snd (websocket_telemetry_loop L websocket turns w) <> Returned /\
  active_connections (fst (websocket_telemetry_loop L websocket turns w))
  = active_connections w /\
  vehicles (fst (websocket_telemetry_loop L websocket turns w)) = vehicles w.
Proof.
  induction turns as [|inp rest IH]; intros w; cbn [websocket_telemetry_loop].
  - done.
  - pose proof (turn_never_returns L websocket inp w) as Hn.
    pose proof (turn_world L websocket inp w) as Hw.
    pose proof (tick_appends L inp w) as (Hv & Hc & _).
    destruct (websocket_telemetry_turn L websocket inp w) as [w' st].
    cbn [fst snd] in *. subst w'.
    destruct st; cbn [fst snd]; try done.
    destruct (IH (fst (tick L inp w))) as (H1 & H2 & H3).
    rewrite H2, H3. done.
Qed.

(** A turn that returns has built the message it returns: its type is
    telemetry_update, its time is the clock read after the loop, its alerts
    are those of its samples, sample after sample, its samples are exactly
    what the turn appended to the stored telemetry, and every alert is about
    a vehicle with a sample in the same batch. *)
Theorem batch_carries_its_alerts (L : Runtime) (inp : TickInput) (w w' : World)
    (message : Message.t) :
  tick L inp w = (w', Ok message) ->
  Message.type message = "telemetry_update"%string /\
  Message.timestamp message = isoformat L (message_now inp) /\
  (exists per_sample,
     Forall2 (fun t l => check_telemetry_alerts L t = Ok l)
       (Message.data message) per_sample /\
     Message.alerts message = concat per_sample) /\
  telemetry w' = telemetry w ++ Message.data message /\
  (forall a, a ∈ Message.alerts message ->
     TelemetryAlert.vehicle_id a ∈ map TelemetryData.vehicle_id (Message.data message)).
Proof.
  intros Hrun.
  destruct (find_ok inp) eqn:Hfind;
    [|rewrite tick_find_failure in Hrun by done; discriminate].
  rewrite tick_unfold in Hrun by done.
  destruct (process_vehicles L (per_vehicle inp) 0 (fetched w) ([], []) w)
    as [w1 [[tel al]|e]] eqn:Hpv; [|discriminate].
  apply process_vehicles_batch in Hpv as (samples & per & -> & -> & Hall & Htel).
  injection Hrun as <- <-. cbn.
  repeat split; try done.
  - by exists per.
  - intros a Hin. apply list_elem_of_In, in_concat in Hin as (l & Hl & Ha).
    apply list_elem_of_In in Hl, Ha.
    apply (list_elem_of_lookup_1 per) in Hl as (i & Hi).
    destruct (Forall2_lookup_r _ _ _ _ _ Hall Hi) as (t & Ht & Hcheck).
    rewrite check_telemetry_alerts_rule in Hcheck. injection Hcheck as <-.
    apply rule_alerts_elem in Ha as (m & th & value & _ & _ & Hrule).
    apply rule_alert_inv in Hrule as (-> & _).
    apply list_elem_of_fmap. exists t. split; [done|].
    by eapply list_elem_of_lookup_2.
Qed.

Lemma batch_carries_its_alerts_witness :
  Message.type Sample.quiet_batch = "telemetry_update"%string /\
  Message.timestamp Sample.quiet_batch
  = isoformat Sample.runtime (message_now Sample.quiet_turn) /\
  (exists per_sample,
     Forall2 (fun t l => check_telemetry_alerts Sample.runtime t = Ok l)
       (Message.data Sample.quiet_batch) per_sample /\
     Message.alerts Sample.quiet_batch = concat per_sample) /\
  telemetry Sample.toured_fleet
  = telemetry Sample.watched_fleet ++ Message.data Sample.quiet_batch /\
  (forall a, a ∈ Message.alerts Sample.quiet_batch ->
     TelemetryAlert.vehicle_id a
     ∈ map TelemetryData.vehicle_id (Message.data Sample.quiet_batch)).
Proof.
  apply (batch_carries_its_alerts Sample.runtime Sample.quiet_turn Sample.watched_fleet).
  vm_compute. reflexivity.
Defined.

(** With no active vehicle a turn whose fetch goes through stores and
    simulates nothing and still publishes: it broadcasts a message with an
    empty batch and no alert to every registered connection. *)
Theorem empty_registry_still_broadcasts (L : Runtime) (inp : TickInput) (w : World) :
  find_ok inp = true ->
  (forall v, v ∈ vehicles w -> Vehicle.is_active v = false) ->
  exists message,
    tick L inp w
    = (emit (Broadcast message
             :: deliveries L (send_text inp) message (active_connections w)) w,
       Ok message) /\
    Message.data message = [] /\ Message.alerts message = [].
Proof.
  intros Hfind Hnone. rewrite tick_unfold by done.
  assert (Hf : fetched w = []).
  { unfold fetched.
    assert (E : filter (fun v => Vehicle.is_active v = true) (vehicles w) = []);
      [|by rewrite E].
    induction (vehicles w) as [|v l IH]; [done|].
    rewrite filter_cons_False.
    - apply IH. intros v' Hv'. apply Hnone. by apply list_elem_of_further.
    - rewrite (Hnone v); [discriminate|apply list_elem_of_here]. }
  rewrite Hf. cbn. eexists. repeat split.
Qed.

Lemma empty_registry_still_broadcasts_witness :
  exists message,
    tick Sample.runtime Sample.quiet_turn Case.parked
    = (emit (Broadcast message
             :: deliveries Sample.runtime (send_text Sample.quiet_turn) message
                  (active_connections Case.parked)) Case.parked,
       Ok message) /\
    Message.data message = [] /\ Message.alerts message = [].
Proof.
  apply empty_registry_still_broadcasts.
  - reflexivity.
  - intros v Hv. apply list_elem_of_singleton in Hv. by subst.
Defined.

(** A handler never reaches its except clause: no turn raises
    WebSocketDisconnect, because broadcast swallows the failures of the
    sends, so whatever the turns do the handler has not returned and the
    websocket it registered is still registered. *)
Theorem handler_never_deregisters (L : Runtime) (websocket : WebSocket)
    (turns : list TickInput) (w : World) :
  snd (websocket_telemetry L websocket turns w) <> Returned /\
  active_connections (fst (websocket_telemetry L websocket turns w))
  = active_connections w ++ [websocket] /\
  (forall inp, snd (tick L inp w) <> Raise WebSocketDisconnect).
Proof.
  unfold websocket_telemetry. cbn [ConnectionManager.connect modify].
  unfold ConnectionManager.connect, modify.
  destruct (loop_registry L websocket turns
              (set_active_connections (active_connections w ++ [websocket]) w))
    as (H1 & H2 & _).
  repeat split; try done.
  intros inp H. apply tick_raises in H. discriminate.
Qed.

(** ** What the steps of the process keep *)

Lemma prefix_refl' {A} (l : list A) : l `prefix_of` l.
Proof. exists []. by rewrite app_nil_r. Qed.

(** What a step keeps: documents, samples and events are only added. *)
Lemma perform_appends L a w :
  map Vehicle.id (vehicles w) `prefix_of` map Vehicle.id (vehicles (perform L a w)) /\
  telemetry w `prefix_of` telemetry (perform L a w) /\
  trace w `prefix_of` trace (perform L a w).
Proof.
  destruct a as [inp|vd uuid now ok snow rnd|vid vd ok ok'|vid ok|ws|ws]; cbn [perform].
  - destruct (tick_appends L inp w) as (Hv & _ & Ht & He).
    rewrite Hv. split; [apply prefix_refl'|]. split; assumption.
  - destruct ok; cbn.
    + split; [|split; apply prefix_refl']. rewrite map_app. by eexists.
    + repeat split; apply prefix_refl'.
  - destruct (update_vehicle_world vid vd ok ok' w) as [->| ->];
      [repeat split; apply prefix_refl'|].
    cbn. rewrite update_first_ids by done. repeat split; apply prefix_refl'.
  - destruct (delete_vehicle_world vid ok w) as [->|[->| ->]];
      [repeat split; apply prefix_refl'| |];
      cbn; rewrite update_first_ids by done; repeat split; apply prefix_refl'.
  - cbn. repeat split; apply prefix_refl'.
  - unfold ConnectionManager.disconnect, bind, get.
    destruct (list_remove ws (active_connections w)); cbn;
      repeat split; apply prefix_refl'.
Qed.

(** Along any sequence of turns, route calls and connection calls, the
    registry keeps its documents and their order (deletion only marks a
    document), and the stored telemetry and the events only grow at the
    end. *)
Theorem nothing_is_ever_removed (L : Runtime) (acts : list action) (w : World) :
  map Vehicle.id (vehicles w)
    `prefix_of` map Vehicle.id (vehicles (perform_all L acts w)) /\
  telemetry w `prefix_of` telemetry (perform_all L acts w) /\
  trace w `prefix_of` trace (perform_all L acts w).
Proof.
  revert w. induction acts as [|a rest IH]; intros w; cbn [perform_all].
  - repeat split; apply prefix_refl'.
  - destruct (perform_appends L a w) as (H1 & H2 & H3).
    destruct (IH (perform L a w)) as (H4 & H5 & H6).
    repeat split; etrans; eassumption.
Qed.

Lemma perform_in_ranges L a w :
  well_drawn a -> states_in_ranges w -> states_in_ranges (perform L a w).
Proof.
  intros Hd Hw.
  destruct a as [inp|vd uuid now ok snow rnd|vid vd ok ok'|vid ok|ws|ws]; cbn [perform].
  - by apply tick_in_ranges.
  - destruct ok; cbn; [|done]. intros vid state.
    cbn [vehicle_states set_vehicle_states set_vehicles].
    destruct (decide (uuid = vid)) as [->|Hne].
    + rewrite lookup_insert_eq. intros [= <-]. by apply initialize_in_clamp_ranges.
    + rewrite lookup_insert_ne by done. apply Hw.
  - destruct (update_vehicle_world vid vd ok ok' w) as [->| ->]; done.
  - destruct (delete_vehicle_world vid ok w) as [->|[->| ->]]; [done|done|].
    intros vid' state. cbn [vehicle_states set_vehicle_states set_vehicles].
    destruct (decide (vid = vid')) as [->|Hne].
    + by rewrite lookup_delete_eq.
    + rewrite lookup_delete_ne by done. apply Hw.
  - done.
  - unfold ConnectionManager.disconnect, bind, get.
    by destruct (list_remove ws (active_connections w)).
Qed.

(** Every state the process holds stays in the clamp ranges along any
    sequence of steps whose initialisations draw values of random():
    turns, registrations, updates, deletions and connection calls. *)
Theorem states_stay_in_ranges (L : Runtime) (acts : list action) (w : World) :
  Forall well_drawn acts ->
  states_in_ranges w ->
  states_in_ranges (perform_all L acts w).
Proof.
  intros Hd. revert w. induction Hd as [|a rest Ha _ IH]; intros w Hw; [done|].
  cbn [perform_all]. apply IH. by apply perform_in_ranges.
Qed.

Lemma states_stay_in_ranges_witness :
  states_in_ranges (perform_all Sample.runtime Case.busy_day Sample.fleet).
Proof.
  apply states_stay_in_ranges.
  - unfold Case.busy_day.
    constructor; [intros j; apply unit_init_draws|].
    constructor; [apply unit_init_draws|].
    constructor; [exact I|].
    constructor; [intros j; apply unit_init_draws|]. constructor.
  - intros vid state H. cbn in H. by rewrite lookup_empty in H.
Defined.

(** The identifiers of the registry stay distinct along any sequence of
    steps in which each registration uses an identifier that is not in use:
    no route renames a document or copies one. *)
Theorem ids_stay_distinct (L : Runtime) (acts : list action) (w : World) :
  fresh_run L acts w ->
  NoDup (map Vehicle.id (vehicles w)) ->
  NoDup (map Vehicle.id (vehicles (perform_all L acts w))).
Proof.
  revert w. induction acts as [|a rest IH]; intros w Hf Hnd; [done|].
  destruct Hf as [Ha Hrest]. cbn [perform_all].
  apply IH; [done|]. by apply perform_keeps_ids_distinct.
Qed.

Lemma ids_stay_distinct_witness :
  NoDup (map Vehicle.id
           (vehicles (perform_all Sample.runtime Case.busy_day Sample.fleet))).
Proof.
  apply ids_stay_distinct.
  - cbn [fresh_run fresh_ids Case.busy_day]. repeat split. compute_done.
  - compute_done.
Defined.

Lemma list_remove_middle (x : nat) (before after : list nat) :
  x ∉ before -> list_remove x (before ++ x :: after) = Some (before ++ after).
Proof.
  induction before as [|y l IH]; intros Hx; cbn.
  - by rewrite Nat.eqb_refl.
  - apply not_elem_of_cons in Hx as [Hne Hx].
    destruct (Nat.eqb_spec y x) as [->|_]; [done|]. by rewrite IH.
Qed.

Lemma set_active_connections_same w :
  set_active_connections (active_connections w) w = w.
Proof. by destruct w. Qed.

(** Registering a connection and removing it again restores the registry
    when the connection was not registered before; when it was, the earlier
    registration is the one removed and the connection stays registered, at
    the end. *)
Theorem connect_then_disconnect (websocket : nat) (w : World) :
  (websocket ∉ active_connections w ->
   ConnectionManager.disconnect websocket
     (fst (ConnectionManager.connect websocket w))
   = (w, Ok tt)) /\
  (forall before after,
     active_connections w = before ++ websocket :: after ->
     websocket ∉ before ->
     ConnectionManager.disconnect websocket
       (fst (ConnectionManager.connect websocket w))
     = (set_active_connections (before ++ after ++ [websocket]) w, Ok tt)).
Proof.
  split.
  - intros Hx. unfold ConnectionManager.disconnect, ConnectionManager.connect.
    unfold bind, get, modify. cbn.
    rewrite list_remove_middle by done. rewrite app_nil_r. cbn.
    by destruct w.
  - intros before after Hc Hx.
    unfold ConnectionManager.disconnect, ConnectionManager.connect.
    unfold bind, get, modify. cbn. rewrite Hc.
    rewrite <- app_assoc. cbn. rewrite list_remove_middle by done. reflexivity.
Qed.

Lemma connect_then_disconnect_witness :
  ConnectionManager.disconnect 4
    (fst (ConnectionManager.connect 4 Sample.watched_fleet))
  = (Sample.watched_fleet, Ok tt).
Proof.
  apply (proj1 (connect_then_disconnect 4 Sample.watched_fleet)).
  compute_done.
Defined.

(** ** The vehicle routes *)

Lemma set_vehicles_same w : set_vehicles (vehicles w) w = w.
Proof. by destruct w. Qed.

Lemma document_none vid w :
  document vid w = None <-> vid ∉ map Vehicle.id (vehicles w).
Proof.
  unfold document. induction (vehicles w) as [|v l IH]; cbn.
  - split; [intros _; apply not_elem_of_nil|done].
  - destruct (String.eqb_spec (Vehicle.id v) vid) as [E|E].
    + split; [discriminate|]. intros H. exfalso. apply H. rewrite E.
      apply list_elem_of_here.
    + rewrite IH. rewrite not_elem_of_cons.
      split; [intros H; split; [congruence|done]|by intros [_ H]].
Qed.

Lemma document_some vid w v :
  document vid w = Some v -> v ∈ vehicles w /\ Vehicle.id v = vid.
Proof.
  unfold document. intros H. apply find_some in H as [Hin Heq].
  split; [by apply list_elem_of_In|]. by apply String.eqb_eq in Heq.
Qed.

(** [update_one] on the first document with the identifier. *)
Lemma update_first_found vid f docs v :
  List.find (fun v => String.eqb (Vehicle.id v) vid) docs = Some v ->
  Vehicle.id (f v) = vid ->
  snd (Db.update_first vid f docs) = 1%nat /\
  List.find (fun v => String.eqb (Vehicle.id v) vid) (fst (Db.update_first vid f docs))
  = Some (f v) /\
  length (fst (Db.update_first vid f docs)) = length docs.
Proof.
  intros Hfind Hid. induction docs as [|d l IH]; [discriminate|].
  cbn in Hfind |- *. destruct (String.eqb (Vehicle.id d) vid) eqn:E.
  - injection Hfind as ->. cbn. rewrite Hid, String.eqb_refl. done.
  - destruct (IH Hfind) as (H1 & H2 & H3).
    destruct (Db.update_first vid f l) as [rest n]. cbn in *.
    rewrite E. auto.
Qed.

Lemma update_first_missing vid f docs :
  List.find (fun v => String.eqb (Vehicle.id v) vid) docs = None ->
  Db.update_first vid f docs = (docs, 0%nat).
Proof.
  induction docs as [|d l IH]; [done|]. cbn.
  destruct (String.eqb (Vehicle.id d) vid); [discriminate|].
  intros H. by rewrite (IH H).
Qed.

(** The documents of other vehicles are not touched. *)
Lemma update_first_other vid vid' f docs :
  vid' <> vid ->
  (forall v, Vehicle.id v = vid -> Vehicle.id (f v) = vid) ->
  List.find (fun v => String.eqb (Vehicle.id v) vid') (fst (Db.update_first vid f docs))
  = List.find (fun v => String.eqb (Vehicle.id v) vid') docs.
Proof.
  intros Hne Hf. induction docs as [|d l IH]; [done|]. cbn.
  destruct (String.eqb_spec (Vehicle.id d) vid) as [E|E].
  - cbn. rewrite (Hf d E), E.
    destruct (String.eqb_spec vid vid') as [->|_]; done.
  - destruct (Db.update_first vid f l) as [rest n]. cbn in *.
    destruct (String.eqb (Vehicle.id d) vid'); done.
Qed.

Lemma update_first_twice vid f docs :
  (forall v, Vehicle.id (f v) = Vehicle.id v) ->
  (forall v, f (f v) = f v) ->
  fst (Db.update_first vid f (fst (Db.update_first vid f docs)))
  = fst (Db.update_first vid f docs).
Proof.
  intros Hid Hff. induction docs as [|d l IH]; [done|]. cbn.
  destruct (String.eqb (Vehicle.id d) vid) eqn:E.
  - cbn. by rewrite Hid, E, Hff.
  - destruct (Db.update_first vid f l) as [rest n] eqn:El. cbn in *.
    rewrite E. destruct (Db.update_first vid f rest) as [rest' n']. cbn in *.
    by rewrite IH.
Qed.

(** The single-vehicle route answers 404 exactly when no document carries
    the identifier, and otherwise returns a document of the registry with
    that identifier, active or not, without changing anything; with
    distinct identifiers it is the document of the vehicle. *)
Theorem get_vehicle_finds_any_document (vehicle_id : string) (w : World) :
  get_vehicle vehicle_id false w = (w, Raise DatabaseError) /\
  (get_vehicle vehicle_id true w = (w, Raise (HTTPException 404)) <->
   vehicle_id ∉ map Vehicle.id (vehicles w)) /\
  (forall v, Vehicle.id v = vehicle_id -> v ∈ vehicles w ->
     NoDup (map Vehicle.id (vehicles w)) ->
     get_vehicle vehicle_id true w = (w, Ok v)) /\
  (forall r, snd (get_vehicle vehicle_id true w) = Ok r ->
     r ∈ vehicles w /\ Vehicle.id r = vehicle_id).
Proof.
  split; [reflexivity|].
  unfold get_vehicle. run. fold (document vehicle_id w).
  repeat split.
  - destruct (document vehicle_id w) eqn:E; [discriminate|].
    intros _. by apply document_none.
  - intros H%document_none. by rewrite H.
  - intros v Hid Hin Hnd.
    destruct (document vehicle_id w) as [v'|] eqn:E.
    + apply document_some in E as [Hin' Hid'].
      assert (v' = v); [|by subst].
      apply list_elem_of_lookup_1 in Hin as (i & Hi).
      apply list_elem_of_lookup_1 in Hin' as (j & Hj).
      assert (i = j).
      { eapply NoDup_lookup; [exact Hnd| |].
        - rewrite list_lookup_fmap, Hi. reflexivity.
        - rewrite list_lookup_fmap, Hj. cbn. by rewrite Hid', Hid. }
      subst j. congruence.
    + apply document_none in E. exfalso. apply E.
      apply list_elem_of_fmap. by exists v.
  - destruct (document vehicle_id w) eqn:E; cbn in H; [|discriminate].
    injection H as <-. by apply document_some in E as [? _].
  - destruct (document vehicle_id w) eqn:E; cbn in H; [|discriminate].
    injection H as <-. by apply document_some in E as [_ ?].
Qed.

Lemma get_vehicle_finds_any_document_witness :
  get_vehicle "car-1" true Sample.trimmed_fleet
  = (Sample.trimmed_fleet, Ok (Sample.car "car-1" false)).
Proof.
  apply (proj1 (proj2 (proj2
           (get_vehicle_finds_any_document "car-1" Sample.trimmed_fleet)))).
  - reflexivity.
  - vm_compute. apply list_elem_of_here.
  - compute_done.
Defined.

Lemma find_app_absent vid (l l' : list Vehicle.t) :
  vid ∉ map Vehicle.id l ->
  List.find (fun v => String.eqb (Vehicle.id v) vid) (l ++ l')
  = List.find (fun v => String.eqb (Vehicle.id v) vid) l'.
Proof.
  induction l as [|d l IH]; [done|]. cbn. intros [Hne Hl]%not_elem_of_cons.
  destruct (String.eqb_spec (Vehicle.id d) vid) as [E|_]; [congruence|]. by apply IH.
Qed.

Lemma find_app_first (p : Vehicle.t -> bool) (l l' : list Vehicle.t) :
  List.find p (l ++ l')
  = match List.find p l with Some v => Some v | None => List.find p l' end.
Proof. induction l as [|d l IH]; [done|]. cbn. by destruct (p d). Qed.

Lemma update_first_last vid f (l : list Vehicle.t) v :
  vid ∉ map Vehicle.id l -> Vehicle.id v = vid ->
  Db.update_first vid f (l ++ [v]) = (l ++ [f v], 1%nat).
Proof.
  intros Hl Hv. induction l as [|d l IH]; cbn.
  - rewrite Hv, String.eqb_refl. done.
  - apply not_elem_of_cons in Hl as [Hne Hl].
    destruct (String.eqb_spec (Vehicle.id d) vid) as [E|_]; [congruence|].
    by rewrite (IH Hl).
Qed.

(** Registration: when the insert fails nothing changes. When it goes
    through under an identifier not in use, the returned vehicle is active
    and is what the single-vehicle route then returns, it has its initial
    state, no other vehicle's document or state is touched, no sample is
    stored, and with fewer than 100 active vehicles the listing route shows
    it last. *)
Theorem created_vehicle_is_registered (vehicle_data : VehicleCreate.t)
    (uuid : string) (now state_now : datetime) (rnd : InitDraws) (w : World) :
  let vehicle :=
    {| Vehicle.id := uuid;
       Vehicle.name := VehicleCreate.name vehicle_data;
       Vehicle.model := VehicleCreate.model vehicle_data;
       Vehicle.year := VehicleCreate.year vehicle_data;
       Vehicle.license_plate := VehicleCreate.license_plate vehicle_data;
       Vehicle.is_active := true;
       Vehicle.created_at := now |} in
  create_vehicle vehicle_data uuid now false state_now rnd w = (w, Raise DatabaseError) /\
  (uuid ∉ map Vehicle.id (vehicles w) ->
   exists w',
     create_vehicle vehicle_data uuid now true state_now rnd w = (w', Ok vehicle) /\
     get_vehicle uuid true w' = (w', Ok vehicle) /\
     vehicle_states w' !! uuid = Some (initialize_vehicle_state uuid state_now rnd) /\
     (forall other, other <> uuid ->
        document other w' = document other w /\
        vehicle_states w' !! other = vehicle_states w !! other) /\
     telemetry w' = telemetry w /\
     ((length (filter (fun v => Vehicle.is_active v = true) (vehicles w)) < 100)%nat ->
      snd (get_vehicles true w')
      = Ok (filter (fun v => Vehicle.is_active v = true) (vehicles w) ++ [vehicle]))).
Proof.
  intros vehicle. split; [reflexivity|]. intros Hfresh.
  eexists. split; [reflexivity|]. cbn [fst].
  repeat split.
  - unfold get_vehicle. run. cbn [vehicles set_vehicle_states set_vehicles].
    rewrite find_app_absent by done. cbn. by rewrite String.eqb_refl.
  - cbn. by rewrite lookup_insert_eq.
  - unfold document. cbn [vehicles set_vehicle_states set_vehicles].
    rewrite find_app_first. destruct (List.find _ (vehicles w)); [done|].
    cbn. destruct (String.eqb_spec uuid other); [congruence|done].
  - cbn. by rewrite lookup_insert_ne.
  - intros Hlen. unfold get_vehicles. run.
    cbn [vehicles set_vehicle_states set_vehicles snd].
    rewrite filter_app. rewrite filter_cons_True by done. rewrite filter_nil.
    rewrite take_ge; [done|]. rewrite length_app. cbn. lia.
Qed.

Lemma created_vehicle_is_registered_witness :
  exists w',
    create_vehicle Case.new_car "car-3" 1002 true 1002 Sample.init_draws Sample.fleet
    = (w', Ok {| Vehicle.id := "car-3";
                 Vehicle.name := VehicleCreate.name Case.new_car;
                 Vehicle.model := VehicleCreate.model Case.new_car;
                 Vehicle.year := VehicleCreate.year Case.new_car;
                 Vehicle.license_plate := VehicleCreate.license_plate Case.new_car;
                 Vehicle.is_active := true;
                 Vehicle.created_at := 1002 |}) /\
    get_vehicle "car-3" true w'
    = (w', Ok {| Vehicle.id := "car-3";
                 Vehicle.name := VehicleCreate.name Case.new_car;
                 Vehicle.model := VehicleCreate.model Case.new_car;
                 Vehicle.year := VehicleCreate.year Case.new_car;
                 Vehicle.license_plate := VehicleCreate.license_plate Case.new_car;
                 Vehicle.is_active := true;
                 Vehicle.created_at := 1002 |}).
Proof.
  destruct (proj2 (created_vehicle_is_registered Case.new_car "car-3" 1002 1002
                     Sample.init_draws Sample.fleet)) as (w' & H1 & H2 & _).
  - compute_done.
  - exists w'. split; assumption.
Defined.


(** Update: a failing [update_one] and an unknown identifier (404) leave
    the process as it was. For a known identifier the stored document gets
    the four fields replaced and keeps its activity, so a deleted vehicle
    can be updated and stays deleted; other documents, the states and the
    samples are untouched. The route then reads the document back: when that
    [find_one] goes through it returns the rewritten document, and when it
    fails the route raises although the update is stored. *)
Theorem update_keeps_activity (vehicle_id : string) (vehicle_data : VehicleCreate.t)
    (w : World) :
  (forall ok_find,
     update_vehicle vehicle_id vehicle_data false ok_find w
     = (w, Raise DatabaseError)) /\
  (forall ok_find,
     document vehicle_id w = None ->
     update_vehicle vehicle_id vehicle_data true ok_find w
     = (w, Raise (HTTPException 404))) /\
  (forall v, document vehicle_id w = Some v ->
     exists w',
       update_vehicle vehicle_id vehicle_data true true w
       = (w', Ok (set_vehicle_dict vehicle_id vehicle_data v)) /\
       update_vehicle vehicle_id vehicle_data true false w
       = (w', Raise DatabaseError) /\
       document vehicle_id w' = Some (set_vehicle_dict vehicle_id vehicle_data v) /\
       Vehicle.is_active (set_vehicle_dict vehicle_id vehicle_data v)
       = Vehicle.is_active v /\
       (forall other, other <> vehicle_id -> document other w' = document other w) /\
       length (vehicles w') = length (vehicles w) /\
       vehicle_states w' = vehicle_states w /\
       telemetry w' = telemetry w).
Proof.
  split; [reflexivity|]. split.
  - unfold document. intros ok_find Hnone. unfold update_vehicle. run.
    rewrite update_first_missing by done. cbn. by rewrite set_vehicles_same.
  - unfold document. intros v Hv.
    destruct (update_first_found vehicle_id (set_vehicle_dict vehicle_id vehicle_data)
                (vehicles w) v Hv eq_refl) as (Hn & Hfind & Hlen).
    unfold update_vehicle. run.
    destruct (Db.update_first vehicle_id _ (vehicles w)) as [docs n] eqn:E.
    cbn [fst snd] in *. subst n. cbn [Nat.eqb vehicles set_vehicles].
    rewrite Hfind. eexists. split; [reflexivity|]. split; [reflexivity|].
    cbn [vehicles set_vehicles vehicle_states telemetry].
    repeat split; try done.
    intros other Hne.
    pose proof (update_first_other vehicle_id other
                  (set_vehicle_dict vehicle_id vehicle_data) (vehicles w) Hne) as Ho.
    rewrite E in Ho. apply Ho. done.
Qed.

Lemma update_keeps_activity_witness :
  exists w',
    update_vehicle "car-1" Case.new_car true true Sample.trimmed_fleet
    = (w', Ok (set_vehicle_dict "car-1" Case.new_car (Sample.car "car-1" false))) /\
    update_vehicle "car-1" Case.new_car true false Sample.trimmed_fleet
    = (w', Raise DatabaseError) /\
    document "car-1" w'
    = Some (set_vehicle_dict "car-1" Case.new_car (Sample.car "car-1" false)) /\
    Vehicle.is_active (set_vehicle_dict "car-1" Case.new_car (Sample.car "car-1" false))
    = false.
Proof.
  destruct (proj2 (proj2 (update_keeps_activity "car-1" Case.new_car
                            Sample.trimmed_fleet)) (Sample.car "car-1" false))
    as (w' & H1 & H2 & H3 & H4 & _).
  - reflexivity.
  - exists w'. repeat split; assumption.
Defined.

(** Deletion: a failing database call and an unknown identifier (404) leave
    the process as it was. For a known identifier the document stays in the
    registry, marked inactive, and the single-vehicle route still returns
    it; other documents and the samples are untouched, the vehicle's state
    is dropped, and deleting it once more succeeds again and changes
    nothing. *)
Theorem delete_is_soft (vehicle_id : string) (w : World) :
  delete_vehicle vehicle_id false w = (w, Raise DatabaseError) /\
  (document vehicle_id w = None ->
   delete_vehicle vehicle_id true w = (w, Raise (HTTPException 404))) /\
  (forall v, document vehicle_id w = Some v ->
     exists w',
       delete_vehicle vehicle_id true w = (w', Ok tt) /\
       get_vehicle vehicle_id true w' = (w', Ok (set_inactive v)) /\
       (forall other, other <> vehicle_id -> document other w' = document other w) /\
       length (vehicles w') = length (vehicles w) /\
       vehicle_states w' = delete vehicle_id (vehicle_states w) /\
       telemetry w' = telemetry w /\
       delete_vehicle vehicle_id true w' = (w', Ok tt)).
Proof.
  split; [reflexivity|]. split.
  - unfold document. intros Hnone. rewrite delete_vehicle_unfold.
    rewrite update_first_missing by done. cbn. by rewrite set_vehicles_same.
  - unfold document. intros v Hv.
    assert (Hid : Vehicle.id (set_inactive v) = vehicle_id).
    { apply find_some in Hv as [_ Hv]. by apply String.eqb_eq in Hv. }
    destruct (update_first_found vehicle_id set_inactive (vehicles w) v Hv Hid)
      as (Hn & Hfind & Hlen).
    rewrite delete_vehicle_unfold. rewrite Hn. cbn [Nat.eqb].
    eexists. split; [reflexivity|].
    split.
    { unfold get_vehicle. run. cbn [vehicles set_vehicle_states set_vehicles].
      by rewrite Hfind. }
    split.
    { intros other Hne. unfold document.
      cbn [vehicles set_vehicle_states set_vehicles].
      by apply update_first_other. }
    split; [done|]. split; [done|]. split; [done|].
    rewrite delete_vehicle_unfold. cbn [vehicles set_vehicle_states set_vehicles].
    assert (Hid' : Vehicle.id (set_inactive (set_inactive v)) = vehicle_id) by done.
    destruct (update_first_found vehicle_id set_inactive _ _ Hfind Hid') as (Hn' & _).
    rewrite Hn'. cbn [Nat.eqb].
    rewrite update_first_twice by done.
    cbn [vehicle_states set_vehicle_states set_vehicles].
    rewrite delete_delete_eq. reflexivity.
Qed.

Lemma delete_is_soft_witness :
  exists w',
    delete_vehicle "car-1" true Sample.fleet = (w', Ok tt) /\
    get_vehicle "car-1" true w' = (w', Ok (set_inactive (Sample.car "car-1" true))) /\
    delete_vehicle "car-1" true w' = (w', Ok tt).
Proof.
  destruct (proj2 (proj2 (delete_is_soft "car-1" Sample.fleet))
              (Sample.car "car-1" true))
    as (w' & H1 & H2 & _ & _ & _ & _ & H3).
  - reflexivity.
  - exists w'. repeat split; assumption.
Defined.

(** Registering a vehicle under an identifier not in use and deleting it
    leaves no state for the identifier: the simulation states are those
    from before without an entry for it, hence exactly those from before
    when none was held (an entry left behind for the identifier is removed
    with it). What the loop fetches is as before, no sample is stored, and
    the registry has one more document: the inactive one, which the
    single-vehicle route still returns. *)
Theorem create_then_delete (vehicle_data : VehicleCreate.t) (uuid : string)
    (now state_now : datetime) (rnd : InitDraws) (w : World) :
  uuid ∉ map Vehicle.id (vehicles w) ->
  let w1 := fst (create_vehicle vehicle_data uuid now true state_now rnd w) in
  let w2 := fst (delete_vehicle uuid true w1) in
  snd (delete_vehicle uuid true w1) = Ok tt /\
  vehicle_states w2 = delete uuid (vehicle_states w) /\
  (vehicle_states w !! uuid = None -> vehicle_states w2 = vehicle_states w) /\
  fetched w2 = fetched w /\
  length (vehicles w2) = S (length (vehicles w)) /\
  telemetry w2 = telemetry w /\
  snd (get_vehicle uuid true w2)
  = Ok {| Vehicle.id := uuid;
          Vehicle.name := VehicleCreate.name vehicle_data;
          Vehicle.model := VehicleCreate.model vehicle_data;
          Vehicle.year := VehicleCreate.year vehicle_data;
          Vehicle.license_plate := VehicleCreate.license_plate vehicle_data;
          Vehicle.is_active := false;
          Vehicle.created_at := now |}.
Proof.
  intros Hfresh w1 w2. subst w2. rewrite delete_vehicle_unfold.
  subst w1. cbn [fst create_vehicle]. unfold create_vehicle. run.
  cbn [fst vehicles set_vehicle_states set_vehicles vehicle_states].
  rewrite update_first_last by done. cbn [fst snd Nat.eqb].
  cbn [vehicle_states set_vehicle_states set_vehicles vehicles telemetry].
  split; [reflexivity|]. split; [apply delete_insert_eq|].
  split; [intros Hstate; by apply delete_insert_id|].
  split.
  { unfold fetched. cbn [vehicles set_vehicle_states set_vehicles]. rewrite filter_app.
    rewrite filter_cons_False by done. rewrite filter_nil. by rewrite app_nil_r. }
  split; [rewrite length_app; cbn; lia|]. split; [reflexivity|].
  unfold get_vehicle. run. cbn [vehicles set_vehicle_states set_vehicles].
  rewrite find_app_absent by done. cbn. by rewrite String.eqb_refl.
Qed.

Lemma create_then_delete_witness :
  let w1 := fst (create_vehicle Case.new_car "car-3" 1002 true 1002 Sample.init_draws
                   Sample.fleet) in
  let w2 := fst (delete_vehicle "car-3" true w1) in
  snd (delete_vehicle "car-3" true w1) = Ok tt /\
  vehicle_states w2 = delete "car-3"%string (vehicle_states Sample.fleet) /\
  (vehicle_states Sample.fleet !! "car-3"%string = None ->
   vehicle_states w2 = vehicle_states Sample.fleet) /\
  fetched w2 = fetched Sample.fleet /\
  length (vehicles w2) = S (length (vehicles Sample.fleet)) /\
  telemetry w2 = telemetry Sample.fleet /\
  snd (get_vehicle "car-3" true w2)
  = Ok {| Vehicle.id := "car-3";
          Vehicle.name := VehicleCreate.name Case.new_car;
          Vehicle.model := VehicleCreate.model Case.new_car;
          Vehicle.year := VehicleCreate.year Case.new_car;
          Vehicle.license_plate := VehicleCreate.license_plate Case.new_car;
          Vehicle.is_active := false;
          Vehicle.created_at := 1002 |}.
Proof.
  apply create_then_delete. compute_done.
Defined.

(** ** The telemetry routes *)

Lemma newer_first_le a b :
  newer_first a b <-> TelemetryData.timestamp b <= TelemetryData.timestamp a.
Proof. apply Qle_bool_iff. Qed.

Lemma older_first_le a b :
  older_first a b <-> TelemetryData.timestamp a <= TelemetryData.timestamp b.
Proof. apply Qle_bool_iff. Qed.

#[local] Instance newer_first_trans : Transitive newer_first.
Proof. intros a b c. rewrite !newer_first_le. intros. by apply Qle_trans with (TelemetryData.timestamp b). Qed.

#[local] Instance newer_first_total : Total newer_first.
Proof.
  intros a b. rewrite !newer_first_le.
  destruct (Qlt_le_dec (TelemetryData.timestamp a) (TelemetryData.timestamp b));
    [right; by apply Qlt_le_weak|by left].
Qed.

#[local] Instance older_first_trans : Transitive older_first.
Proof. intros a b c. rewrite !older_first_le. intros. by apply Qle_trans with (TelemetryData.timestamp b). Qed.

#[local] Instance older_first_total : Total older_first.
Proof.
  intros a b. rewrite !older_first_le.
  destruct (Qlt_le_dec (TelemetryData.timestamp a) (TelemetryData.timestamp b));
    [left; by apply Qlt_le_weak|by right].
Qed.

(** The first [n] of a sorted list and what it leaves out. *)
Lemma take_sorted {A} (R : relation A) `{!RelDecision R, !Transitive R, !Total R}
    (n : nat) (l : list A) :
  take n (merge_sort R l) ++ drop n (merge_sort R l) ≡ₚ l /\
  StronglySorted R (take n (merge_sort R l)) /\
  (forall a b, a ∈ take n (merge_sort R l) -> b ∈ drop n (merge_sort R l) -> R a b) /\
  length (take n (merge_sort R l)) = (n `min` length l)%nat /\
  (forall a, a ∈ take n (merge_sort R l) -> a ∈ l).
Proof.
  pose proof (StronglySorted_merge_sort R l) as Hs.
  pose proof (merge_sort_Permutation R l) as Hp.
  rewrite <- (take_drop n (merge_sort R l)) in Hs.
  apply StronglySorted_app in Hs as (Hab & Hl & _).
  split; [by rewrite take_drop|]. split; [done|]. split; [done|].
  split.
  - rewrite length_take. by rewrite (Permutation_length Hp).
  - intros a Ha. rewrite <- Hp. by eapply subseteq_take.
Qed.

(** The history route: when the database call fails it raises; otherwise it
    returns, without changing anything, min(limit, n) of the n stored
    samples of the vehicle, newest first, each at least as recent as every
    sample of the vehicle it leaves out; a vehicle without samples, known
    or not, gets an empty list and no 404. *)
Theorem history_newest_first (vehicle_id : string) (limit : nat) (w : World) :
  get_vehicle_telemetry vehicle_id limit false w = (w, Raise DatabaseError) /\
  exists listed rest,
    get_vehicle_telemetry vehicle_id limit true w = (w, Ok listed) /\
    listed ++ rest ≡ₚ samples_of vehicle_id (telemetry w) /\
    length listed = (limit `min` length (samples_of vehicle_id (telemetry w)))%nat /\
    StronglySorted newer_first listed /\
    (forall a b, a ∈ listed -> b ∈ rest ->
       TelemetryData.timestamp b <= TelemetryData.timestamp a) /\
    (forall a, a ∈ listed -> a ∈ telemetry w /\ TelemetryData.vehicle_id a = vehicle_id) /\
    (vehicle_id ∉ map TelemetryData.vehicle_id (telemetry w) -> listed = []).
Proof.
  split; [reflexivity|].
  set (S := samples_of vehicle_id (telemetry w)).
  destruct (take_sorted newer_first limit S) as (Hp & Hs & Hab & Hlen & Hin).
  exists (take limit (merge_sort newer_first S)), (drop limit (merge_sort newer_first S)).
  split.
  { unfold get_vehicle_telemetry. run. fold S. by rewrite take_idemp. }
  split; [done|]. split; [done|]. split; [done|]. split.
  { intros a b Ha Hb. apply newer_first_le. by apply Hab. }
  split.
  { intros a Ha. apply Hin in Ha. unfold S, samples_of in Ha.
    apply list_elem_of_filter in Ha as [? ?]. done. }
  intros Hnone. apply length_zero_iff_nil.
  rewrite Hlen. unfold S. rewrite samples_of_ids by done. cbn. lia.
Qed.

Lemma history_newest_first_witness :
  exists listed rest : list TelemetryData.t,
    get_vehicle_telemetry "car-1" 1 true Case.logbook = (Case.logbook, Ok listed) /\
    length listed = 1%nat /\
    (forall a b, a ∈ listed -> b ∈ rest ->
       TelemetryData.timestamp b <= TelemetryData.timestamp a).
Proof.
  destruct (proj2 (history_newest_first "car-1" 1 Case.logbook))
    as (listed & rest & H1 & _ & H2 & _ & H3 & _).
  exists listed, rest. repeat split; assumption.
Defined.

Lemma midnight_bounds (now : Q) : midnight now <= now /\ now < midnight now + 86400.
Proof.
  unfold midnight. set (x := now / 86400).
  assert (Hx : x * 86400 == now) by (unfold x; field).
  pose proof (Qfloor_le x) as H1. pose proof (Qlt_floor x) as H2.
  rewrite inject_Z_plus in H2. change (inject_Z 1) with 1 in H2.
  split; lra.
Qed.

(** The export route. The start of its window is computed first: for more
    than 106751 days either way, or a start outside the years 1 to 9999,
    the route raises before it calls the database. Otherwise the window
    starts at midnight UTC, between days and days + 1 days before the call;
    the route raises when the database call fails, answers 404 exactly when
    no sample of the vehicle lies in the window, and otherwise returns the
    rows of the samples of the vehicle in the window, oldest first and at
    most 10000, under the name telemetry_<id>_<days>days.csv. *)
Theorem export_window (to_csv : list ExportRow.t -> string) (vehicle_id : string)
    (days : Z) (now : datetime) (w : World) :
  (forall e ok,
     from_date now days = Raise e ->
     export_vehicle_telemetry to_csv vehicle_id days now ok w = (w, Raise e)) /\
  ((106751 < Z.abs days)%Z -> from_date now days = Raise OverflowError) /\
  (forall start,
     from_date now days = Ok start ->
     let rows := export_data vehicle_id start (telemetry w) in
     (Z.abs days <= 106751)%Z /\
     export_vehicle_telemetry to_csv vehicle_id days now false w
     = (w, Raise DatabaseError) /\
     (now - (inject_Z days + 1) * 86400 < start /\
      start <= now - inject_Z days * 86400) /\
     ((forall t, t ∈ telemetry w -> TelemetryData.vehicle_id t = vehicle_id ->
         TelemetryData.timestamp t < start) <->
      export_vehicle_telemetry to_csv vehicle_id days now true w
      = (w, Raise (HTTPException 404))) /\
     (rows <> [] ->
      export_vehicle_telemetry to_csv vehicle_id days now true w
      = (w, Ok {| Response.body := to_csv (map export_row rows);
                  Response.media_type := "text/csv";
                  Response.content_disposition :=
                    "attachment; filename=telemetry_" +:+ vehicle_id +:+ "_"
                      +:+ pretty days +:+ "days.csv" |})) /\
     StronglySorted older_first rows /\
     (length rows <= 100 * 100)%nat /\
     (forall t, t ∈ rows ->
        t ∈ telemetry w /\ TelemetryData.vehicle_id t = vehicle_id /\
        start <= TelemetryData.timestamp t)).
Proof.
  split.
  { intros e ok He. unfold export_vehicle_telemetry, bind, lift. by rewrite He. }
  split.
  { intros Hbig. unfold from_date, timedelta_days.
    assert (E : (Z.abs days <=? 106751)%Z = false) by (apply Z.leb_gt; lia).
    by rewrite E. }
  intros start Hstart rows.
  assert (Hdays : (Z.abs days <= 106751)%Z /\
                  start = midnight now - inject_Z days * 86400).
  { unfold from_date, timedelta_days, datetime_sub in Hstart.
    destruct (Z.abs days <=? 106751)%Z eqn:E; [|discriminate].
    apply Z.leb_le in E. split; [done|].
    destruct (Qle_bool datetime_min _ && Qle_bool _ datetime_max);
      [|discriminate].
    by injection Hstart as <-. }
  destruct Hdays as [Hdays Hval].
  split; [done|].
  split.
  { unfold export_vehicle_telemetry, bind, lift. by rewrite Hstart. }
  split.
  { rewrite Hval. pose proof (midnight_bounds now). lra. }
  set (S := filter (fun data => Qle_bool start (TelemetryData.timestamp data) = true)
              (samples_of vehicle_id (telemetry w))).
  destruct (take_sorted older_first (100 * 100) S) as (Hp & Hs & Hab & Hlen & Hin).
  assert (Hrows : rows = take (100 * 100) (merge_sort older_first S)) by reflexivity.
  assert (Hmem : forall t, t ∈ S <->
            t ∈ telemetry w /\ TelemetryData.vehicle_id t = vehicle_id /\
            start <= TelemetryData.timestamp t).
  { intros t. unfold S, samples_of. rewrite !list_elem_of_filter, Qle_bool_iff. tauto. }
  assert (Hnil : rows = [] <-> S = []).
  { rewrite <- !length_zero_iff_nil. rewrite Hrows, Hlen.
    destruct (length S); cbn; lia. }
  assert (Hrun : export_vehicle_telemetry to_csv vehicle_id days now true w
    = match rows with
      | [] => (w, Raise (HTTPException 404))
      | _ :: _ =>
          (w, Ok {| Response.body := to_csv (map export_row rows);
                    Response.media_type := "text/csv";
                    Response.content_disposition :=
                      "attachment; filename=telemetry_" +:+ vehicle_id +:+ "_"
                        +:+ pretty days +:+ "days.csv" |})
      end).
  { unfold export_vehicle_telemetry, bind, lift. rewrite Hstart. run.
    fold rows. by destruct rows. }
  rewrite Hrun.
  split.
  { split.
    - intros Hold. assert (HS : S = []).
      { destruct S as [|t S'] eqn:E; [done|]. exfalso.
        assert (Ht : t ∈ S) by (rewrite E; apply list_elem_of_here).
        rewrite <- E in Hmem.
        apply Hmem in Ht as (H1 & H2 & H3). pose proof (Hold t H1 H2). lra. }
      apply Hnil in HS. by rewrite HS.
    - destruct rows as [|r rows'] eqn:E; [|discriminate]. intros _.
      assert (HS : S = []) by by apply Hnil.
      intros t H1 H2. apply Qnot_le_lt. intros H3.
      assert (Ht : t ∈ S) by by apply Hmem.
      rewrite HS in Ht. by apply not_elem_of_nil in Ht. }
  split.
  { intros Hne. by destruct rows. }
  split; [by rewrite Hrows|]. split.
  { rewrite Hrows, Hlen. lia. }
  intros t Ht. apply Hmem, Hin. by rewrite <- Hrows.
Qed.

Lemma export_window_witness :
  export_vehicle_telemetry Case.to_csv "car-1" 0 1003 true Case.logbook
  = (Case.logbook,
     Ok {| Response.body :=
             Case.to_csv (map export_row (export_data "car-1" 0 (telemetry Case.logbook)));
           Response.media_type := "text/csv";
           Response.content_disposition :=
             "attachment; filename=telemetry_" +:+ "car-1" +:+ "_"
               +:+ pretty 0%Z +:+ "days.csv" |}).
Proof.
  destruct (proj2 (proj2 (export_window Case.to_csv "car-1" 0 1003 Case.logbook))
              (midnight 1003 - inject_Z 0 * 86400))
    as (_ & _ & _ & _ & H & _).
  - reflexivity.
  - rewrite H; [reflexivity|]. vm_compute. discriminate.
Defined.

(** ** States and samples after a turn *)




